(** * File-mailbox IPC: the record codec, the ping server, the ping client
      and the single-mailbox pair, embedded from the C++ sources.

    Conventions of the embedding.
    - [int] is a [Z]; arithmetic that can leave the 32-bit range is wrapped
      with [wrap_int] (signed overflow is undefined in C++; the usual
      two's-complement result is taken).
    - [char] is an [ascii]; a [char] array and the bytes of a file are a
      [list ascii]; a [std::string] is a [string].
    - A [Message] object is its fields; its bytes in memory (what [read] and
      [write] transfer) are [encode] of it, little-endian [int]s first.
    - A file descriptor is a [Handle]: the bytes stored from offset 0 and the
      faults the device may raise on [lseek], [read] and [write].
    - A process runs in a [World]: its mailbox handle, the steady clock, the
      [running] flag, the trace of what it did, and the script of what the
      rest of the system does before each of its own operations.
    - Console output of the servers ([logEvent], [std::cerr]) is left out;
      the clients' console lines are [EvPrint] events. *)

From Stdlib Require Import ZArith String Ascii List Lia DecimalString DecimalPos.
From stdpp Require Import gmap strings list sorting.
Import ListNotations.

(** ** Machine integers and bytes *)

Definition INT_MAX : Z := 2147483647.
Definition INT_MIN : Z := -2147483648.

Definition wrap_int (z : Z) : Z := ((z + 2147483648) mod 4294967296 - 2147483648)%Z.

Definition in_int_range (z : Z) : bool := ((INT_MIN <=? z) && (z <=? INT_MAX))%Z.

Definition NUL : ascii := Ascii.zero.

Definition byte_val (c : ascii) : Z := Z.of_N (N_of_ascii c).

Definition byte_of (z : Z) : ascii := ascii_of_N (Z.to_N (z mod 256)).

(** The four bytes of an [int], least significant first. *)
Definition int_bytes (z : Z) : list ascii :=
  [byte_of z; byte_of (z / 256); byte_of (z / 65536); byte_of (z / 16777216)].

(** The [int] stored in (up to) four bytes; a missing byte counts as 0. *)
Definition bytes_int (bs : list ascii) : Z :=
  wrap_int (byte_val (nth 0 bs NUL) + 256 * byte_val (nth 1 bs NUL)
            + 65536 * byte_val (nth 2 bs NUL) + 16777216 * byte_val (nth 3 bs NUL)).

(** A [char] array of exactly [n] cells holding [l], cut or filled with NUL. *)
Definition pad (n : nat) (l : list ascii) : list ascii := take n (l ++ replicate n NUL).

(** ** C strings and the [std::string] operations the programs use *)

(** [std::string(const char* )]: the characters before the first NUL. Every
    array the programs pass holds a NUL except a 256-byte payload read from a
    file that has none; the C++ code then reads past the array, the model
    stops at its end. *)
Fixpoint c_str (text : list ascii) : string :=
  match text with
  | [] => EmptyString
  | c :: rest => if Ascii.eqb c NUL then EmptyString else String c (c_str rest)
  end.

(** The characters [strncpy] and friends see in [s.c_str()]. *)
Fixpoint c_chars (s : string) : list ascii :=
  match s with
  | EmptyString => []
  | String c rest => if Ascii.eqb c NUL then [] else c :: c_chars rest
  end.

(** [strncpy(data, s.c_str(), sizeof(data) - 1); data[sizeof(data) - 1] = 0]
    on a 256-byte array. *)
Definition store_text (s : string) : list ascii := pad 255 (c_chars s) ++ [NUL].

(** [s.find(t)]; [None] is [npos]. *)
Fixpoint find (s t : string) : option nat :=
  if String.prefix t s then Some 0%nat
  else match s with
       | EmptyString => None
       | String _ rest => option_map S (find rest t)
       end.

(** [s.find(c)] for a character. *)
Fixpoint find_char (s : string) (c : ascii) : option nat :=
  match s with
  | EmptyString => None
  | String d rest => if Ascii.eqb d c then Some 0%nat else option_map S (find_char rest c)
  end.

Fixpoint drop_chars (n : nat) (s : string) : string :=
  match n, s with
  | O, _ => s
  | S n', String _ rest => drop_chars n' rest
  | S _, EmptyString => EmptyString
  end.

Fixpoint take_chars (n : nat) (s : string) : string :=
  match n, s with
  | S n', String c rest => String c (take_chars n' rest)
  | _, _ => EmptyString
  end.

(** [s.substr(pos, count)]; [count = None] is [npos] (to the end). The
    programs never call it with [pos] beyond the size (which would throw). *)
Definition substr (s : string) (pos : nat) (count : option nat) : string :=
  match count with
  | None => drop_chars pos s
  | Some n => take_chars n (drop_chars pos s)
  end.

Fixpoint mem_char (c : ascii) (set : string) : bool :=
  match set with
  | EmptyString => false
  | String d rest => Ascii.eqb c d || mem_char c rest
  end.

Fixpoint find_first_not_of (s set : string) : option nat :=
  match s with
  | EmptyString => None
  | String c rest =>
      if mem_char c set then option_map S (find_first_not_of rest set) else Some 0%nat
  end.

Fixpoint find_last_not_of (s set : string) : option nat :=
  match s with
  | EmptyString => None
  | String c rest =>
      match find_last_not_of rest set with
      | Some i => Some (S i)
      | None => if mem_char c set then None else Some 0%nat
      end
  end.

(** [std::tolower] in the "C" locale (the programs never call [setlocale]). *)
Definition tolower (c : ascii) : ascii :=
  let n := N_of_ascii c in
  if ((65 <=? n) && (n <=? 90))%N then ascii_of_N (n + 32) else c.

Fixpoint transform (f : ascii -> ascii) (s : string) : string :=
  match s with
  | EmptyString => EmptyString
  | String c rest => String (f c) (transform f rest)
  end.

(** [std::to_string(int)]. *)
Definition to_string (z : Z) : string := NilZero.string_of_int (Z.to_int z).

(** [std::isspace] in the "C" locale. *)
Definition isspace (c : ascii) : bool :=
  let n := N_of_ascii c in ((n =? 32) || ((9 <=? n) && (n <=? 13)))%N.

Definition digit_of (c : ascii) : option Z :=
  let n := N_of_ascii c in
  if ((48 <=? n) && (n <=? 57))%N then Some (Z.of_N n - 48)%Z else None.

Fixpoint skip_spaces (s : string) : string :=
  match s with
  | String c rest => if isspace c then skip_spaces rest else s
  | EmptyString => EmptyString
  end.

(** The value of the longest prefix of decimal digits, after [acc]. *)
Fixpoint digits_value (acc : Z) (s : string) : Z :=
  match s with
  | String c rest =>
      match digit_of c with
      | Some d => digits_value (10 * acc + d)%Z rest
      | None => acc
      end
  | EmptyString => acc
  end.

Definition starts_with_digit (s : string) : bool :=
  match s with
  | String c _ => match digit_of c with Some _ => true | None => false end
  | EmptyString => false
  end.

(** [std::stoi(s)]: leading white space, an optional sign, then digits; what
    follows the digits is ignored. [None] stands for the exception thrown when
    there is no digit ([invalid_argument]) or the value does not fit an [int]
    ([out_of_range]). *)
Definition stoi (s : string) : option Z :=
  let s1 := skip_spaces s in
  let '(neg, s2) :=
    match s1 with
    | String "-"%char rest => (true, rest)
    | String "+"%char rest => (false, rest)
    | _ => (false, s1)
    end in
  if starts_with_digit s2 then
    let v := digits_value 0 s2 in
    let v' := if neg then (- v)%Z else v in
    if in_int_range v' then Some v' else None
  else None.

(** ** File handles and the system calls on them *)

Record Handle := mkHandle {
  h_seek_ok : bool;           (* lseek(fd, 0, SEEK_SET) succeeds *)
  h_read_ok : bool;           (* read does not return -1 *)
  h_write_cap : option nat;   (* None: write returns -1; Some k: at most k bytes are taken *)
  h_rdwr_ok : bool;           (* open(name, O_RDWR) is permitted *)
  h_bytes : list ascii        (* the bytes stored from offset 0 *)
}.

Definition healthy (bs : list ascii) : Handle :=
  {| h_seek_ok := true; h_read_ok := true; h_write_cap := Some 4096%nat;
     h_rdwr_ok := true; h_bytes := bs |}.

(** The descriptor -1: every call on it fails. *)
Definition no_descriptor : Handle :=
  {| h_seek_ok := false; h_read_ok := false; h_write_cap := None;
     h_rdwr_ok := false; h_bytes := [] |}.

(** [lseek(fd, 0, SEEK_SET)]. *)
Definition lseek (fd : Handle) : Z := if h_seek_ok fd then 0%Z else (-1)%Z.

(** [read(fd, buf, n)] at offset 0: the count returned and the bytes put at
    the start of [buf]. *)
Definition read (fd : Handle) (n : nat) : Z * list ascii :=
  if h_read_ok fd then
    let bs := take n (h_bytes fd) in (Z.of_nat (length bs), bs)
  else ((-1)%Z, []).

(** [write(fd, buf, n)] at offset 0, [buf] being the [n] bytes to store. *)
Definition write (fd : Handle) (buf : list ascii) : Z * Handle :=
  match h_write_cap fd with
  | None => ((-1)%Z, fd)
  | Some k =>
      let bs := take k buf in
      (Z.of_nat (length bs),
       {| h_seek_ok := h_seek_ok fd; h_read_ok := h_read_ok fd;
          h_write_cap := h_write_cap fd; h_rdwr_ok := h_rdwr_ok fd;
          h_bytes := bs ++ drop (length bs) (h_bytes fd) |})
  end.

(** [lseek(fd, 0, SEEK_END)]: the size of the file, or -1 on a descriptor
    that cannot seek. *)
Definition lseek_end (fd : Handle) : Z :=
  if h_seek_ok fd then Z.of_nat (length (h_bytes fd)) else (-1)%Z.

(** ** The world a process runs in *)

Inductive Event :=
| EvWriteMessage (record : list ascii) (ok : bool)  (* writeMessage(fd, msg) and its result *)
| EvSleep (ms : Z)                                 (* std::this_thread::sleep_for *)
| EvPrint (line : string).                         (* a line on the client's console *)

(** What the rest of the system does between two operations of the process:
    time passes, a termination signal may arrive, other processes (or the
    device) may change the mailbox. *)
Record Interference := mkInterference {
  i_elapsed : Z;
  i_signal : bool;
  i_mailbox : Handle -> Handle
}.

Record World := mkWorld {
  w_mailbox : Handle;          (* the file behind fd *)
  w_now : Z;                   (* std::chrono::steady_clock, in ms *)
  w_running : bool;            (* std::atomic<bool> running *)
  w_trace : list Event;        (* what the process did, oldest first *)
  w_env : list Interference    (* what is still to happen around it *)
}.

(** The next interference happens (none once the script is used up). *)
Definition tick (w : World) : World :=
  match w_env w with
  | [] => w
  | i :: rest =>
      {| w_mailbox := i_mailbox i (w_mailbox w);
         w_now := (w_now w + Z.max 0 (i_elapsed i))%Z;
         w_running := w_running w && negb (i_signal i);
         w_trace := w_trace w;
         w_env := rest |}
  end.

Definition emit (e : Event) (w : World) : World :=
  {| w_mailbox := w_mailbox w; w_now := w_now w; w_running := w_running w;
     w_trace := w_trace w ++ [e]; w_env := w_env w |}.

Definition set_mailbox (h : Handle) (w : World) : World :=
  {| w_mailbox := h; w_now := w_now w; w_running := w_running w;
     w_trace := w_trace w; w_env := w_env w |}.

Definition advance (ms : Z) (w : World) : World :=
  {| w_mailbox := w_mailbox w; w_now := (w_now w + ms)%Z; w_running := w_running w;
     w_trace := w_trace w; w_env := w_env w |}.

(** State passing over the world. *)
Definition M (A : Type) : Type := World -> A * World.

#[global] Instance M_ret : MRet M := fun A a w => (a, w).
#[global] Instance M_bind : MBind M :=
  fun A B k m w => let '(a, w') := m w in k a w'.

(** [running] as the process reads it. *)
Definition load_running : M bool := fun w => let w' := tick w in (w_running w', w').

(** [std::chrono::steady_clock::now()]. *)
Definition steady_now : M Z := fun w => let w' := tick w in (w_now w', w').

Definition sleep_for (ms : Z) : M unit :=
  fun w => (tt, emit (EvSleep ms) (advance ms (tick w))).

Definition print (line : string) : M unit := fun w => (tt, emit (EvPrint line) w).

(** [running = false] by the process itself. *)
Definition store_running (b : bool) : M unit :=
  fun w => (tt, {| w_mailbox := w_mailbox w; w_now := w_now w; w_running := b;
                   w_trace := w_trace w; w_env := w_env w |}).

(** [lseek(fd, 0, SEEK_END)] on the mailbox. *)
Definition io_lseek_end : M Z :=
  fun w => let w' := tick w in (lseek_end (w_mailbox w'), w').

(** [open(filename, O_RDWR)] of the file that is the mailbox: whether a
    descriptor is obtained. *)
Definition io_open : M bool :=
  fun w => let w' := tick w in (h_rdwr_ok (w_mailbox w'), w').

(** Standard input as [std::getline] finds it: the lines still to be read,
    whether the last line of the input ends in a newline, and whether the
    stream is still good (neither [eofbit] nor [failbit] set). *)
Record Stdin := mkStdin {
  in_lines : list string;
  in_newline_at_end : bool;
  in_good : bool
}.

(** [std::getline(std::cin, input)]: [input] and the stream afterwards. On a
    stream that is not good the call fails before it touches [input]. On a
    good stream [input] is erased and filled with the next line; reading a
    last line that no newline ends, or finding no line at all, runs into the
    end of the input and leaves the stream not good. *)
Definition getline (input : string) (stdin : Stdin) : string * Stdin :=
  if negb (in_good stdin) then (input, stdin)
  else
    match in_lines stdin with
    | [] =>
        (EmptyString,
         {| in_lines := []; in_newline_at_end := in_newline_at_end stdin;
            in_good := false |})
    | [line] =>
        (line,
         {| in_lines := []; in_newline_at_end := in_newline_at_end stdin;
            in_good := in_newline_at_end stdin |})
    | line :: rest =>
        (line,
         {| in_lines := rest; in_newline_at_end := in_newline_at_end stdin;
            in_good := true |})
    end.

(** The file system as [open] sees it. *)
Record FS := mkFS {
  fs_files : gmap string Handle;
  fs_can_create : bool          (* the directory accepts new files *)
}.

(** [open(name, O_RDWR)]. *)
Definition open_rdwr (fs : FS) (name : string) : option Handle :=
  match fs_files fs !! name with
  | Some h => if h_rdwr_ok h then Some h else None
  | None => None
  end.

(** [open(name, O_RDWR | O_CREAT | O_EXCL, S_IRUSR | S_IWUSR)]. *)
Definition open_excl (fs : FS) (name : string) : option Handle * FS :=
  match fs_files fs !! name with
  | Some _ => (None, fs)
  | None =>
      if fs_can_create fs then
        (Some (healthy []),
         {| fs_files := <[name := healthy []]> (fs_files fs);
            fs_can_create := fs_can_create fs |})
      else (None, fs)
  end.

(** [unlink(name)]; removing an entry needs the same permission on the
    directory as creating one. *)
Definition unlink (fs : FS) (name : string) : bool * FS :=
  match fs_files fs !! name with
  | Some _ =>
      if fs_can_create fs then
        (true, {| fs_files := delete name (fs_files fs);
                  fs_can_create := fs_can_create fs |})
      else (false, fs)
  | None => (false, fs)
  end.

(** The file [name] now holds what was written through the descriptor [fd]. *)
Definition stored (fs : FS) (name : string) (fd : Handle) : FS :=
  match fs_files fs !! name with
  | Some _ => {| fs_files := <[name := fd]> (fs_files fs);
                 fs_can_create := fs_can_create fs |}
  | None => fs
  end.

(** ** The multi-instance ping protocol: server.cpp and client.cpp *)
Module Ping.

(** [struct Message { int status; int client_id; char data[256]; }]. *)
Record Message := mkMessage {
  status : Z;
  client_id : Z;
  data : list ascii
}.

Definition sizeof_Message : nat := 264.

Definition SERVER_FILE_PREFIX : string := "ipc_server_".

(** The object representation of a [Message]. *)
Definition encode (m : Message) : list ascii :=
  int_bytes (status m) ++ int_bytes (client_id m) ++ pad 256 (data m).

Definition decode (bs : list ascii) : Message :=
  {| status := bytes_int (take 4 bs);
     client_id := bytes_int (take 4 (drop 4 bs));
     data := pad 256 (drop 8 bs) |}.

(** [Message msg{}] and [memset(&msg, 0, sizeof(Message))]. *)
Definition zero_Message : Message :=
  {| status := 0; client_id := 0; data := replicate 256 NUL |}.

(** The object after its first bytes have been overwritten with [bs]. *)
Definition overlay (bs : list ascii) (msg : Message) : Message :=
  decode (bs ++ drop (length bs) (encode msg)).

(** [readMessage(fd, msg)]: the result and [msg] afterwards. *)
Definition readMessage (fd : Handle) (msg : Message) : bool * Message :=
  if (lseek fd =? -1)%Z then (false, msg)
  else
    let '(r, bs) := read fd sizeof_Message in
    if (r =? -1)%Z then (false, msg)
    else if (r =? 0)%Z then (true, zero_Message)
    else ((r =? Z.of_nat sizeof_Message)%Z, overlay bs msg).

(** [writeMessage(fd, msg)]: the result and the file afterwards ([fsync]
    changes nothing the model sees). *)
Definition writeMessage (fd : Handle) (msg : Message) : bool * Handle :=
  if (lseek fd =? -1)%Z then (false, fd)
  else
    let '(w, fd') := write fd (encode msg) in
    if (w =? -1)%Z then (false, fd')
    else ((w =? Z.of_nat sizeof_Message)%Z, fd').

Definition io_readMessage (msg : Message) : M (bool * Message) :=
  fun w => let w1 := tick w in (readMessage (w_mailbox w1) msg, w1).

Definition io_writeMessage (msg : Message) : M bool :=
  fun w =>
    let w1 := tick w in
    let '(ok, fd') := writeMessage (w_mailbox w1) msg in
    (ok, emit (EvWriteMessage (encode msg) ok) (set_mailbox fd' w1)).

(** *** server.cpp *)

(** The literal [" \t\n\r"]. *)
Definition WHITESPACE : string :=
  String " " (String "009" (String "010" (String "013" EmptyString))).

(** [isValidPingRequest(text)], [text] being [msg.data] (never null). *)
Definition isValidPingRequest (text : list ascii) : bool :=
  let request := c_str text in
  match find_first_not_of request WHITESPACE with
  | None => false
  | Some start =>
      let count :=
        match find_last_not_of request WHITESPACE with
        | Some end_ => Some (end_ - start + 1)%nat
        | None => None
        end in
      let request := substr request start count in
      let lowerRequest := transform tolower request in
      String.eqb lowerRequest "ping"
  end.

(** The body of the directory loop of [findMaxServerNumber]: the number it
    reads in one entry, if any. *)
Definition entry_number (filename : string) : option Z :=
  match find filename SERVER_FILE_PREFIX with
  | Some O =>
      let numStr := substr filename (String.length SERVER_FILE_PREFIX) None in
      match find_char numStr "." with
      | Some dotPos => stoi (substr numStr 0 (Some dotPos))
      | None => None
      end
  | _ => None
  end.

(** [findMaxServerNumber()]; [dir] is what [opendir(".")] and [readdir]
    deliver, [None] when the directory cannot be opened. *)
Definition findMaxServerNumber (dir : option (list string)) : Z :=
  match dir with
  | None => 0%Z
  | Some entries =>
      fold_left
        (fun maxNumber filename =>
           match entry_number filename with
           | Some num => if (maxNumber <? num)%Z then num else maxNumber
           | None => maxNumber
           end)
        entries 0%Z
  end.

Inductive Startup :=
| Created (fd : Handle)      (* the exclusive creation succeeded *)
| Reused (fd : Handle)       (* it failed and the existing file was opened *)
| OpenFailed.                (* both failed: main returns 1 *)

(** The start of the server's [main], up to the mailbox being open: the
    instance number, the file name, how the file was obtained, and the file
    system afterwards. The directory listing and the file system are read at
    different moments. *)
Definition start_server (dir : option (list string)) (fs : FS)
  : Z * string * Startup * FS :=
  let maxServerNumber := findMaxServerNumber dir in
  let serverInstanceNumber := wrap_int (maxServerNumber + 1) in
  let currentFileName :=
    (SERVER_FILE_PREFIX +:+ to_string serverInstanceNumber +:+ ".bin")%string in
  match open_excl fs currentFileName with
  | (Some fd, fs') => (serverInstanceNumber, currentFileName, Created fd, fs')
  | (None, fs') =>
      match open_rdwr fs' currentFileName with
      | Some fd => (serverInstanceNumber, currentFileName, Reused fd, fs')
      | None => (serverInstanceNumber, currentFileName, OpenFailed, fs')
      end
  end.

(** The server's globals. *)
Record Server := mkServer {
  serverInstanceNumber : Z;
  nextClientId : Z;
  connectedClients : gset Z;
  clientCounter : Z
}.

Definition initial_Server (instance : Z) : Server :=
  {| serverInstanceNumber := instance; nextClientId := 1;
     connectedClients := ∅; clientCounter := 0 |}.

(** The block under [clientMutex]: the globals and [msg.client_id] after it. *)
Definition register_client (sv : Server) (msg : Message) : Server * Message :=
  if (client_id msg =? 0)%Z then
    let id := nextClientId sv in
    let clients := {[id]} ∪ connectedClients sv in
    ({| serverInstanceNumber := serverInstanceNumber sv;
        nextClientId := wrap_int (id + 1);
        connectedClients := clients;
        clientCounter := Z.of_nat (size clients) |},
     {| status := status msg; client_id := id; data := data msg |})
  else if (0 <? client_id msg)%Z && bool_decide (client_id msg ∉ connectedClients sv) then
    let clients := {[client_id msg]} ∪ connectedClients sv in
    ({| serverInstanceNumber := serverInstanceNumber sv;
        nextClientId := nextClientId sv;
        connectedClients := clients;
        clientCounter := Z.of_nat (size clients) |},
     msg)
  else (sv, msg).

Definition INVALID_COMMAND : string := "ERROR: Only 'ping' is accepted".

Definition pong (instance id : Z) : string :=
  ("pong from server #" +:+ to_string instance +:+ " to client #" +:+ to_string id)%string.

(** The body of the server's main loop once a request has been read
    ([msg.status == 1]): validation, registration, response. *)
Definition handle_request (sv : Server) (msg : Message) : M Server :=
  if negb (isValidPingRequest (data msg)) then
    let msg := {| status := 2; client_id := client_id msg;
                  data := store_text INVALID_COMMAND |} in
    _ ← io_writeMessage msg;
    mret sv
  else
    let '(sv, msg) := register_client sv msg in
    let response := pong (serverInstanceNumber sv) (client_id msg) in
    let msg := {| status := 2; client_id := client_id msg;
                  data := store_text response |} in
    ok ← io_writeMessage msg;
    if negb ok then mret sv
    else _ ← sleep_for 50; mret sv.

(** The inner loop of the server: poll until a request is there. [None]: the
    loop is still running when the fuel is used up. *)
Fixpoint wait_for_request (fuel : nat) (msg : Message) : M (option Message) :=
  match fuel with
  | O => mret None
  | S fuel' =>
      r ← load_running;
      if negb r then mret (Some msg)
      else
        '(ok, msg) ← io_readMessage msg;
        if negb ok then _ ← sleep_for 1000; wait_for_request fuel' msg
        else if (status msg =? 1)%Z then mret (Some msg)
        else _ ← sleep_for 100; wait_for_request fuel' msg
  end.

(** One turn of the server's outer loop; the flag tells whether the loop goes
    on. *)
Definition serve (fuel : nat) (sv : Server) : M (option (bool * Server)) :=
  r ← load_running;
  if negb r then mret (Some (false, sv))
  else
    found ← wait_for_request fuel zero_Message;
    match found with
    | None => mret None
    | Some msg =>
        r ← load_running;
        if negb r then mret (Some (false, sv))
        else sv ← handle_request sv msg; mret (Some (true, sv))
    end.

(** Requests handled one after the other, nothing else touching the server. *)
Fixpoint handle_all (sv : Server) (requests : list Message) : M Server :=
  match requests with
  | [] => mret sv
  | msg :: rest => sv ← handle_request sv msg; handle_all sv rest
  end.

(** *** client.cpp *)

(** The filter of the directory loop of [findServerFiles]. *)
Definition is_server_file (filename : string) : bool :=
  match find filename SERVER_FILE_PREFIX with
  | Some O => match find filename ".bin" with Some _ => true | None => false end
  | _ => false
  end.

(** The comparator handed to [std::sort]. *)
Definition newer_first (a b : string) : bool :=
  let numStrA := substr a (String.length SERVER_FILE_PREFIX) None in
  let numStrB := substr b (String.length SERVER_FILE_PREFIX) None in
  let numStrA := substr numStrA 0 (find_char numStrA ".") in
  let numStrB := substr numStrB 0 (find_char numStrB ".") in
  match stoi numStrA, stoi numStrB with
  | Some numA, Some numB => (numB <? numA)%Z
  | _, _ => String.ltb a b
  end.

(** [std::sort] as insertion sort. The standard leaves the order of
    equivalent elements open, and the result for a comparator that is no
    strict weak ordering undefined; here equivalent elements keep their
    order. *)
Fixpoint insert_sorted {A} (comp : A -> A -> bool) (x : A) (l : list A) : list A :=
  match l with
  | [] => [x]
  | y :: rest => if comp x y then x :: l else y :: insert_sorted comp x rest
  end.

Definition sort {A} (comp : A -> A -> bool) (l : list A) : list A :=
  fold_left (fun acc x => insert_sorted comp x acc) l [].

(** [findServerFiles()]. *)
Definition findServerFiles (dir : option (list string)) : list string :=
  let serverFiles :=
    match dir with
    | None => []
    | Some entries => List.filter is_server_file entries
    end in
  sort newer_first serverFiles.

(** [checkServerAvailability(filename)]. *)
Definition checkServerAvailability (fs : FS) (filename : string) : bool :=
  match open_rdwr fs filename with
  | None => false
  | Some fd =>
      let '(ok, msg) := readMessage fd zero_Message in
      if ok then (status msg =? 0)%Z || (status msg =? 2)%Z else false
  end.

(** [autoConnectToServer()]; the empty string when no server is available
    (its console line is not recorded). *)
Definition autoConnectToServer (dir : option (list string)) (fs : FS) : string :=
  let serverFiles := findServerFiles dir in
  let availableServers := List.filter (checkServerAvailability fs) serverFiles in
  match availableServers with
  | [] => EmptyString
  | first :: _ => first
  end.

Definition MAX_WAIT_ATTEMPTS : Z := 5.

(** The wait-until-free loop of the client's [main]: [waitAttempts] and [msg]
    when it ends. *)
Fixpoint wait_for_free (fuel : nat) (waitAttempts : Z) (msg : Message)
  : M (option (Z * Message)) :=
  match fuel with
  | O => mret None
  | S fuel' =>
      r ← load_running;
      if negb (r && (waitAttempts <? MAX_WAIT_ATTEMPTS)%Z) then mret (Some (waitAttempts, msg))
      else
        '(ok, msg) ← io_readMessage msg;
        if negb ok then mret (Some (waitAttempts, msg))
        else if (status msg =? 0)%Z then mret (Some (waitAttempts, msg))
        else _ ← sleep_for 100; wait_for_free fuel' (wrap_int (waitAttempts + 1)) msg
  end.

(** The wait-for-response loop: [timeout], [gotResponse], [currentClientId]
    and [msg] when it ends. Both flags are false whenever the loop condition
    is evaluated, every assignment to them being followed by [break]. *)
Fixpoint await_response (fuel : nat) (start currentClientId : Z) (msg : Message)
  : M (option (bool * bool * Z * Message)) :=
  match fuel with
  | O => mret None
  | S fuel' =>
      r ← load_running;
      if negb r then mret (Some (false, false, currentClientId, msg))
      else
        '(ok, msg) ← io_readMessage msg;
        if negb ok then mret (Some (false, false, currentClientId, msg))
        else if (status msg =? 2)%Z then
          if (0 <? client_id msg)%Z && (currentClientId =? 0)%Z then
            _ ← print ("Server assigned Client ID: " +:+ to_string (client_id msg));
            mret (Some (false, true, client_id msg, msg))
          else mret (Some (false, true, currentClientId, msg))
        else
          now ← steady_now;
          if (5000 <? now - start)%Z then mret (Some (true, false, currentClientId, msg))
          else _ ← sleep_for 100; await_response fuel' start currentClientId msg
  end.

Inductive Outcome :=
| Busy                               (* "Server is busy." *)
| SendFailed                         (* "Failed to send ping." *)
| TimedOut                           (* "Timeout waiting for response." *)
| Completed (gotResponse : bool).    (* the end of the loop body was reached *)

Definition free_Message (currentClientId : Z) : Message :=
  {| status := 0; client_id := currentClientId; data := replicate 256 NUL |}.

Definition request_Message (currentClientId : Z) (command : string) : Message :=
  {| status := 1; client_id := currentClientId; data := store_text command |}.

(** The end of the client's loop body once the request [msg] is sent (from
    "Wait for response"): how it ended and [currentClientId] afterwards. *)
Definition receive (fuel : nat) (currentClientId : Z) (msg : Message)
  : M (option (Outcome * Z)) :=
  start ← steady_now;
  awaited ← await_response fuel start currentClientId msg;
  match awaited : option (bool * bool * Z * Message) with
  | None => mret None
  | Some (timeout, gotResponse, currentClientId, msg) =>
      if timeout then
        _ ← print "Timeout waiting for response.";
        _ ← io_writeMessage (free_Message currentClientId);
        mret (Some (TimedOut, currentClientId))
      else
        _ ← (if gotResponse && negb (Ascii.eqb (nth 0 (data msg) NUL) NUL)
             then print ("Response: " +:+ c_str (data msg))
             else mret tt);
        _ ← io_writeMessage (free_Message currentClientId);
        mret (Some (Completed gotResponse, currentClientId))
  end.

(** The part of the client's main loop that sends [command] (from "Sending
    ping" to the end of the loop body): how it ended and [currentClientId]
    afterwards. *)
Definition ping_exchange (fuel : nat) (command : string) (currentClientId : Z)
  : M (option (Outcome * Z)) :=
  waited ← wait_for_free fuel 0 zero_Message;
  match waited with
  | None => mret None
  | Some (waitAttempts, msg) =>
      if (MAX_WAIT_ATTEMPTS <=? waitAttempts)%Z then
        _ ← print "Server is busy.";
        mret (Some (Busy, currentClientId))
      else
        let msg := request_Message currentClientId command in
        ok ← io_writeMessage msg;
        if negb ok then
          _ ← print "Failed to send ping.";
          mret (Some (SendFailed, currentClientId))
        else receive fuel currentClientId msg
  end.

(** The wait loop of [isConnectedToServer]: [connected] when it ends. *)
Fixpoint probe_response (fuel : nat) (start : Z) (msg : Message) : M (option bool) :=
  match fuel with
  | O => mret None
  | S fuel' =>
      r ← load_running;
      if negb r then mret (Some false)
      else
        '(ok, msg) ← io_readMessage msg;
        if negb ok then mret (Some false)
        else if (status msg =? 2)%Z then mret (Some true)
        else
          now ← steady_now;
          if (500 <? now - start)%Z then mret (Some false)
          else _ ← sleep_for 50; probe_response fuel' start msg
  end.

(** [isConnectedToServer(filename)], [filename] naming the mailbox. *)
Definition isConnectedToServer (fuel : nat) (currentClientId : Z) : M (option bool) :=
  opened ← io_open;
  if negb opened then mret (Some false)
  else
    '(ok, msg) ← io_readMessage zero_Message;
    if ok && (status msg =? 0)%Z then
      let testMsg := {| status := 1; client_id := currentClientId;
                        data := store_text "ping" |} in
      ok ← io_writeMessage testMsg;
      if negb ok then mret (Some false)
      else
        start ← steady_now;
        probed ← probe_response fuel start msg;
        match probed with
        | None => mret None
        | Some connected =>
            if connected : bool then
              _ ← io_writeMessage (free_Message currentClientId);
              mret (Some true)
            else mret (Some false)
        end
    else mret (Some false).

(** [showConnectionStatus(currentFile)]; [None] when the check inside has not
    ended within the fuel. *)
Definition showConnectionStatus (fuel : nat) (currentFile : string) (currentClientId : Z)
  : M (option unit) :=
  if String.eqb currentFile EmptyString then
    _ ← print "Not connected to any server.";
    mret (Some tt)
  else
    _ ← print ("Connected to: " +:+ currentFile);
    _ ← print ("Client ID: " +:+ (if (0 <? currentClientId)%Z
                                  then to_string currentClientId
                                  else "not assigned"%string));
    connected ← isConnectedToServer fuel currentClientId;
    match connected with
    | None => mret None
    | Some connected =>
        if negb connected then _ ← print "NO CONNECTED"; mret (Some tt)
        else mret (Some tt)
    end.

(** The loop of [getInputFromUser(currentFile)], [input] being the local
    string as the turn finds it: the command handed to [main] and standard
    input afterwards. *)
Fixpoint getInputFromUser_loop (fuel : nat) (currentFile : string) (currentClientId : Z)
    (input : string) (stdin : Stdin) : M (option (string * Stdin)) :=
  match fuel with
  | O => mret None
  | S fuel' =>
      _ ← print "Enter command: ";
      let '(input, stdin) := getline input stdin in
      if String.eqb input EmptyString then
        _ ← print "Enter not empty command";
        getInputFromUser_loop fuel' currentFile currentClientId input stdin
      else
        let lowerInput := transform tolower input in
        if String.eqb lowerInput "exit" then
          _ ← store_running false;
          mret (Some (EmptyString, stdin))
        else if String.eqb lowerInput "status" then
          shown ← showConnectionStatus fuel currentFile currentClientId;
          match shown with
          | None => mret None
          | Some _ => getInputFromUser_loop fuel' currentFile currentClientId input stdin
          end
        else if String.eqb lowerInput "connect" then
          mret (Some ("CONNECT"%string, stdin))
        else if String.eqb lowerInput "disconnect" then
          mret (Some ("DISCONNECT"%string, stdin))
        else if negb (String.eqb lowerInput "ping") then
          _ ← print "Error: Only 'ping' is accepted.";
          getInputFromUser_loop fuel' currentFile currentClientId input stdin
        else if String.eqb currentFile EmptyString then
          _ ← print "Error: Not connected to server.";
          getInputFromUser_loop fuel' currentFile currentClientId input stdin
        else mret (Some (input, stdin))
  end.

(** [getInputFromUser(currentFile)]: [std::string input;] and the loop. *)
Definition getInputFromUser (fuel : nat) (currentFile : string) (currentClientId : Z)
    (stdin : Stdin) : M (option (string * Stdin)) :=
  getInputFromUser_loop fuel currentFile currentClientId EmptyString stdin.

(** What the client's [main] keeps from one command to the next. While
    [fd] is a descriptor, it is the mailbox of the world, and [currentFile]
    names the file behind it. *)
Record Client := mkClient {
  currentFile : string;
  fd_open : bool;              (* fd != -1 *)
  currentClientId : Z
}.

(** [if (fd != -1) { close(fd); fd = -1; }]: the file keeps what was written
    through the descriptor. *)
Definition close_fd (fs : FS) (c : Client) (w : World) : FS * World :=
  if fd_open c
  then (stored fs (currentFile c) (w_mailbox w), set_mailbox no_descriptor w)
  else (fs, w).

(** The command CONNECT in the client's [main]; the line that
    [autoConnectToServer] prints when it finds no server is recorded here.
    [fs] is the file system as the availability check of
    [autoConnectToServer] finds it, [fs_open] the file system as the [open]
    that follows finds it. *)
Definition connect (dir : option (list string)) (fs fs_open : FS) (c : Client)
  : M (Client * FS) :=
  fun w =>
    let '(fs, w) := close_fd fs c w in
    let newFile := autoConnectToServer dir fs in
    if String.eqb newFile EmptyString then
      ({| currentFile := currentFile c; fd_open := false;
          currentClientId := currentClientId c |}, fs,
       emit (EvPrint "No servers available.") w)
    else
      match open_rdwr fs_open newFile with
      | Some fd =>
          ({| currentFile := newFile; fd_open := true; currentClientId := 0 |}, fs,
           emit (EvPrint ("Connected to: " +:+ newFile)) (set_mailbox fd w))
      | None =>
          ({| currentFile := EmptyString; fd_open := false; currentClientId := 0 |}, fs,
           emit (EvPrint "Failed to connect.") w)
      end.

(** *** server.cpp: the rest of [main] *)

(** [shutdownMsg] as [main] fills it. *)
Definition shutdown_Message : Message :=
  {| status := 0; client_id := 0; data := store_text "SERVER_SHUTDOWN" |}.

(** "Initialize the file": [false] when [main] gives up with exit code 1. *)
Definition initialise : M bool :=
  size ← io_lseek_end;
  if (size <? Z.of_nat sizeof_Message)%Z then io_writeMessage zero_Message
  else mret true.

(** [while (running) { ... }] of the server's [main]: the globals when the
    loop is left. *)
Fixpoint main_loop (fuel : nat) (sv : Server) : M (option Server) :=
  match fuel with
  | O => mret None
  | S fuel' =>
      turn ← serve fuel sv;
      match turn with
      | None => mret None
      | Some (false, sv) => mret (Some sv)
      | Some (true, sv) => main_loop fuel' sv
      end
  end.

(** [main] once the mailbox is open, up to the last [writeMessage]: the exit
    code and the globals. *)
Definition run_server (fuel : nat) (instance : Z) : M (option (Z * Server)) :=
  ok ← initialise;
  if negb ok then mret (Some (1%Z, initial_Server instance))
  else
    ended ← main_loop fuel (initial_Server instance);
    match ended with
    | None => mret None
    | Some sv =>
        _ ← io_writeMessage shutdown_Message;
        mret (Some (0%Z, sv))
    end.

(** [main]: the exit code and the file system the server leaves behind. *)
Definition main (fuel : nat) (dir : option (list string)) (fs : FS)
  : M (option (Z * FS)) :=
  fun w =>
    let '(instance, currentFileName, startup, fs) := start_server dir fs in
    match startup with
    | OpenFailed => (Some (1%Z, fs), w)
    | Created fd | Reused fd =>
        let '(ended, w) := run_server fuel instance (set_mailbox fd w) in
        match ended with
        | None => (None, w)
        | Some (code, _) =>
            let fs := stored fs currentFileName (w_mailbox w) in
            if (code =? 0)%Z then (Some (0%Z, snd (unlink fs currentFileName)), w)
            else (Some (code, fs), w)
        end
    end.

End Ping.

(** ** The single-mailbox protocol: the server listed in README.md and the
       client of unnamed/part_000 *)
Module Simple.

(** [struct Message { int status; char data[256]; }]. *)
Record Message := mkMessage {
  status : Z;
  data : list ascii
}.

Definition sizeof_Message : nat := 260.

Definition encode (m : Message) : list ascii :=
  int_bytes (status m) ++ pad 256 (data m).

Definition decode (bs : list ascii) : Message :=
  {| status := bytes_int (take 4 bs); data := pad 256 (drop 4 bs) |}.

Definition zero_Message : Message :=
  {| status := 0; data := replicate 256 NUL |}.

Definition overlay (bs : list ascii) (msg : Message) : Message :=
  decode (bs ++ drop (length bs) (encode msg)).

(** [readMessage(fd, msg)], the same in both programs but for the text of the
    diagnostics. *)
Definition readMessage (fd : Handle) (msg : Message) : bool * Message :=
  if (lseek fd =? -1)%Z then (false, msg)
  else
    let '(r, bs) := read fd sizeof_Message in
    if (r =? -1)%Z then (false, msg)
    else if (r =? 0)%Z then (true, zero_Message)
    else ((r =? Z.of_nat sizeof_Message)%Z, overlay bs msg).

(** [writeMessage(fd, msg)]; a failing [fsync] is only reported. *)
Definition writeMessage (fd : Handle) (msg : Message) : bool * Handle :=
  if (lseek fd =? -1)%Z then (false, fd)
  else
    let '(w, fd') := write fd (encode msg) in
    if (w =? -1)%Z then (false, fd')
    else ((w =? Z.of_nat sizeof_Message)%Z, fd').

Definition io_readMessage (msg : Message) : M (bool * Message) :=
  fun w => let w1 := tick w in (readMessage (w_mailbox w1) msg, w1).

Definition io_writeMessage (msg : Message) : M bool :=
  fun w =>
    let w1 := tick w in
    let '(ok, fd') := writeMessage (w_mailbox w1) msg in
    (ok, emit (EvWriteMessage (encode msg) ok) (set_mailbox fd' w1)).

(** *** The server *)

(** [isValidRequest(text)]. *)
Definition isValidRequest (text : list ascii) : bool :=
  if Ascii.eqb (nth 0 text NUL) NUL then false
  else if (String.length (c_str text) <? 4)%nat then false
  else true.

(** [extractRequestNumber(request)]. *)
Definition extractRequestNumber (request : list ascii) : Z :=
  if negb (Ascii.eqb (nth 0 request NUL) "[") then (-1)%Z
  else
    match stoi (c_str (drop 1 request)) with
    | Some n => n
    | None => (-1)%Z
    end.

(** [extractRequestText(request)]. *)
Definition extractRequestText (request : list ascii) : string :=
  let text := c_str request in
  match find_char text "]" with
  | None => EmptyString
  | Some bracket =>
      match drop_chars (S bracket) text with
      | String " "%char rest => rest
      | _ => EmptyString
      end
  end.

Definition INVALID_FORMAT : string := "ERROR: Invalid request format".

(** [processRequest(request, error)]: the response and [error]. *)
Definition processRequest (request : list ascii) : M (string * bool) :=
  let reqNumber := extractRequestNumber request in
  let reqText := extractRequestText request in
  if (reqNumber =? -1)%Z || String.eqb reqText EmptyString then
    mret (INVALID_FORMAT, true)
  else if String.eqb reqText "error" then
    mret ("ERROR: Simulated processing error"%string, true)
  else if String.eqb reqText "timeout" then
    _ ← sleep_for 3000;
    mret ("Response after timeout simulation"%string, false)
  else if String.eqb reqText "crash" then
    _ ← sleep_for 1000;
    _ ← sleep_for 20000;
    mret ("This should not be reached"%string, false)
  else if String.eqb reqText "invalid" then
    mret (EmptyString, false)
  else
    _ ← sleep_for (if (20 <? String.length reqText)%nat then 500 else 100);
    mret ("OK"%string, false).

(** The counters local to the server's [main]. *)
Record Counters := mkCounters {
  processedRequests : Z;
  errorCount : Z
}.

(** The body of the server's main loop once a request has been read, from
    [processedRequests++] on. *)
Definition handle_request (st : Counters) (msg : Message) : M Counters :=
  let processedRequests := wrap_int (processedRequests st + 1) in
  let errorCount := errorCount st in
  if negb (isValidRequest (data msg)) then
    let errorCount := wrap_int (errorCount + 1) in
    let msg := {| status := 2; data := store_text INVALID_FORMAT |} in
    _ ← io_writeMessage msg;
    mret {| processedRequests := processedRequests; errorCount := errorCount |}
  else
    '(response, processingError) ← processRequest (data msg);
    let errorCount := if processingError : bool then wrap_int (errorCount + 1) else errorCount in
    let msg := {| status := 2; data := store_text response |} in
    ok ← io_writeMessage msg;
    if negb ok then
      mret {| processedRequests := processedRequests;
              errorCount := wrap_int (errorCount + 1) |}
    else mret {| processedRequests := processedRequests; errorCount := errorCount |}.

(** The inner loop of the server. *)
Fixpoint wait_for_request (fuel : nat) (msg : Message) : M (option Message) :=
  match fuel with
  | O => mret None
  | S fuel' =>
      r ← load_running;
      if negb r then mret (Some msg)
      else
        '(ok, msg) ← io_readMessage msg;
        if negb ok then _ ← sleep_for 1000; wait_for_request fuel' msg
        else if (status msg =? 1)%Z then mret (Some msg)
        else _ ← sleep_for 100; wait_for_request fuel' msg
  end.

(** One turn of the server's outer loop. *)
Definition serve (fuel : nat) (st : Counters) : M (option (bool * Counters)) :=
  r ← load_running;
  if negb r then mret (Some (false, st))
  else
    found ← wait_for_request fuel zero_Message;
    match found with
    | None => mret None
    | Some msg =>
        r ← load_running;
        if negb r then mret (Some (false, st))
        else st ← handle_request st msg; mret (Some (true, st))
    end.

(** The format the server answers with something else than
    [INVALID_FORMAT]: [isValidRequest] and the check at the head of
    [processRequest]. *)
Definition passes_validation (text : list ascii) : bool :=
  isValidRequest text
  && negb ((extractRequestNumber text =? -1)%Z
           || String.eqb (extractRequestText text) EmptyString).

(** *** The client *)

Definition TIMEOUT_MS : Z := 10000.

Definition QUOTE : string := String "034" EmptyString.

(** [isValidResponse(text)]. *)
Definition isValidResponse (text : list ascii) : bool :=
  negb (Ascii.eqb (nth 0 text NUL) NUL).

(** Step 4, the wait for the answer: [timeout], [gotResponse] and [msg] when
    the loop ends. *)
Fixpoint await_response (fuel : nat) (start : Z) (msg : Message)
  : M (option (bool * bool * Message)) :=
  match fuel with
  | O => mret None
  | S fuel' =>
      r ← load_running;
      if negb r then mret (Some (false, false, msg))
      else
        '(ok, msg) ← io_readMessage msg;
        if negb ok then
          _ ← print "Client: Error reading response";
          _ ← sleep_for 100;
          await_response fuel' start msg
        else if (status msg =? 2)%Z then mret (Some (false, true, msg))
        else
          now ← steady_now;
          if (TIMEOUT_MS <? now - start)%Z then mret (Some (true, false, msg))
          else _ ← sleep_for 100; await_response fuel' start msg
  end.

Inductive Outcome :=
| SendFailed     (* the request could not be written *)
| TimedOut       (* no answer within TIMEOUT_MS *)
| Stopped        (* the client was stopped while waiting *)
| Completed.     (* "Client: Request completed successfully" *)

Definition free_Message : Message :=
  {| status := 0; data := replicate 256 NUL |}.

Definition request_Message (requestCounter : Z) (userInput : string) : Message :=
  {| status := 1;
     data := store_text ("[" +:+ to_string requestCounter +:+ "] " +:+ userInput) |}.

(** Steps 3 to 6 of the client's main loop for one [userInput]: how the turn
    ended and [requestCounter] afterwards. *)
Definition request_exchange (fuel : nat) (userInput : string) (requestCounter : Z)
  : M (option (Outcome * Z)) :=
  let requestCounter := wrap_int (requestCounter + 1) in
  let msg := request_Message requestCounter userInput in
  _ ← print ("Client: Sending request #" +:+ to_string requestCounter +:+ ": "
              +:+ QUOTE +:+ userInput +:+ QUOTE);
  ok ← io_writeMessage msg;
  if negb ok then
    _ ← print "Client: Failed to send request. Server might be unavailable.";
    _ ← sleep_for 1000;
    mret (Some (SendFailed, requestCounter))
  else
    _ ← print "Client: Waiting for server response...";
    start ← steady_now;
    awaited ← await_response fuel start msg;
    match awaited : option (bool * bool * Message) with
    | None => mret None
    | Some (timeout, gotResponse, msg) =>
        if timeout then
          _ ← print "Client: Timeout waiting for server response";
          _ ← io_writeMessage free_Message;
          mret (Some (TimedOut, requestCounter))
        else if negb gotResponse then mret (Some (Stopped, requestCounter))
        else
          _ ← (if isValidResponse (data msg)
               then print ("Client: Received response: " +:+ QUOTE
                           +:+ c_str (data msg) +:+ QUOTE)
               else print "Client: Received empty or invalid response from server");
          ok ← io_writeMessage free_Message;
          _ ← (if negb ok then print "Client: Failed to free server" else mret tt);
          _ ← print "Client: Request completed successfully";
          mret (Some (Completed, requestCounter))
    end.

(** *** The rest of the server's [main] *)

(** [shutdownMsg] as [main] fills it. *)
Definition shutdown_Message : Message :=
  {| status := 0; data := store_text "SERVER_SHUTDOWN" |}.

(** "Check and initialisation of file": [false] when [main] gives up with
    exit code 1. *)
Definition initialise : M bool :=
  size ← io_lseek_end;
  if (size <? Z.of_nat sizeof_Message)%Z then io_writeMessage zero_Message
  else mret true.

(** [while (running) { ... }] of the server's [main]: the counters when the
    loop is left. *)
Fixpoint main_loop (fuel : nat) (st : Counters) : M (option Counters) :=
  match fuel with
  | O => mret None
  | S fuel' =>
      turn ← serve fuel st;
      match turn with
      | None => mret None
      | Some (false, st) => mret (Some st)
      | Some (true, st) => main_loop fuel' st
      end
  end.

(** The server's [main] once the mailbox is open: the exit code and the
    counters. *)
Definition run_server (fuel : nat) : M (option (Z * Counters)) :=
  ok ← initialise;
  if negb ok then mret (Some (1%Z, {| processedRequests := 0; errorCount := 0 |}))
  else
    ended ← main_loop fuel {| processedRequests := 0; errorCount := 0 |};
    match ended with
    | None => mret None
    | Some st =>
        _ ← io_writeMessage shutdown_Message;
        mret (Some (0%Z, st))
    end.

(** *** The rest of the client *)

(** The value of a [char]: signed, as on the x86 targets whose layout
    [encode] follows. *)
Definition char_val (c : ascii) : Z :=
  if (byte_val c <? 128)%Z then byte_val c else (byte_val c - 256)%Z.

(** The loop over the characters in [getInputFromUser]. *)
Fixpoint hasInvalidChars (input : string) : bool :=
  match input with
  | EmptyString => false
  | String c rest =>
      if (char_val c <? 32)%Z && negb (Ascii.eqb c "009") && negb (Ascii.eqb c "010")
         && negb (Ascii.eqb c "013")
      then true
      else hasInvalidChars rest
  end.

(** The loop of [getInputFromUser()], [input] being the local string as the
    turn finds it: the text handed to [main] and standard input afterwards. *)
Fixpoint getInputFromUser_loop (fuel : nat) (input : string) (stdin : Stdin)
  : M (option (string * Stdin)) :=
  match fuel with
  | O => mret None
  | S fuel' =>
      _ ← print "Enter your request (or 'exit' to quit, 'status' to check): ";
      let '(input, stdin) := getline input stdin in
      if String.eqb input EmptyString then
        _ ← print "Error: Empty input is not allowed. Please enter a valid request.";
        getInputFromUser_loop fuel' input stdin
      else if (255 <=? String.length input)%nat then
        _ ← print "Error: Input is too long (max 254 characters). Please try again.";
        getInputFromUser_loop fuel' input stdin
      else if String.eqb input "exit" then
        _ ← store_running false;
        mret (Some (EmptyString, stdin))
      else if String.eqb input "status" then
        _ ← print "Client is running. Use 'exit' to quit.";
        getInputFromUser_loop fuel' input stdin
      else if hasInvalidChars input then
        _ ← print "Error: Input contains invalid characters. Please use only printable characters.";
        getInputFromUser_loop fuel' input stdin
      else mret (Some (input, stdin))
  end.

(** [getInputFromUser()]: [std::string input;] and the loop. *)
Definition getInputFromUser (fuel : nat) (stdin : Stdin)
  : M (option (string * Stdin)) :=
  getInputFromUser_loop fuel EmptyString stdin.

Definition MAX_WAIT_ATTEMPTS : Z := 50.

(** Step 1, the wait until the server is free: [msg] when the loop ends and
    standard input afterwards. *)
Fixpoint wait_for_free (fuel : nat) (waitAttempts : Z) (msg : Message)
    (stdin : Stdin) : M (option (Message * Stdin)) :=
  match fuel with
  | O => mret None
  | S fuel' =>
      r ← load_running;
      if negb r then mret (Some (msg, stdin))
      else
        '(ok, msg) ← io_readMessage msg;
        if negb ok then
          _ ← print "Client: Failed to read message";
          _ ← sleep_for 1000;
          wait_for_free fuel' waitAttempts msg stdin
        else if (status msg =? 0)%Z then mret (Some (msg, stdin))
        else
          let waitAttempts := wrap_int (waitAttempts + 1) in
          if (MAX_WAIT_ATTEMPTS <? waitAttempts)%Z then
            _ ← print "Client: Server is busy for too long. Please try again later.";
            _ ← print "Press Enter to retry or type 'exit' to quit: ";
            let '(response, stdin) := getline EmptyString stdin in
            if String.eqb response "exit" then
              _ ← store_running false;
              mret (Some (msg, stdin))
            else wait_for_free fuel' 0 msg stdin
          else
            _ ← sleep_for 100;
            wait_for_free fuel' waitAttempts msg stdin
  end.

(** [while (running) { ... }] of the client's [main]: [requestCounter] when
    the loop is left and standard input afterwards. *)
Fixpoint main_loop_client (fuel : nat) (requestCounter : Z) (stdin : Stdin)
  : M (option (Z * Stdin)) :=
  match fuel with
  | O => mret None
  | S fuel' =>
      r ← load_running;
      if negb r then mret (Some (requestCounter, stdin))
      else
        waited ← wait_for_free fuel 0 zero_Message stdin;
        match waited with
        | None => mret None
        | Some (_, stdin) =>
            r ← load_running;
            if negb r then mret (Some (requestCounter, stdin))
            else
              typed ← getInputFromUser fuel stdin;
              match typed with
              | None => mret None
              | Some (userInput, stdin) =>
                  r ← load_running;
                  if negb r then mret (Some (requestCounter, stdin))
                  else
                    ended ← request_exchange fuel userInput requestCounter;
                    match ended with
                    | None => mret None
                    | Some (_, requestCounter) =>
                        main_loop_client fuel' requestCounter stdin
                    end
              end
        end
  end.

(** The client's [main] once the mailbox is open. *)
Definition run_client (fuel : nat) (stdin : Stdin) : M (option Z) :=
  _ ← print "Client started.";
  ended ← main_loop_client fuel 0 stdin;
  match ended with
  | None => mret None
  | Some _ =>
      _ ← print "Client: Cleaning up...";
      _ ← io_writeMessage free_Message;
      _ ← print "Client: Stopped gracefully";
      mret (Some 0%Z)
  end.

End Simple.

(** ** Vocabulary of the statements *)

(** *** Payload validation as the specification words it *)

(** Space, tab, newline, carriage return. *)
Definition is_blank (c : ascii) : bool :=
  let n := N_of_ascii c in ((n =? 32) || (n =? 9) || (n =? 10) || (n =? 13))%N.

Fixpoint trim_left (s : string) : string :=
  match s with
  | String c rest => if is_blank c then trim_left rest else s
  | EmptyString => EmptyString
  end.

Fixpoint trim_right (s : string) : string :=
  match s with
  | EmptyString => EmptyString
  | String c rest =>
      match trim_right rest with
      | EmptyString => if is_blank c then EmptyString else String c EmptyString
      | kept => String c kept
      end
  end.

Definition trim (s : string) : string := trim_right (trim_left s).

Fixpoint all_blank (s : string) : bool :=
  match s with
  | EmptyString => true
  | String c rest => is_blank c && all_blank rest
  end.

Definition is_upper (c : ascii) : bool :=
  let n := N_of_ascii c in ((65 <=? n) && (n <=? 90))%N.

(** The same character, or the same letter in the other case. *)
Definition same_letter (c d : ascii) : bool :=
  Ascii.eqb c d
  || (is_upper c && (N_of_ascii c + 32 =? N_of_ascii d)%N)
  || (is_upper d && (N_of_ascii d + 32 =? N_of_ascii c)%N).

Fixpoint equal_ignoring_case (s t : string) : bool :=
  match s, t with
  | EmptyString, EmptyString => true
  | String c s', String d t' => same_letter c d && equal_ignoring_case s' t'
  | _, _ => false
  end.

(** *** Texts *)

(** No character of [s] is NUL. *)
Fixpoint no_nul (s : string) : bool :=
  match s with
  | EmptyString => true
  | String c rest => negb (Ascii.eqb c NUL) && no_nul rest
  end.

(** *** Names of mailbox files *)

(** The text between the prefix and the first dot of a name, read as a
    number the way the comparator of [findServerFiles] does. *)
Definition file_number (name : string) : option Z :=
  let numStr := substr name (String.length Ping.SERVER_FILE_PREFIX) None in
  stoi (substr numStr 0 (find_char numStr ".")).

Fixpoint no_dot (s : string) : bool :=
  match s with
  | EmptyString => true
  | String c rest => negb (Ascii.eqb c ".") && no_dot rest
  end.

(** [a] is listed before [b] only if its number is at least that of [b]. *)
Definition newer_or_same (a b : string) : Prop :=
  match file_number a, file_number b with
  | Some x, Some y => (y <= x)%Z
  | _, _ => False
  end.

(** One turn of the directory loop of [findMaxServerNumber]. *)
Definition max_step (maxNumber : Z) (filename : string) : Z :=
  match Ping.entry_number filename with
  | Some num => if (maxNumber <? num)%Z then num else maxNumber
  | None => maxNumber
  end.

(** *** Observations of a mailbox and of a trace *)

(** The status a reader finds in the mailbox, if the read succeeds. *)
Definition mailbox_status (fd : Handle) : option Z :=
  let '(ok, msg) := Ping.readMessage fd Ping.zero_Message in
  if ok then Some (Ping.status msg) else None.

(** The records handed to [writeMessage], oldest first. *)
Fixpoint written (tr : list Event) : list (list ascii) :=
  match tr with
  | [] => []
  | EvWriteMessage record _ :: rest => record :: written rest
  | _ :: rest => written rest
  end.

(** One turn of the client's wait-until-free loop that finds the flag up and
    a readable mailbox holding a REQUEST. *)
Definition busy_poll (w : World) : bool :=
  w_running (tick w)
  && match mailbox_status (w_mailbox (tick (tick w))) with
     | Some s => (s =? 1)%Z
     | None => false
     end.

(** The world after such a turn (flag read, mailbox read, 100 ms slept). *)
Definition after_poll (w : World) : World :=
  snd (sleep_for 100 (tick (tick w))).

(** The next [n] turns all find the mailbox busy. *)
Fixpoint busy_for (n : nat) (w : World) : bool :=
  match n with
  | O => true
  | S n' => busy_poll w && busy_for n' (after_poll w)
  end.

(** The world after [n] such turns. *)
Fixpoint after_polls (n : nat) (w : World) : World :=
  match n with
  | O => w
  | S n' => after_polls n' (after_poll w)
  end.

(** The turn started in [w] finds the flag up and cannot read the mailbox. *)
Definition failing_poll (w : World) : bool :=
  w_running (tick w)
  && match mailbox_status (w_mailbox (tick (tick w))) with
     | Some _ => false
     | None => true
     end.

(** One turn of the client's wait-until-free loop that finds the flag up and
    a readable mailbox whose status is not FREE: the loop goes on. *)
Definition occupied_poll (w : World) : bool :=
  w_running (tick w)
  && match mailbox_status (w_mailbox (tick (tick w))) with
     | Some s => negb (s =? 0)%Z
     | None => false
     end.

(** The next [n] turns all find the mailbox occupied. *)
Fixpoint occupied_for (n : nat) (w : World) : bool :=
  match n with
  | O => true
  | S n' => occupied_poll w && occupied_for n' (after_poll w)
  end.

(** The turn of the wait-until-free loop started in [w] with attempts left
    ends the loop, because the flag is down, the read fails, or the status
    read is FREE: the world in which the loop is left. *)
Definition wait_over (w : World) : option World :=
  if negb (w_running (tick w)) then Some (tick w)
  else
    match mailbox_status (w_mailbox (tick (tick w))) with
    | Some s => if (s =? 0)%Z then Some (tick (tick w)) else None
    | None => Some (tick (tick w))
    end.

(** One turn of the multi-instance client's wait-for-response loop that
    finds the flag up and a readable mailbox whose status is not RESPONSE. *)
Definition unanswered_poll (w : World) : bool :=
  w_running (tick w)
  && match mailbox_status (w_mailbox (tick (tick w))) with
     | Some s => negb (s =? 2)%Z
     | None => false
     end.

(** The clock as a turn of a wait-for-response loop reads it (after the flag
    and the mailbox). *)
Definition poll_clock (w : World) : Z := w_now (tick (tick (tick w))).

(** The world after a turn of a wait-for-response loop that goes on (flag
    read, mailbox read, clock read, 100 ms slept). *)
Definition after_wait (w : World) : World :=
  snd (sleep_for 100 (tick (tick (tick w)))).

(** The world after [n] such turns. *)
Fixpoint after_waits (n : nat) (w : World) : World :=
  match n with
  | O => w
  | S n' => after_waits n' (after_wait w)
  end.

(** The multi-instance client's wait for the response, begun at [start], runs
    past [limit] ms without a RESPONSE: [n] turns find none with the clock
    within the limit, the next one finds none with the clock past it. *)
Fixpoint overdue_after (limit : Z) (n : nat) (start : Z) (w : World) : bool :=
  match n with
  | O => unanswered_poll w && (limit <? poll_clock w - start)%Z
  | S n' =>
      unanswered_poll w && negb (limit <? poll_clock w - start)%Z
      && overdue_after limit n' start (after_wait w)
  end.

(** The status a reader of the single mailbox finds, if the read succeeds. *)
Definition single_mailbox_status (fd : Handle) : option Z :=
  let '(ok, msg) := Simple.readMessage fd Simple.zero_Message in
  if ok then Some (Simple.status msg) else None.

(** The world after a turn of the single-mailbox client's wait for the
    answer in which the read fails (flag read, mailbox read, error line,
    100 ms slept). *)
Definition after_unread (w : World) : World :=
  snd (sleep_for 100 (emit (EvPrint "Client: Error reading response") (tick (tick w)))).

(** The single-mailbox client's wait for the answer, begun at [start], ends
    by timeout in its turn [n]: the flag is up at every turn; each of the [n]
    turns before either fails to read the mailbox, or reads a status other
    than RESPONSE with the clock within [TIMEOUT_MS]; turn [n] reads a status
    other than RESPONSE with the clock past it. *)
Fixpoint times_out_after (n : nat) (start : Z) (w : World) : bool :=
  w_running (tick w)
  && match n with
     | O =>
         match single_mailbox_status (w_mailbox (tick (tick w))) with
         | Some s => negb (s =? 2)%Z && (Simple.TIMEOUT_MS <? poll_clock w - start)%Z
         | None => false
         end
     | S n' =>
         match single_mailbox_status (w_mailbox (tick (tick w))) with
         | Some s =>
             negb (s =? 2)%Z && negb (Simple.TIMEOUT_MS <? poll_clock w - start)%Z
             && times_out_after n' start (after_wait w)
         | None => times_out_after n' start (after_unread w)
         end
     end.

(** Whatever a computation does, the trace before it stays as it is. *)
Definition grows {A} (m : M A) : Prop :=
  forall w, exists rest, w_trace (snd (m w)) = w_trace w ++ rest.

(** The ids carried by a list of records. *)
Definition assigned_ids (records : list (list ascii)) : list Z :=
  map (fun record => Ping.client_id (Ping.decode record)) records.

(** A first contact: no id yet, a valid ping. *)
Definition new_client_request (msg : Ping.Message) : Prop :=
  Ping.client_id msg = 0%Z /\ Ping.isValidPingRequest (Ping.data msg) = true.

(** The answer of the ping server to client [id]. *)
Definition pong_Message (instance id : Z) : Ping.Message :=
  {| Ping.status := 2; Ping.client_id := id;
     Ping.data := store_text (Ping.pong instance id) |}.

(** A computation that hands no record to [writeMessage]. *)
Definition silent {A} (m : M A) : Prop :=
  forall w, written (w_trace (snd (m w))) = written (w_trace w).

(** The process is alone: nothing is left to happen around it, and its flag
    is up. *)
Definition alone (w : World) : Prop := w_env w = [] /\ w_running w = true.

(** *** Answers of the ping server *)

(** [response] is what a server of number [instance] writes for [request]:
    a RESPONSE that carries the pong for the id it bears or the error text,
    and that bears the id of the request unless the request had none and was
    a valid ping. *)
Definition answers_request (instance : Z) (request response : Ping.Message) : Prop :=
  Ping.status response = 2%Z
  /\ Ping.data response
     = store_text (if Ping.isValidPingRequest (Ping.data request)
                   then Ping.pong instance (Ping.client_id response)
                   else Ping.INVALID_COMMAND)
  /\ (Ping.client_id response = Ping.client_id request
      \/ (Ping.client_id request = 0%Z
          /\ Ping.isValidPingRequest (Ping.data request) = true)).

(** *** Sample inputs *)

(** A directory holding the one file [name]. *)
Definition sample_fs (name : string) (fd : Handle) : FS :=
  {| fs_files := {[ name := fd ]}; fs_can_create := true |}.

(** A process alone with its mailbox: flag up, clock at 0, nothing done yet,
    nothing happening around it. *)
Definition quiet_world (fd : Handle) : World :=
  {| w_mailbox := fd; w_now := 0; w_running := true; w_trace := []; w_env := [] |}.

(** Nothing happens. *)
Definition idle : Interference :=
  {| i_elapsed := 0; i_signal := false; i_mailbox := fun fd => fd |}.

(** [ms] milliseconds pass. *)
Definition time_passes (ms : Z) : Interference :=
  {| i_elapsed := ms; i_signal := false; i_mailbox := fun fd => fd |}.

(** The device starts to refuse writes. *)
Definition writes_fail : Interference :=
  {| i_elapsed := 0; i_signal := false;
     i_mailbox := fun fd =>
       {| h_seek_ok := h_seek_ok fd; h_read_ok := h_read_ok fd; h_write_cap := None;
          h_rdwr_ok := h_rdwr_ok fd; h_bytes := h_bytes fd |} |}.

(** A ping server with globals [sv] takes one turn of its main loop on the
    mailbox, 10 ms pass. *)
Definition server_turn (sv : Ping.Server) : Interference :=
  {| i_elapsed := 10; i_signal := false;
     i_mailbox := fun fd => w_mailbox (snd (Ping.serve 3 sv (quiet_world fd))) |}.

(** A client that finds the mailbox free, sends, and is answered by nobody
    while six seconds pass; the device refuses the write that follows. *)
Definition abandoned_world : World :=
  {| w_mailbox := healthy (Ping.encode (Ping.free_Message 0));
     w_now := 0; w_running := true; w_trace := [];
     w_env := [idle; idle; idle; idle; time_passes 6000; idle; idle; writes_fail] |}.

(** A client that finds a fresh mailbox free and is answered by server 2
    right after its request. *)
Definition first_contact_world : World :=
  {| w_mailbox := healthy (Ping.encode Ping.zero_Message);
     w_now := 0; w_running := true; w_trace := [];
     w_env := [idle; idle; idle; server_turn (Ping.initial_Server 2)] |}.

(** Standard input holding [lines], each ended by a newline, none read yet. *)
Definition typed_lines (lines : list string) : Stdin :=
  {| in_lines := lines; in_newline_at_end := true; in_good := true |}.


(** A termination signal arrives. *)
Definition signal : Interference :=
  {| i_elapsed := 0; i_signal := true; i_mailbox := fun fd => fd |}.

(** A ping client writes [request] into the mailbox. *)
Definition client_sends (request : Ping.Message) : Interference :=
  {| i_elapsed := 0; i_signal := false;
     i_mailbox := fun fd => snd (Ping.writeMessage fd request) |}.

(** A server that starts on an empty file, finds the first contact of a
    client at its second look, answers it, and is stopped by a signal. *)
Definition one_client_world : World :=
  {| w_mailbox := healthy []; w_now := 0; w_running := true; w_trace := [];
     w_env := [idle; idle; idle; idle; idle; idle; idle;
               client_sends (Ping.request_Message 0 "ping");
               idle; idle; idle; signal] |}.


(** A device that takes writes but refuses every read. *)
Definition unreadable : Handle :=
  {| h_seek_ok := true; h_read_ok := false; h_write_cap := Some 4096%nat;
     h_rdwr_ok := true; h_bytes := [] |}.

(** A client that finds the mailbox one poll long in the hands of another
    client, whose answer is waiting there (status RESPONSE), and that cannot
    read it at the next poll. *)
Definition read_breaks_world : World :=
  {| w_mailbox := healthy (Ping.encode (pong_Message 2 5));
     w_now := 0; w_running := true; w_trace := [];
     w_env := [idle; idle; idle; idle;
               {| i_elapsed := 0; i_signal := false;
                  i_mailbox := fun fd =>
                    {| h_seek_ok := h_seek_ok fd; h_read_ok := false;
                       h_write_cap := h_write_cap fd; h_rdwr_ok := h_rdwr_ok fd;
                       h_bytes := h_bytes fd |} |}] |}.

(** A single-mailbox client that sends its request and is answered by nobody
    while eleven seconds pass. *)
Definition unanswered_world : World :=
  {| w_mailbox := healthy (Simple.encode Simple.free_Message);
     w_now := 0; w_running := true; w_trace := [];
     w_env := [idle; idle; idle; idle; time_passes 11000] |}.

(** A directory without files that accepts new ones. *)
Definition empty_fs : FS := {| fs_files := ∅; fs_can_create := true |}.

(** The device refuses writes from the second operation of the process on. *)
Definition no_write_world : World :=
  {| w_mailbox := healthy []; w_now := 0; w_running := true; w_trace := [];
     w_env := [idle; writes_fail] |}.

(** A client of the single mailbox writes [request] into it. *)
Definition request_arrives (request : Simple.Message) : Interference :=
  {| i_elapsed := 0; i_signal := false;
     i_mailbox := fun fd => snd (Simple.writeMessage fd request) |}.

(** A single-mailbox server that starts on an empty file, finds a request at
    its second look, answers it, and is stopped by a signal. *)
Definition one_request_world : World :=
  {| w_mailbox := healthy []; w_now := 0; w_running := true; w_trace := [];
     w_env := [idle; idle; idle; idle; idle; idle; idle;
               request_arrives (Simple.request_Message 1 "hello");
               idle; idle; idle; signal] |}.

(** A client that finds a fresh mailbox free and is answered, right after
    its request, by a ping server whose globals are [sv]; nothing else
    happens. *)
Definition contact_world (sv : Ping.Server) : World :=
  {| w_mailbox := healthy (Ping.encode Ping.zero_Message);
     w_now := 0; w_running := true; w_trace := [];
     w_env := [idle; idle; idle; server_turn sv] |}.

(** ** Integers, bytes and the object representation *)

Lemma byte_val_range c : (0 <= byte_val c < 256)%Z.
Proof.
  unfold byte_val. pose proof (N_ascii_bounded c). lia.
Qed.

Lemma byte_val_of z : byte_val (byte_of z) = (z mod 256)%Z.
Proof.
  unfold byte_val, byte_of.
  assert (0 <= z mod 256 < 256)%Z by (apply Z.mod_pos_bound; lia).
  rewrite N_ascii_embedding by lia. lia.
Qed.

Lemma byte_of_val c : byte_of (byte_val c) = c.
Proof.
  unfold byte_of. pose proof (byte_val_range c).
  rewrite Z.mod_small by lia. unfold byte_val.
  rewrite N2Z.id. apply ascii_N_embedding.
Qed.

Lemma bytes_int_int_bytes z :
  (INT_MIN <= z <= INT_MAX)%Z -> bytes_int (int_bytes z) = z.
Proof.
  intros Hz. unfold bytes_int, int_bytes, INT_MIN, INT_MAX in *. simpl nth.
  rewrite !byte_val_of. unfold wrap_int.
  replace (z / 65536)%Z with (z / 256 / 256)%Z by (rewrite Z.div_div by lia; reflexivity).
  replace (z / 16777216)%Z with (z / 256 / 256 / 256)%Z by (rewrite !Z.div_div by lia; reflexivity).
  Z.div_mod_to_equations. lia.
Qed.

Lemma byte_of_congr x y : (x mod 256 = y mod 256)%Z -> byte_of x = byte_of y.
Proof. unfold byte_of. intros ->. reflexivity. Qed.

Lemma int_bytes_bytes_int a b c d :
  int_bytes (bytes_int [a; b; c; d]) = [a; b; c; d].
Proof.
  unfold bytes_int, int_bytes. simpl nth.
  pose proof (byte_val_range a). pose proof (byte_val_range b).
  pose proof (byte_val_range c). pose proof (byte_val_range d).
  set (v := (byte_val a + 256 * byte_val b + 65536 * byte_val c + 16777216 * byte_val d)%Z).
  assert (Hv : v = (byte_val a + 256 * byte_val b + 65536 * byte_val c
                   + 16777216 * byte_val d)%Z) by reflexivity.
  clearbody v. unfold wrap_int.
  set (u := ((v + 2147483648) mod 4294967296 - 2147483648)%Z).
  assert (Hu : u = ((v + 2147483648) mod 4294967296 - 2147483648)%Z) by reflexivity.
  clearbody u.
  replace (u / 65536)%Z with (u / 256 / 256)%Z by (rewrite Z.div_div by lia; reflexivity).
  replace (u / 16777216)%Z with (u / 256 / 256 / 256)%Z
    by (rewrite !Z.div_div by lia; reflexivity).
  rewrite <- (byte_of_val a) at 1. rewrite <- (byte_of_val b) at 1.
  rewrite <- (byte_of_val c) at 1. rewrite <- (byte_of_val d) at 1.
  f_equal; [|f_equal; [|f_equal; [|f_equal]]];
    apply byte_of_congr; Z.div_mod_to_equations; lia.
Qed.

Lemma bytes_int_range bs : (INT_MIN <= bytes_int bs <= INT_MAX)%Z.
Proof.
  unfold bytes_int, wrap_int, INT_MIN, INT_MAX. Z.div_mod_to_equations. lia.
Qed.

Lemma pad_length n l : length (pad n l) = n.
Proof.
  unfold pad. rewrite length_take, length_app, length_replicate. lia.
Qed.

Lemma pad_exact n l : length l = n -> pad n l = l.
Proof.
  intros <-. unfold pad. rewrite take_app_length. reflexivity.
Qed.

Lemma int_bytes_length z : length (int_bytes z) = 4%nat.
Proof. reflexivity. Qed.

Lemma Ping_encode_length m : length (Ping.encode m) = Ping.sizeof_Message.
Proof.
  unfold Ping.encode. rewrite !length_app, !int_bytes_length, pad_length. reflexivity.
Qed.

Lemma Ping_encode_decode bs :
  length bs = Ping.sizeof_Message -> Ping.encode (Ping.decode bs) = bs.
Proof.
  intros Hlen.
  destruct bs as [|a [|b [|c [|d [|e [|f [|g [|h rest]]]]]]]]; try discriminate Hlen.
  unfold Ping.encode, Ping.decode. cbn [Ping.status Ping.client_id Ping.data].
  cbn [take drop firstn skipn]. rewrite take_0, drop_0.
  rewrite !int_bytes_bytes_int.
  assert (Hrest : length rest = 256%nat) by (cbn in Hlen; unfold Ping.sizeof_Message in Hlen; lia).
  rewrite (pad_exact 256 rest Hrest), (pad_exact 256 rest Hrest). reflexivity.
Qed.

Lemma Ping_decode_encode m :
  (INT_MIN <= Ping.status m <= INT_MAX)%Z ->
  (INT_MIN <= Ping.client_id m <= INT_MAX)%Z ->
  length (Ping.data m) = 256%nat ->
  Ping.decode (Ping.encode m) = m.
Proof.
  intros Hs Hc Hd. destruct m as [s c d].
  cbn [Ping.status Ping.client_id Ping.data] in *.
  unfold Ping.encode, Ping.decode. cbn [Ping.status Ping.client_id Ping.data].
  cbn [int_bytes app take drop firstn skipn]. rewrite ?take_0, ?drop_0.
  change [byte_of s; byte_of (s / 256); byte_of (s / 65536); byte_of (s / 16777216)]
    with (int_bytes s).
  change [byte_of c; byte_of (c / 256); byte_of (c / 65536); byte_of (c / 16777216)]
    with (int_bytes c).
  rewrite !bytes_int_int_bytes by assumption.
  rewrite (pad_exact 256 d Hd), (pad_exact 256 d Hd). reflexivity.
Qed.

Lemma Ping_decode_encode_fields m :
  Ping.status (Ping.decode (Ping.encode m)) = bytes_int (int_bytes (Ping.status m))
  /\ Ping.client_id (Ping.decode (Ping.encode m)) = bytes_int (int_bytes (Ping.client_id m))
  /\ Ping.data (Ping.decode (Ping.encode m)) = pad 256 (Ping.data m).
Proof.
  destruct m as [s c d]. unfold Ping.encode, Ping.decode.
  cbn [Ping.status Ping.client_id Ping.data int_bytes app take drop firstn skipn].
  rewrite ?take_0, ?drop_0.
  repeat split. apply pad_exact, pad_length.
Qed.

(** What [readMessage] does, by the state of the handle. *)
Lemma Ping_readMessage_cases fd msg :
  Ping.readMessage fd msg =
    if h_seek_ok fd && h_read_ok fd then
      match h_bytes fd with
      | [] => (true, Ping.zero_Message)
      | _ :: _ =>
          if (Ping.sizeof_Message <=? length (h_bytes fd))%nat
          then (true, Ping.decode (take Ping.sizeof_Message (h_bytes fd)))
          else (false, Ping.overlay (h_bytes fd) msg)
      end
    else (false, msg).
Proof.
  unfold Ping.readMessage, lseek, read.
  destruct (h_seek_ok fd); [|reflexivity].
  destruct (h_read_ok fd); [|reflexivity].
  cbn [andb Z.eqb].
  destruct (h_bytes fd) as [|b bs] eqn:Hb; [reflexivity|].
  rewrite <- Hb.
  assert (Hpos : (0 < length (h_bytes fd))%nat) by (rewrite Hb; cbn; lia).
  clear Hb.
  rewrite length_take.
  destruct (Nat.leb_spec Ping.sizeof_Message (length (h_bytes fd))) as [Hge|Hlt].
  - rewrite Nat.min_l by assumption.
    change (Z.of_nat Ping.sizeof_Message =? -1)%Z with false.
    change (Z.of_nat Ping.sizeof_Message =? 0)%Z with false.
    rewrite Z.eqb_refl. cbn iota.
    unfold Ping.overlay.
    rewrite length_take, Nat.min_l by assumption.
    rewrite drop_ge by (rewrite Ping_encode_length; lia).
    rewrite app_nil_r. reflexivity.
  - rewrite Nat.min_r by lia.
    rewrite take_ge by lia.
    destruct (Z.eqb_spec (Z.of_nat (length (h_bytes fd))) (-1)) as [?|_]; [lia|].
    destruct (Z.eqb_spec (Z.of_nat (length (h_bytes fd))) 0) as [?|_]; [lia|].
    destruct (Z.eqb_spec (Z.of_nat (length (h_bytes fd))) (Z.of_nat Ping.sizeof_Message)) as [?|_]; [lia|].
    reflexivity.
Qed.

(** ** The read operation and the liveness check *)

Lemma read_count fd n :
  fst (read fd n) = if h_read_ok fd then Z.of_nat (Nat.min n (length (h_bytes fd))) else (-1)%Z.
Proof.
  unfold read. destruct (h_read_ok fd); cbn [fst]; [|reflexivity].
  rewrite length_take. reflexivity.
Qed.

Lemma read_bytes fd n :
  snd (read fd n) = if h_read_ok fd then take n (h_bytes fd) else [].
Proof. unfold read. destruct (h_read_ok fd); reflexivity. Qed.

(** C2 (amended). [readMessage] has three outcomes: a read of the full record
    size succeeds with the record stored in the file; a read of zero bytes
    succeeds with the zero record (status FREE, client_id 0, empty payload); any
    other byte count, a failed seek or a failed read make it return false. On
    a failed seek or read the caller's record is untouched; after a short read
    its first bytes are the bytes that were read and only the rest is as
    before. *)
Theorem C2_readMessage_outcomes (fd : Handle) (msg : Ping.Message) :
  let n := fst (read fd Ping.sizeof_Message) in
  let bs := snd (read fd Ping.sizeof_Message) in
  let r := Ping.readMessage fd msg in
  (lseek fd = 0%Z /\ n = Z.of_nat Ping.sizeof_Message /\ r = (true, Ping.decode bs))
  \/ (lseek fd = 0%Z /\ n = 0%Z /\ r = (true, Ping.zero_Message)
      /\ Ping.status Ping.zero_Message = 0%Z
      /\ Ping.client_id Ping.zero_Message = 0%Z
      /\ c_str (Ping.data Ping.zero_Message) = EmptyString)
  \/ (lseek fd = 0%Z /\ (0 < n < Z.of_nat Ping.sizeof_Message)%Z
      /\ fst r = false
      /\ Ping.encode (snd r) = bs ++ drop (Z.to_nat n) (Ping.encode msg))
  \/ ((lseek fd = (-1)%Z \/ n = (-1)%Z) /\ r = (false, msg)).
Proof.
  cbv zeta. rewrite read_count, read_bytes, Ping_readMessage_cases. unfold lseek.
  destruct (h_seek_ok fd); cbn [andb]; [|right; right; right; auto].
  destruct (h_read_ok fd); [|right; right; right; auto].
  destruct (h_bytes fd) as [|b bs] eqn:Hb.
  - right; left. rewrite Nat.min_r by (cbn; lia). repeat split; reflexivity.
  - rewrite <- Hb.
    assert (Hpos : (0 < length (h_bytes fd))%nat) by (rewrite Hb; cbn; lia).
    destruct (Nat.leb_spec Ping.sizeof_Message (length (h_bytes fd))) as [Hge|Hlt].
    + left. rewrite Nat.min_l by assumption. auto.
    + right; right; left. rewrite Nat.min_r by lia. rewrite take_ge by lia.
      cbn [fst snd]. repeat split; try lia.
      rewrite Nat2Z.id. unfold Ping.overlay. apply Ping_encode_decode.
      rewrite length_app, length_drop, Ping_encode_length. lia.
Qed.

(** C2, the claim as stated fails: a file cut after its status word (four
    bytes, REQUEST) makes [readMessage] fail, and the caller's record, zero
    before the call, now carries status 1. *)
Lemma C2_short_read_reaches_caller :
  let fd := healthy ["001"%char; NUL; NUL; NUL] in
  fst (read fd Ping.sizeof_Message) = 4%Z
  /\ fst (Ping.readMessage fd Ping.zero_Message) = false
  /\ Ping.status (snd (Ping.readMessage fd Ping.zero_Message)) = 1%Z
  /\ snd (Ping.readMessage fd Ping.zero_Message) <> Ping.zero_Message.
Proof.
  cbv zeta. repeat split; try reflexivity.
  intros H. apply (f_equal Ping.status) in H. vm_compute in H. discriminate H.
Qed.

Lemma Ping_readMessage_success fd msg m :
  Ping.readMessage fd msg = (true, m) <->
  h_seek_ok fd = true /\ h_read_ok fd = true
  /\ ((h_bytes fd = [] /\ m = Ping.zero_Message)
      \/ ((Ping.sizeof_Message <= length (h_bytes fd))%nat
          /\ m = Ping.decode (take Ping.sizeof_Message (h_bytes fd)))).
Proof.
  rewrite Ping_readMessage_cases.
  destruct (h_seek_ok fd), (h_read_ok fd); cbn [andb];
    try (split; [discriminate | intros (? & ? & _); discriminate]).
  destruct (h_bytes fd) as [|b bs] eqn:Hb.
  - split.
    + intros [= <-]. auto.
    + intros (_ & _ & [[_ ->] | [Hlen _]]); [reflexivity|].
      cbn in Hlen. unfold Ping.sizeof_Message in Hlen. lia.
  - rewrite <- Hb.
    destruct (Nat.leb_spec Ping.sizeof_Message (length (h_bytes fd))) as [Hge|Hlt].
    + split.
      * intros [= <-]. auto.
      * intros (_ & _ & [[Hnil _] | [_ ->]]); [|reflexivity].
        rewrite Hnil in Hb. discriminate Hb.
    + split; [discriminate|].
      intros (_ & _ & [[Hnil _] | [Hlen _]]); [|lia].
      rewrite Hnil in Hb. discriminate Hb.
Qed.

(** C9 (amended). A candidate is reported available exactly when its file
    can be opened, [readMessage] succeeds on it (a full record, or nothing
    stored at all, which reads as the zero record) and the status read is FREE
    or RESPONSE; a record read with status REQUEST is never reported
    available. *)
Theorem C9_checkServerAvailability (fs : FS) (filename : string) :
  (Ping.checkServerAvailability fs filename = true <->
   exists fd msg,
     open_rdwr fs filename = Some fd
     /\ Ping.readMessage fd Ping.zero_Message = (true, msg)
     /\ (Ping.status msg = 0%Z \/ Ping.status msg = 2%Z))
  /\ (forall fd msg,
        open_rdwr fs filename = Some fd ->
        Ping.readMessage fd Ping.zero_Message = (true, msg) ->
        Ping.status msg = 1%Z ->
        Ping.checkServerAvailability fs filename = false)
  /\ (forall fd msg,
        Ping.readMessage fd Ping.zero_Message = (true, msg) <->
        lseek fd = 0%Z
        /\ ((fst (read fd Ping.sizeof_Message) = Z.of_nat Ping.sizeof_Message
             /\ msg = Ping.decode (snd (read fd Ping.sizeof_Message)))
            \/ (fst (read fd Ping.sizeof_Message) = 0%Z /\ msg = Ping.zero_Message))).
Proof.
  unfold Ping.checkServerAvailability.
  split; [split|split; [|intros fd msg; split]].
  - destruct (open_rdwr fs filename) as [fd|]; [|discriminate].
    destruct (Ping.readMessage fd Ping.zero_Message) as [ok msg] eqn:Hr.
    destruct ok; [|discriminate].
    intros H. exists fd, msg. repeat split; [assumption|].
    apply orb_true_iff in H. destruct H as [H|H]; apply Z.eqb_eq in H; auto.
  - intros (fd & msg & -> & -> & [H|H]); rewrite H; reflexivity.
  - intros fd msg -> -> ->. reflexivity.
  - intros H. apply Ping_readMessage_success in H.
    destruct H as (Hs & Hr & H). unfold lseek. rewrite Hs. split; [reflexivity|].
    rewrite read_count, read_bytes, Hr.
    destruct H as [[Hnil ->] | [Hlen ->]].
    + right. rewrite Hnil. split; reflexivity.
    + left. rewrite Nat.min_l by assumption. split; reflexivity.
  - intros [Hs H]. apply Ping_readMessage_success.
    unfold lseek in Hs. destruct (h_seek_ok fd); [|discriminate Hs].
    rewrite read_count, read_bytes in H.
    destruct (h_read_ok fd); [|destruct H as [[H _]|[H _]]; discriminate H].
    split; [reflexivity|split; [reflexivity|]].
    destruct H as [[Hn ->] | [Hn ->]].
    + right. split; [|reflexivity]. unfold Ping.sizeof_Message in *. lia.
    + left. split; [|reflexivity].
      destruct (h_bytes fd); [reflexivity|]. cbn in Hn. unfold Ping.sizeof_Message in Hn. lia.
Qed.

(** C9, the claim as stated fails: an empty mailbox file (as it is between its
    creation and the server's first write) holds no record to read in full, the
    read returns zero bytes, and the candidate is reported available. *)
Lemma C9_empty_file_reported_available :
  let fs := sample_fs "ipc_server_1.bin" (healthy []) in
  open_rdwr fs "ipc_server_1.bin" = Some (healthy [])
  /\ fst (read (healthy []) Ping.sizeof_Message) = 0%Z
  /\ Ping.checkServerAvailability fs "ipc_server_1.bin" = true.
Proof. cbv zeta. repeat split; vm_compute; reflexivity. Qed.

Lemma C9_checkServerAvailability_witness :
  let fs := sample_fs "ipc_server_1.bin" (healthy (Ping.encode (Ping.request_Message 0 "ping"))) in
  Ping.checkServerAvailability fs "ipc_server_1.bin" = false.
Proof.
  cbv zeta.
  apply (proj1 (proj2 (C9_checkServerAvailability _ _))
           (healthy (Ping.encode (Ping.request_Message 0 "ping")))
           (Ping.request_Message 0 "ping")); vm_compute; reflexivity.
Defined.

(** ** Validation of the ping payload *)

Lemma mem_char_whitespace c : mem_char c Ping.WHITESPACE = is_blank c.
Proof.
  destruct c as [[] [] [] [] [] [] [] []]; reflexivity.
Qed.

Lemma find_first_not_of_trim_left s :
  match find_first_not_of s Ping.WHITESPACE with
  | None => trim_left s = EmptyString /\ all_blank s = true
  | Some i => trim_left s = drop_chars i s /\ all_blank s = false
  end.
Proof.
  induction s as [|c rest IH]; [split; reflexivity|].
  cbn [find_first_not_of trim_left all_blank]. rewrite mem_char_whitespace.
  destruct (is_blank c); [|split; reflexivity].
  destruct (find_first_not_of rest Ping.WHITESPACE); cbn [option_map drop_chars andb]; exact IH.
Qed.

Lemma find_last_not_of_trim_right s :
  match find_last_not_of s Ping.WHITESPACE with
  | None => trim_right s = EmptyString
  | Some j => trim_right s = take_chars (S j) s
  end.
Proof.
  induction s as [|c rest IH]; [reflexivity|].
  cbn [find_last_not_of trim_right]. rewrite mem_char_whitespace.
  destruct (find_last_not_of rest Ping.WHITESPACE) as [j|] eqn:Hj.
  - rewrite IH. destruct rest as [|d rest']; [discriminate Hj|]. reflexivity.
  - rewrite IH. destruct (is_blank c); reflexivity.
Qed.

Lemma find_last_after_first s i :
  find_first_not_of s Ping.WHITESPACE = Some i ->
  exists j, find_last_not_of s Ping.WHITESPACE = Some j
            /\ (i <= j)%nat
            /\ find_last_not_of (drop_chars i s) Ping.WHITESPACE = Some (j - i)%nat.
Proof.
  revert i. induction s as [|c rest IH]; intros i; [discriminate|].
  cbn [find_first_not_of find_last_not_of].
  destruct (mem_char c Ping.WHITESPACE) eqn:Hc.
  - destruct (find_first_not_of rest Ping.WHITESPACE) as [i'|]; [|discriminate].
    intros [= <-]. destruct (IH i' eq_refl) as (j & Hj & Hle & Hdrop).
    rewrite Hj. exists (S j). split; [reflexivity|]. split; [lia|].
    cbn [drop_chars]. rewrite Hdrop. f_equal.
  - intros [= <-]. cbn [drop_chars find_last_not_of]. rewrite Hc.
    destruct (find_last_not_of rest Ping.WHITESPACE) as [j|].
    + exists (S j). split; [reflexivity|]. split; [lia|]. f_equal.
    + exists 0%nat. split; [reflexivity|]. split; [lia|]. reflexivity.
Qed.

Lemma tolower_is_p c : Ascii.eqb (tolower c) "p" = same_letter c "p".
Proof. destruct c as [[] [] [] [] [] [] [] []]; reflexivity. Qed.

Lemma tolower_is_i c : Ascii.eqb (tolower c) "i" = same_letter c "i".
Proof. destruct c as [[] [] [] [] [] [] [] []]; reflexivity. Qed.

Lemma tolower_is_n c : Ascii.eqb (tolower c) "n" = same_letter c "n".
Proof. destruct c as [[] [] [] [] [] [] [] []]; reflexivity. Qed.

Lemma tolower_is_g c : Ascii.eqb (tolower c) "g" = same_letter c "g".
Proof. destruct c as [[] [] [] [] [] [] [] []]; reflexivity. Qed.

Lemma lowered_is_ping s :
  String.eqb (transform tolower s) "ping" = equal_ignoring_case s "ping".
Proof.
  destruct s as [|c1 [|c2 [|c3 [|c4 [|c5 s]]]]];
    cbn [transform String.eqb equal_ignoring_case];
    rewrite ?tolower_is_p, ?tolower_is_i, ?tolower_is_n, ?tolower_is_g;
    repeat match goal with
           | |- context [same_letter ?c ?d] => destruct (same_letter c d)
           end; reflexivity.
Qed.

(** The code trims and compares as the specification says. *)
Lemma isValidPingRequest_spec text :
  Ping.isValidPingRequest text = equal_ignoring_case (trim (c_str text)) "ping".
Proof.
  unfold Ping.isValidPingRequest, trim.
  pose proof (find_first_not_of_trim_left (c_str text)) as Hfirst.
  destruct (find_first_not_of (c_str text) Ping.WHITESPACE) as [i|] eqn:Hi.
  - destruct Hfirst as [Hleft _].
    destruct (find_last_after_first _ _ Hi) as (j & Hj & Hle & Hdrop).
    rewrite Hj, Hleft. unfold substr.
    pose proof (find_last_not_of_trim_right (drop_chars i (c_str text))) as Hright.
    rewrite Hdrop in Hright. rewrite Hright.
    replace (j - i + 1)%nat with (S (j - i)) by lia.
    apply lowered_is_ping.
  - destruct Hfirst as [-> _]. reflexivity.
Qed.

(** C6. [isValidPingRequest] accepts a payload exactly when the payload,
    with the blanks (space, tab, newline, carriage return) at both ends
    removed, equals "ping" up to the case of its letters; a payload that is
    empty or made of blanks only is rejected. *)
Theorem C6_isValidPingRequest_iff (text : list ascii) :
  (Ping.isValidPingRequest text = true <->
   equal_ignoring_case (trim (c_str text)) "ping" = true)
  /\ (all_blank (c_str text) = true -> Ping.isValidPingRequest text = false).
Proof.
  split.
  - rewrite isValidPingRequest_spec. reflexivity.
  - intros Hblank. unfold Ping.isValidPingRequest.
    pose proof (find_first_not_of_trim_left (c_str text)) as Hfirst.
    destruct (find_first_not_of (c_str text) Ping.WHITESPACE); [|reflexivity].
    destruct Hfirst as [_ Hnot]. congruence.
Qed.

Lemma C6_isValidPingRequest_iff_witness :
  all_blank (c_str (store_text "  ")) = true
  /\ Ping.isValidPingRequest (store_text "  ") = false.
Proof.
  split; [reflexivity|].
  apply (proj2 (C6_isValidPingRequest_iff (store_text "  "))). reflexivity.
Defined.

Example isValidPingRequest_samples :
  Ping.isValidPingRequest (store_text "ping") = true
  /\ Ping.isValidPingRequest (store_text (String "009" " PiNG  ")) = true
  /\ Ping.isValidPingRequest (store_text "PONG") = false
  /\ Ping.isValidPingRequest (store_text "ping pong") = false
  /\ Ping.isValidPingRequest (store_text "") = false.
Proof. repeat split; reflexivity. Qed.

(** ** Discovery: enumeration, ordering, selection *)

Lemma prefix_append t s :
  String.prefix t s = true <-> exists rest, s = (t +:+ rest)%string.
Proof.
  revert s. induction t as [|c t IH]; intros s.
  - split; [|destruct s; reflexivity]. intros _. exists s. reflexivity.
  - destruct s as [|d s]; cbn [String.prefix].
    + split; [discriminate|]. intros [rest H]. discriminate H.
    + destruct (ascii_dec c d) as [->|Hne].
      * rewrite IH. split; intros [rest H]; exists rest.
        -- cbn. rewrite H. reflexivity.
        -- cbn in H. injection H as H. exact H.
      * split; [discriminate|]. intros [rest H]. cbn in H. injection H as H _. congruence.
Qed.

Lemma find_at_start s t : find s t = Some 0%nat <-> String.prefix t s = true.
Proof.
  destruct s as [|c s]; cbn [find];
    destruct (String.prefix t _); split; try reflexivity; try discriminate.
  destruct (find s t); discriminate.
Qed.

Lemma find_inside s t :
  find s t <> None <-> exists before after, s = (before +:+ t +:+ after)%string.
Proof.
  induction s as [|c s IH]; cbn [find].
  - destruct (String.prefix t "") eqn:Hp.
    + split; [|discriminate]. intros _. apply prefix_append in Hp.
      destruct Hp as [rest H]. exists EmptyString, rest. exact H.
    + split; [congruence|]. intros (before & after & H).
      destruct before; cbn in H.
      * assert (String.prefix t "" = true) by (apply prefix_append; eauto). congruence.
      * discriminate H.
  - destruct (String.prefix t (String c s)) eqn:Hp.
    + split; [|discriminate]. intros _. apply prefix_append in Hp.
      destruct Hp as [rest H]. exists EmptyString, rest. exact H.
    + split.
      * intros H. assert (Hs : find s t <> None) by (destruct (find s t); [discriminate|exact H]).
        apply IH in Hs. destruct Hs as (before & after & ->).
        exists (String c before), after. reflexivity.
      * intros (before & after & H). destruct before as [|d before]; cbn in H.
        -- assert (String.prefix t (String c s) = true) by (apply prefix_append; eauto).
           congruence.
        -- injection H as _ H.
           assert (Hs : find s t <> None) by (apply IH; eauto).
           destruct (find s t); [discriminate|congruence].
Qed.

(** The filter of [findServerFiles]: the prefix at the start, ".bin"
    somewhere. *)
Lemma is_server_file_iff name :
  Ping.is_server_file name = true <->
  (exists rest, name = (Ping.SERVER_FILE_PREFIX +:+ rest)%string)
  /\ (exists before after, name = (before +:+ ".bin" +:+ after)%string).
Proof.
  unfold Ping.is_server_file. rewrite <- prefix_append, <- find_at_start, <- find_inside.
  destruct (find name Ping.SERVER_FILE_PREFIX) as [[|n]|];
    destruct (find name ".bin"); split; try discriminate; try tauto;
    try (intros [H _]; discriminate H); try (intros [_ H]; congruence).
  intros _. split; [reflexivity|discriminate].
Qed.

Section InsertionSort.
Context {A : Type}.
Variable comp : A -> A -> bool.

Lemma insert_sorted_perm x l : Ping.insert_sorted comp x l ≡ₚ x :: l.
Proof.
  induction l as [|y l IH]; cbn [Ping.insert_sorted]; [reflexivity|].
  destruct (comp x y); [reflexivity|].
  rewrite IH. apply Permutation_swap.
Qed.

Lemma sort_fold_perm l acc :
  fold_left (fun acc x => Ping.insert_sorted comp x acc) l acc ≡ₚ l ++ acc.
Proof.
  revert acc. induction l as [|x l IH]; intros acc; cbn [fold_left]; [reflexivity|].
  rewrite IH, insert_sorted_perm. cbn. symmetry. apply Permutation_middle.
Qed.

Lemma sort_perm l : Ping.sort comp l ≡ₚ l.
Proof. unfold Ping.sort. rewrite sort_fold_perm, app_nil_r. reflexivity. Qed.

(** On elements where [comp] is the strict part of a total preorder [R]
    the result is sorted. *)
Variable P : A -> Prop.
Variable R : A -> A -> Prop.
Hypothesis comp_true : forall x y, P x -> P y -> comp x y = true -> R x y.
Hypothesis comp_false : forall x y, P x -> P y -> comp x y = false -> R y x.
Hypothesis R_trans : forall x y z, P x -> P y -> P z -> R x y -> R y z -> R x z.

Lemma insert_sorted_sorted x l :
  P x -> Forall P l -> StronglySorted R l ->
  StronglySorted R (Ping.insert_sorted comp x l).
Proof.
  intros Hx HP Hs. induction l as [|y l IH]; cbn [Ping.insert_sorted].
  - repeat constructor.
  - apply Forall_cons in HP as [Hy HP].
    apply StronglySorted_inv in Hs as [Hs Hall].
    destruct (comp x y) eqn:Hc.
    + constructor; [constructor; assumption|].
      constructor; [eauto|].
      rewrite Forall_forall in *. intros z Hz. eauto 6.
    + constructor; [auto|].
      rewrite insert_sorted_perm. constructor; [eauto|assumption].
Qed.

Lemma sort_fold_sorted l acc :
  Forall P l -> Forall P acc -> StronglySorted R acc ->
  StronglySorted R (fold_left (fun acc x => Ping.insert_sorted comp x acc) l acc).
Proof.
  revert acc. induction l as [|x l IH]; intros acc Hl Hacc Hs; cbn [fold_left]; [assumption|].
  apply Forall_cons in Hl as [Hx Hl].
  apply IH; [assumption| |apply insert_sorted_sorted; assumption].
  rewrite insert_sorted_perm. constructor; assumption.
Qed.

Lemma sort_sorted l : Forall P l -> StronglySorted R (Ping.sort comp l).
Proof. intros Hl. apply sort_fold_sorted; [assumption|constructor|constructor]. Qed.
End InsertionSort.

Lemma newer_first_numbers a b :
  Ping.newer_first a b =
    match file_number a, file_number b with
    | Some x, Some y => (y <? x)%Z
    | _, _ => String.ltb a b
    end.
Proof. reflexivity. Qed.

Lemma findServerFiles_sorted entries :
  (forall name, In name entries -> Ping.is_server_file name = true ->
                is_Some (file_number name)) ->
  StronglySorted newer_or_same (Ping.findServerFiles (Some entries)).
Proof.
  intros Hnum. unfold Ping.findServerFiles.
  apply sort_sorted with (P := fun name => is_Some (file_number name)).
  - intros x y [nx Hx] [ny Hy]. rewrite newer_first_numbers. unfold newer_or_same.
    rewrite Hx, Hy. intros H. apply Z.ltb_lt in H. lia.
  - intros x y [nx Hx] [ny Hy]. rewrite newer_first_numbers. unfold newer_or_same.
    rewrite Hx, Hy. intros H. apply Z.ltb_ge in H. lia.
  - intros x y z [nx Hx] [ny Hy] [nz Hz]. unfold newer_or_same.
    rewrite Hx, Hy, Hz. lia.
  - apply List.Forall_forall. intros name Hin. apply filter_In in Hin as [Hin Hf]. auto.
Qed.

(** The first element of a list that passes a test. *)
Lemma filter_head {A} (f : A -> bool) l x rest :
  List.filter f l = x :: rest ->
  exists before after,
    l = before ++ x :: after /\ f x = true /\ Forall (fun y => f y = false) before.
Proof.
  induction l as [|y l IH]; cbn [List.filter]; [discriminate|].
  destruct (f y) eqn:Hy.
  - intros [= -> <-]. exists [], l. auto.
  - intros H. destruct (IH H) as (before & after & -> & Hx & Hb).
    exists (y :: before), after. auto.
Qed.

Lemma filter_none {A} (f : A -> bool) l :
  List.filter f l = [] -> Forall (fun y => f y = false) l.
Proof.
  induction l as [|y l IH]; cbn [List.filter]; [constructor|].
  destruct (f y) eqn:Hy; [discriminate|]. auto.
Qed.

(** C7 (amended). [findServerFiles] returns, in some order, exactly the
    directory entries that start with the prefix and contain ".bin"; entries
    whose suffix is no number are kept. When every such entry has a numeric
    suffix the list is in descending order of the numbers; the suffixes 3, 1,
    7, 2 come out as 7, 3, 2, 1. [autoConnectToServer] returns the first entry of
    that list that [checkServerAvailability] accepts (so, with numeric suffixes,
    an available one of the highest number), and the empty string when there is
    none. *)
Theorem C7_discovery (entries : list string) (fs : FS) :
  Ping.findServerFiles (Some entries) ≡ₚ List.filter Ping.is_server_file entries
  /\ (forall name, In name (Ping.findServerFiles (Some entries)) <->
        In name entries
        /\ (exists rest, name = (Ping.SERVER_FILE_PREFIX +:+ rest)%string)
        /\ (exists before after, name = (before +:+ ".bin" +:+ after)%string))
  /\ ((forall name, In name entries -> Ping.is_server_file name = true ->
                    is_Some (file_number name)) ->
      StronglySorted newer_or_same (Ping.findServerFiles (Some entries)))
  /\ Ping.findServerFiles
       (Some ["ipc_server_3.bin"; "ipc_server_1.bin"; "ipc_server_7.bin"; "ipc_server_2.bin"]%string)
     = ["ipc_server_7.bin"; "ipc_server_3.bin"; "ipc_server_2.bin"; "ipc_server_1.bin"]%string
  /\ ((Ping.autoConnectToServer (Some entries) fs = EmptyString
       /\ Forall (fun name => Ping.checkServerAvailability fs name = false)
                 (Ping.findServerFiles (Some entries)))
      \/ (exists before after,
            Ping.findServerFiles (Some entries)
              = before ++ Ping.autoConnectToServer (Some entries) fs :: after
            /\ Ping.checkServerAvailability fs (Ping.autoConnectToServer (Some entries) fs) = true
            /\ Forall (fun name => Ping.checkServerAvailability fs name = false) before))
  /\ ((forall name, In name entries -> Ping.is_server_file name = true ->
                    is_Some (file_number name)) ->
      forall name,
        In name (Ping.findServerFiles (Some entries)) ->
        Ping.checkServerAvailability fs name = true ->
        name = Ping.autoConnectToServer (Some entries) fs
        \/ newer_or_same (Ping.autoConnectToServer (Some entries) fs) name).
Proof.
  assert (Hperm : Ping.findServerFiles (Some entries)
                  ≡ₚ List.filter Ping.is_server_file entries)
    by apply sort_perm.
  assert (Hsel :
    (Ping.autoConnectToServer (Some entries) fs = EmptyString
     /\ Forall (fun name => Ping.checkServerAvailability fs name = false)
               (Ping.findServerFiles (Some entries)))
    \/ (exists before after,
          Ping.findServerFiles (Some entries)
            = before ++ Ping.autoConnectToServer (Some entries) fs :: after
          /\ Ping.checkServerAvailability fs (Ping.autoConnectToServer (Some entries) fs) = true
          /\ Forall (fun name => Ping.checkServerAvailability fs name = false) before)).
  { unfold Ping.autoConnectToServer.
    destruct (List.filter (Ping.checkServerAvailability fs) (Ping.findServerFiles (Some entries)))
      as [|first rest] eqn:Hf.
    - left. split; [reflexivity|]. apply filter_none. exact Hf.
    - right. apply filter_head in Hf. exact Hf. }
  split; [exact Hperm|]. split; [|split; [|split; [|split]]].
  - intros name. rewrite <- is_server_file_iff, <- filter_In.
    split; intros H; [rewrite <- Hperm | rewrite Hperm]; exact H.
  - apply findServerFiles_sorted.
  - reflexivity.
  - exact Hsel.
  - intros Hnum name Hin Havail.
    pose proof (findServerFiles_sorted entries Hnum) as Hsorted.
    destruct Hsel as [[_ Hnone] | (before & after & Heq & _ & Hbefore)].
    + rewrite List.Forall_forall in Hnone. rewrite (Hnone name Hin) in Havail.
      discriminate Havail.
    + rewrite Heq in Hin, Hsorted. apply in_app_or in Hin as [Hin|[Hin|Hin]].
      * rewrite List.Forall_forall in Hbefore. rewrite (Hbefore name Hin) in Havail.
        discriminate Havail.
      * left. symmetry. exact Hin.
      * right. apply StronglySorted_app_1_r in Hsorted.
        apply StronglySorted_inv in Hsorted as [_ Hall].
        rewrite List.Forall_forall in Hall. auto.
Qed.

(** C7, the claim as stated fails: an entry with the prefix, ".bin" and a
    suffix that is no number stays in the candidate set, and is selected when
    it is the available one. *)
Lemma C7_non_numeric_suffix_kept :
  let fs := sample_fs "ipc_server_abc.bin" (healthy []) in
  stoi "abc" = None
  /\ file_number "ipc_server_abc.bin" = None
  /\ Ping.findServerFiles (Some ["ipc_server_abc.bin"%string]) = ["ipc_server_abc.bin"%string]
  /\ Ping.autoConnectToServer (Some ["ipc_server_abc.bin"%string]) fs = "ipc_server_abc.bin"%string.
Proof. cbv zeta. repeat split; vm_compute; reflexivity. Qed.

Lemma C7_discovery_witness :
  StronglySorted newer_or_same
    (Ping.findServerFiles (Some ["ipc_server_3.bin"; "notes.txt"; "ipc_server_7.bin"]%string)).
Proof.
  apply (proj1 (proj2 (proj2 (C7_discovery
           ["ipc_server_3.bin"; "notes.txt"; "ipc_server_7.bin"]%string
           (sample_fs "ipc_server_3.bin" (healthy [])))))).
  intros name [<-|[<-|[<-|[]]]] H; try discriminate H; vm_compute; eauto.
Defined.

(** ** The start of a server: instance number and mailbox file *)

Lemma drop_chars_append p t : drop_chars (String.length p) (p +:+ t) = t.
Proof. induction p as [|c p IH]; [reflexivity|exact IH]. Qed.

Lemma find_char_split s c i :
  find_char s c = Some i <->
  exists before after,
    s = (before +:+ String c after)%string
    /\ String.length before = i
    /\ find_char before c = None.
Proof.
  revert i. induction s as [|d s IH]; intros i; cbn [find_char].
  - split; [discriminate|]. intros (before & after & H & _). destruct before; discriminate H.
  - destruct (Ascii.eqb_spec d c) as [->|Hne].
    + split.
      * intros [= <-]. exists EmptyString, s. auto.
      * intros (before & after & H & Hlen & Hnone).
        destruct before as [|b before]; [cbn in Hlen; congruence|].
        cbn in H. injection H as -> _. cbn in Hnone. rewrite Ascii.eqb_refl in Hnone.
        discriminate Hnone.
    + split.
      * destruct (find_char s c) as [j|] eqn:Hj; [|discriminate].
        intros [= <-]. destruct (proj1 (IH j) eq_refl) as (before & after & -> & Hlen & Hnone).
        exists (String d before), after. cbn [String.length find_char].
        destruct (Ascii.eqb_spec d c); [contradiction|]. rewrite Hnone, Hlen. auto.
      * intros (before & after & H & Hlen & Hnone).
        destruct before as [|b before]; cbn in H; injection H as -> H; [contradiction|].
        cbn in Hnone. destruct (Ascii.eqb b c); [discriminate|].
        destruct (find_char before c) eqn:Hb; [discriminate|].
        assert (Hs : find_char s c = Some (String.length before))
          by (apply IH; exists before, after; auto).
        rewrite Hs. cbn in Hlen. cbn. congruence.
Qed.

Lemma no_dot_find_char s : no_dot s = true <-> find_char s "." = None.
Proof.
  induction s as [|c s IH]; cbn [no_dot find_char]; [tauto|].
  destruct (Ascii.eqb c "."); cbn [negb andb].
  - split; discriminate.
  - rewrite IH. destruct (find_char s "."); split; try discriminate; reflexivity.
Qed.

Lemma take_chars_append p t : take_chars (String.length p) (p +:+ t) = p.
Proof.
  induction p as [|c p IH]; [destruct t; reflexivity|].
  cbn [String.length String.append take_chars]. f_equal. exact IH.
Qed.

(** The number [findMaxServerNumber] reads in an entry: the text between the
    prefix and the first dot, when [stoi] accepts it. *)
Lemma entry_number_iff e k :
  Ping.entry_number e = Some k <->
  exists suffix rest,
    e = (Ping.SERVER_FILE_PREFIX +:+ suffix +:+ "." +:+ rest)%string
    /\ no_dot suffix = true
    /\ stoi suffix = Some k.
Proof.
  unfold Ping.entry_number. split.
  - destruct (find e Ping.SERVER_FILE_PREFIX) as [[|n]|] eqn:Hp; try discriminate.
    apply find_at_start, prefix_append in Hp. destruct Hp as [tail ->].
    unfold substr. rewrite drop_chars_append.
    destruct (find_char tail ".") as [i|] eqn:Hdot; [|discriminate].
    apply find_char_split in Hdot. destruct Hdot as (suffix & rest & -> & <- & Hnone).
    cbn [drop_chars]. rewrite take_chars_append.
    intros Hk. exists suffix, rest. split; [reflexivity|].
    split; [apply no_dot_find_char; exact Hnone|exact Hk].
  - intros (suffix & rest & -> & Hnd & Hk).
    assert (Hp : find (Ping.SERVER_FILE_PREFIX +:+ suffix +:+ "." +:+ rest) Ping.SERVER_FILE_PREFIX
                 = Some 0%nat) by (apply find_at_start, prefix_append; eauto).
    rewrite Hp. unfold substr. rewrite drop_chars_append.
    assert (Hdot : find_char (suffix +:+ "." +:+ rest) "." = Some (String.length suffix)).
    { apply find_char_split. exists suffix, rest. split; [reflexivity|].
      split; [reflexivity|]. apply no_dot_find_char. exact Hnd. }
    rewrite Hdot. cbn [drop_chars]. rewrite take_chars_append. exact Hk.
Qed.

Lemma max_fold_bounds entries acc :
  (acc <= fold_left max_step entries acc)%Z
  /\ (forall e k, In e entries -> Ping.entry_number e = Some k ->
                  (k <= fold_left max_step entries acc)%Z)
  /\ (fold_left max_step entries acc = acc
      \/ exists e, In e entries /\ Ping.entry_number e = Some (fold_left max_step entries acc)).
Proof.
  revert acc. induction entries as [|x entries IH]; intros acc; cbn [fold_left].
  - split; [lia|]. split; [intros e k []|left; reflexivity].
  - destruct (IH (max_step acc x)) as (Hle & Hall & Hwit).
    assert (Hstep : (acc <= max_step acc x)%Z).
    { unfold max_step. destruct (Ping.entry_number x); [|lia].
      destruct (Z.ltb_spec acc z); lia. }
    split; [lia|]. split.
    + intros e k [<-|Hin] Hk; [|eauto].
      assert ((k <= max_step acc x)%Z); [|lia].
      unfold max_step. rewrite Hk. destruct (Z.ltb_spec acc k); lia.
    + destruct Hwit as [Heq|(e & Hin & He)]; [|right; exists e; split; [right|]; assumption].
      rewrite Heq. unfold max_step.
      destruct (Ping.entry_number x) as [num|] eqn:Hx; [|left; reflexivity].
      destruct (Z.ltb_spec acc num); [|left; reflexivity].
      right. exists x. split; [left; reflexivity|exact Hx].
Qed.

Lemma findMaxServerNumber_fold entries :
  Ping.findMaxServerNumber (Some entries) = fold_left max_step entries 0%Z.
Proof. reflexivity. Qed.

Lemma stoi_range s k : stoi s = Some k -> (INT_MIN <= k <= INT_MAX)%Z.
Proof.
  unfold stoi.
  destruct (match skip_spaces s with
            | String "-"%char rest => (true, rest)
            | String "+"%char rest => (false, rest)
            | _ => (false, skip_spaces s)
            end) as [neg s2].
  destruct (starts_with_digit s2); [|discriminate].
  destruct (in_int_range _) eqn:Hr; [|discriminate].
  intros [= <-]. unfold in_int_range in Hr.
  apply andb_true_iff in Hr as [H1 H2]. apply Z.leb_le in H1, H2. lia.
Qed.

Lemma wrap_int_small z : (INT_MIN <= z <= INT_MAX)%Z -> wrap_int z = z.
Proof.
  unfold wrap_int, INT_MIN, INT_MAX. intros H. Z.div_mod_to_equations. lia.
Qed.

(** ** Names written by [std::to_string] are read back by [std::stoi] *)

Lemma digits_value_acc d :
  forall acc, digits_value (Z.pos acc) (NilEmpty.string_of_uint d)
              = Z.pos (Pos.of_uint_acc d acc).
Proof.
  induction d as [|d IH|d IH|d IH|d IH|d IH|d IH|d IH|d IH|d IH|d IH]; intros acc;
    [reflexivity|..];
    cbn [NilEmpty.string_of_uint digits_value Pos.of_uint_acc];
    match goal with
    | |- context [digit_of ?c] =>
        let v := eval vm_compute in (digit_of c) in change (digit_of c) with v
    end;
    cbn iota; rewrite <- IH; f_equal; lia.
Qed.

Lemma digits_value_of_uint d :
  digits_value 0 (NilEmpty.string_of_uint d) = Z.of_N (Pos.of_uint d).
Proof.
  induction d as [|d IH|d IH|d IH|d IH|d IH|d IH|d IH|d IH|d IH|d IH];
    [reflexivity|exact IH|..];
    cbn [NilEmpty.string_of_uint digits_value Pos.of_uint];
    match goal with
    | |- context [digit_of ?c] =>
        let v := eval vm_compute in (digit_of c) in change (digit_of c) with v
    end;
    cbn iota; apply digits_value_acc.
Qed.

Lemma no_dot_digits d : no_dot (NilEmpty.string_of_uint d) = true.
Proof.
  induction d as [|d IH|d IH|d IH|d IH|d IH|d IH|d IH|d IH|d IH|d IH];
    [reflexivity|..]; exact IH.
Qed.

Lemma stoi_digits d :
  d <> Decimal.Nil ->
  in_int_range (Z.of_N (Pos.of_uint d)) = true ->
  stoi (NilEmpty.string_of_uint d) = Some (Z.of_N (Pos.of_uint d)).
Proof.
  intros Hnil Hrange. pose proof (digits_value_of_uint d) as Hval.
  unfold stoi.
  destruct d; [contradiction|..];
    cbn [NilEmpty.string_of_uint skip_spaces] in *;
    match goal with
    | |- context [isspace ?c] =>
        let v := eval vm_compute in (isspace c) in change (isspace c) with v
    end;
    cbn iota; unfold starts_with_digit;
    match goal with
    | |- context [digit_of ?c] =>
        let v := eval vm_compute in (digit_of c) in change (digit_of c) with v
    end;
    cbn iota; rewrite Hval, Hrange; reflexivity.
Qed.

Lemma stoi_minus_digits d :
  d <> Decimal.Nil ->
  in_int_range (- Z.of_N (Pos.of_uint d)) = true ->
  stoi (String "-" (NilEmpty.string_of_uint d)) = Some (- Z.of_N (Pos.of_uint d))%Z.
Proof.
  intros Hnil Hrange. pose proof (digits_value_of_uint d) as Hval.
  unfold stoi. cbn [skip_spaces].
  change (isspace "-") with false. cbn iota.
  destruct d; [contradiction|..];
    cbn [NilEmpty.string_of_uint] in *; unfold starts_with_digit;
    match goal with
    | |- context [digit_of ?c] =>
        let v := eval vm_compute in (digit_of c) in change (digit_of c) with v
    end;
    cbn iota; rewrite Hval, Hrange; reflexivity.
Qed.

Lemma string_of_uint_nonnil d :
  d <> Decimal.Nil -> NilZero.string_of_uint d = NilEmpty.string_of_uint d.
Proof. destruct d; [contradiction|..]; reflexivity. Qed.

Lemma stoi_to_string z :
  (INT_MIN <= z <= INT_MAX)%Z -> stoi (to_string z) = Some z.
Proof.
  intros Hz. unfold to_string.
  assert (Hr : in_int_range z = true).
  { unfold in_int_range. apply andb_true_iff. split; apply Z.leb_le; lia. }
  destruct z as [|p|p]; [reflexivity|..]; cbn [Z.to_int NilZero.string_of_int];
    rewrite string_of_uint_nonnil by apply DecimalPos.Unsigned.to_uint_nonnil.
  - rewrite stoi_digits; rewrite ?DecimalPos.Unsigned.of_to;
      [reflexivity|apply DecimalPos.Unsigned.to_uint_nonnil|exact Hr].
  - rewrite stoi_minus_digits; rewrite ?DecimalPos.Unsigned.of_to;
      [reflexivity|apply DecimalPos.Unsigned.to_uint_nonnil|exact Hr].
Qed.

Lemma no_dot_to_string z : no_dot (to_string z) = true.
Proof.
  unfold to_string. destruct z as [|p|p]; [reflexivity|..];
    cbn [Z.to_int NilZero.string_of_int];
    rewrite string_of_uint_nonnil by apply DecimalPos.Unsigned.to_uint_nonnil;
    [|cbn [no_dot]; change (Ascii.eqb "-" ".") with false; cbn [negb andb]];
    apply no_dot_digits.
Qed.

(** The name a server gives its mailbox carries the server's number. *)
Lemma entry_number_of_name z :
  (INT_MIN <= z <= INT_MAX)%Z ->
  Ping.entry_number (Ping.SERVER_FILE_PREFIX +:+ to_string z +:+ ".bin") = Some z.
Proof.
  intros Hz. apply entry_number_iff. exists (to_string z), "bin"%string.
  split; [reflexivity|]. split; [apply no_dot_to_string|apply stoi_to_string; exact Hz].
Qed.

Lemma entry_number_file_number e k :
  Ping.entry_number e = Some k -> file_number e = Some k.
Proof.
  unfold Ping.entry_number, file_number.
  destruct (find e Ping.SERVER_FILE_PREFIX) as [[|n]|]; try discriminate.
  cbv zeta.
  destruct (find_char (substr e (String.length Ping.SERVER_FILE_PREFIX) None) ".");
    [|discriminate].
  intros H. exact H.
Qed.

Lemma file_number_of_name z :
  (INT_MIN <= z <= INT_MAX)%Z ->
  file_number (Ping.SERVER_FILE_PREFIX +:+ to_string z +:+ ".bin") = Some z.
Proof. intros Hz. apply entry_number_file_number, entry_number_of_name. exact Hz. Qed.

(** C8. A starting server takes as its number one more than the largest
    number that an entry of the directory carries between the prefix and its
    first dot (0 when there is none; entries whose suffix is no number do not
    count, and no file is opened to see if its owner lives), names its mailbox
    after it, and asks for an exclusive creation of that file; when that fails
    it opens the file that is there, and gives up if this fails too. The number
    is stated for a maximum below [INT_MAX], where the increment does not
    overflow; the name then carries the number, so that a server started later
    in a directory holding this name takes a larger one. *)
Theorem C8_start_server (dir : option (list string)) (fs : FS)
    (number : Z) (name : string) (how : Ping.Startup) (fs' : FS) :
  Ping.start_server dir fs = (number, name, how, fs') ->
  let m := Ping.findMaxServerNumber dir in
  (0 <= m <= INT_MAX)%Z
  /\ (forall entries e k, dir = Some entries -> In e entries ->
                          Ping.entry_number e = Some k -> (k <= m)%Z)
  /\ (m = 0%Z
      \/ exists entries e, dir = Some entries /\ In e entries /\ Ping.entry_number e = Some m)
  /\ (forall e k,
        Ping.entry_number e = Some k <->
        exists suffix rest,
          e = (Ping.SERVER_FILE_PREFIX +:+ suffix +:+ "." +:+ rest)%string
          /\ no_dot suffix = true /\ stoi suffix = Some k)
  /\ ((m < INT_MAX)%Z -> number = (m + 1)%Z)
  /\ name = (Ping.SERVER_FILE_PREFIX +:+ to_string number +:+ ".bin")%string
  /\ (forall fd fs1, open_excl fs name = (Some fd, fs1) ->
                     how = Ping.Created fd /\ fs' = fs1)
  /\ (fst (open_excl fs name) = None ->
      fs' = fs
      /\ how = match open_rdwr fs name with
               | Some fd => Ping.Reused fd
               | None => Ping.OpenFailed
               end)
  /\ (fs_files fs !! name = None -> fs_can_create fs = true ->
      how = Ping.Created (healthy [])
      /\ fs_files fs' = <[name := healthy []]> (fs_files fs))
  /\ (forall fd, fs_files fs !! name = Some fd -> h_rdwr_ok fd = true ->
                 how = Ping.Reused fd /\ fs' = fs)
  /\ ((m < INT_MAX)%Z ->
      Ping.entry_number name = Some number
      /\ forall later, In name later ->
                       (number <= Ping.findMaxServerNumber (Some later))%Z).
Proof.
  intros Hstart m.
  assert (Hmax : (0 <= m)%Z
                 /\ (forall entries e k, dir = Some entries -> In e entries ->
                        Ping.entry_number e = Some k -> (k <= m)%Z)
                 /\ (m = 0%Z \/ exists entries e, dir = Some entries /\ In e entries
                                                  /\ Ping.entry_number e = Some m)).
  { subst m. destruct dir as [entries|]; cbn [Ping.findMaxServerNumber].
    - change (fold_left _ entries 0%Z) with (fold_left max_step entries 0%Z).
      destruct (max_fold_bounds entries 0%Z) as (Hle & Hall & Hwit).
      split; [exact Hle|]. split.
      + intros entries' e k [= <-]. apply Hall.
      + destruct Hwit as [Heq|(e & Hin & He)]; [left; exact Heq|].
        right. exists entries, e. auto.
    - split; [lia|]. split; [discriminate|left; reflexivity]. }
  destruct Hmax as (Hpos & Hall & Hwit).
  assert (Hup : (m <= INT_MAX)%Z).
  { destruct Hwit as [->|(entries & e & _ & _ & He)]; [unfold INT_MAX; lia|].
    apply entry_number_iff in He. destruct He as (suffix & _ & _ & _ & Hk).
    apply stoi_range in Hk. lia. }
  unfold Ping.start_server in Hstart. fold m in Hstart.
  set (n := wrap_int (m + 1)) in Hstart.
  set (file := (Ping.SERVER_FILE_PREFIX +:+ to_string n +:+ ".bin")%string) in Hstart.
  assert (Hnn : number = n /\ name = file).
  { destruct (open_excl fs file) as [[fd|] fs1]; [injection Hstart; auto|].
    destruct (open_rdwr fs1 file); injection Hstart; auto. }
  destruct Hnn as [-> ->].
  split; [lia|]. split; [exact Hall|]. split; [exact Hwit|].
  split; [apply entry_number_iff|].
  split; [intros Hlt; subst n; apply wrap_int_small; unfold INT_MIN, INT_MAX in *; lia|].
  split; [reflexivity|].
  assert (Hfail : fst (open_excl fs file) = None ->
                  fs' = fs /\ how = match open_rdwr fs file with
                                   | Some fd => Ping.Reused fd
                                   | None => Ping.OpenFailed
                                   end).
  { unfold open_excl in *.
    destruct (fs_files fs !! file) as [old|] eqn:Hold.
    - intros _. destruct (open_rdwr fs file); injection Hstart; auto.
    - destruct (fs_can_create fs); [discriminate|].
      intros _. destruct (open_rdwr fs file); injection Hstart; auto. }
  split; [|split; [exact Hfail|split; [|split]]].
  - intros fd fs1 Hex. rewrite Hex in Hstart. injection Hstart; auto.
  - intros Hnone Hcan. unfold open_excl in Hstart. rewrite Hnone, Hcan in Hstart.
    injection Hstart as <- <-. auto.
  - intros fd Hsome Hrw.
    assert (Hex : fst (open_excl fs file) = None) by (unfold open_excl; rewrite Hsome; reflexivity).
    destruct (Hfail Hex) as [-> ->]. unfold open_rdwr. rewrite Hsome, Hrw. auto.
  - intros Hlt.
    assert (Hn : n = (m + 1)%Z)
      by (subst n; apply wrap_int_small; unfold INT_MIN, INT_MAX in *; lia).
    assert (Hown : Ping.entry_number file = Some n).
    { subst file. apply entry_number_of_name. unfold INT_MIN, INT_MAX in *. lia. }
    split; [exact Hown|].
    intros later Hin. rewrite findMaxServerNumber_fold.
    destruct (max_fold_bounds later 0%Z) as (_ & Hall' & _). eauto.
Qed.

Lemma C8_start_server_witness :
  let dir := Some ["ipc_server_3.bin"; "ipc_server_x.bin"; "ipc_server_7.bin"; "."]%string in
  let fs := sample_fs "ipc_server_7.bin" (healthy []) in
  Ping.findMaxServerNumber dir = 7%Z
  /\ fst (fst (fst (Ping.start_server dir fs))) = 8%Z.
Proof.
  cbv zeta. split; [reflexivity|].
  destruct (Ping.start_server
              (Some ["ipc_server_3.bin"; "ipc_server_x.bin"; "ipc_server_7.bin"; "."]%string)
              (sample_fs "ipc_server_7.bin" (healthy [])))
    as [[[number name] how] fs'] eqn:Hstart.
  destruct (C8_start_server _ _ _ _ _ _ Hstart) as (_ & _ & _ & _ & Hnum & _).
  cbn [fst]. apply Hnum. vm_compute. reflexivity.
Defined.

(** C8, where the claim as stated fails. The number read in an entry is what
    [std::stoi] makes of the text between the prefix and the first dot: a
    suffix that only begins like a number counts ("9x" as 9, " 12" as 12,
    "+11" as 11), so a suffix that is no number is not always treated as
    absent. The maximum starts at 0, so a negative suffix never raises it:
    beside "ipc_server_-5.bin" alone the server takes 1, not -4. And one more
    than the maximum is taken in [int]: beside "ipc_server_2147483647.bin"
    the increment overflows, and where it wraps the server takes
    -2147483648. *)
Lemma C8_number_from_number_prefix_and_wraps :
  let number dir := fst (fst (fst (Ping.start_server (Some dir) empty_fs))) in
  let name dir := snd (fst (fst (Ping.start_server (Some dir) empty_fs))) in
  Ping.entry_number "ipc_server_9x.bin" = Some 9%Z
  /\ number ["ipc_server_9x.bin"]%string = 10%Z
  /\ Ping.entry_number "ipc_server_ 12.bin" = Some 12%Z
  /\ Ping.entry_number "ipc_server_+11.bin" = Some 11%Z
  /\ number ["ipc_server_ 12.bin"; "ipc_server_+11.bin"]%string = 13%Z
  /\ Ping.entry_number "ipc_server_-5.bin" = Some (-5)%Z
  /\ Ping.findMaxServerNumber (Some ["ipc_server_-5.bin"]%string) = 0%Z
  /\ number ["ipc_server_-5.bin"]%string = 1%Z
  /\ Ping.findMaxServerNumber (Some ["ipc_server_2147483647.bin"]%string) = INT_MAX
  /\ number ["ipc_server_2147483647.bin"]%string = INT_MIN
  /\ name ["ipc_server_2147483647.bin"]%string = "ipc_server_-2147483648.bin"%string.
Proof. cbv zeta. repeat split; vm_compute; reflexivity. Qed.

(** ** The servers' answers *)

Lemma bind_run {A B} (m : M A) (k : A -> M B) w :
  (m ≫= k) w = let '(a, w') := m w in k a w'.
Proof. reflexivity. Qed.

Lemma write_full fd buf n :
  length buf = n ->
  fst (write fd buf) = Z.of_nat n ->
  take n (h_bytes (snd (write fd buf))) = buf.
Proof.
  intros Hlen. unfold write. destruct (h_write_cap fd) as [k|]; cbn [fst snd h_bytes]; [|lia].
  rewrite length_take. intros Hw.
  assert (Hk : (n <= k)%nat) by lia.
  rewrite (take_ge buf k) by lia.
  rewrite take_app_length'; [reflexivity|lia].
Qed.

Lemma Ping_writeMessage_stores fd msg :
  fst (Ping.writeMessage fd msg) = true ->
  take Ping.sizeof_Message (h_bytes (snd (Ping.writeMessage fd msg))) = Ping.encode msg.
Proof.
  unfold Ping.writeMessage. destruct (lseek fd =? -1)%Z; [discriminate|].
  destruct (write fd (Ping.encode msg)) as [n fd'] eqn:Hw.
  destruct (n =? -1)%Z; [discriminate|]. cbn [fst snd].
  intros Hn. apply Z.eqb_eq in Hn.
  replace fd' with (snd (write fd (Ping.encode msg))) by (rewrite Hw; reflexivity).
  apply write_full; [apply Ping_encode_length|rewrite Hw; exact Hn].
Qed.

Lemma Ping_io_writeMessage_run msg w :
  Ping.io_writeMessage msg w =
    (fst (Ping.writeMessage (w_mailbox (tick w)) msg),
     emit (EvWriteMessage (Ping.encode msg) (fst (Ping.writeMessage (w_mailbox (tick w)) msg)))
          (set_mailbox (snd (Ping.writeMessage (w_mailbox (tick w)) msg)) (tick w))).
Proof.
  unfold Ping.io_writeMessage. destruct (Ping.writeMessage (w_mailbox (tick w)) msg). reflexivity.
Qed.

Lemma tick_trace w : w_trace (tick w) = w_trace w.
Proof. unfold tick. destruct (w_env w); reflexivity. Qed.

Lemma emit_trace e w : w_trace (emit e w) = w_trace w ++ [e].
Proof. reflexivity. Qed.

Lemma set_mailbox_trace h w : w_trace (set_mailbox h w) = w_trace w.
Proof. reflexivity. Qed.

Lemma advance_trace ms w : w_trace (advance ms w) = w_trace w.
Proof. reflexivity. Qed.

Lemma emit_mailbox e w : w_mailbox (emit e w) = w_mailbox w.
Proof. reflexivity. Qed.

Lemma emit_now e w : w_now (emit e w) = w_now w.
Proof. reflexivity. Qed.

Create Rewrite HintDb trace.
#[global] Hint Rewrite tick_trace emit_trace set_mailbox_trace advance_trace : trace.

Lemma sleep_for_run ms w : sleep_for ms w = (tt, emit (EvSleep ms) (advance ms (tick w))).
Proof. reflexivity. Qed.

Lemma load_running_run w : load_running w = (w_running (tick w), tick w).
Proof. reflexivity. Qed.

Lemma steady_now_run w : steady_now w = (w_now (tick w), tick w).
Proof. reflexivity. Qed.

Lemma print_run line w : print line w = (tt, emit (EvPrint line) w).
Proof. reflexivity. Qed.

(** The invalid-command branch of the ping server. *)
Lemma Ping_handle_invalid sv msg w :
  Ping.isValidPingRequest (Ping.data msg) = false ->
  Ping.handle_request sv msg w =
    (sv, snd (Ping.io_writeMessage
                {| Ping.status := 2; Ping.client_id := Ping.client_id msg;
                   Ping.data := store_text Ping.INVALID_COMMAND |} w)).
Proof.
  intros Hinv. unfold Ping.handle_request. rewrite Hinv. cbn [negb].
  rewrite bind_run. destruct (Ping.io_writeMessage _ w). reflexivity.
Qed.

Lemma Simple_encode_length m : length (Simple.encode m) = Simple.sizeof_Message.
Proof.
  unfold Simple.encode. rewrite length_app, int_bytes_length, pad_length. reflexivity.
Qed.

Lemma Simple_writeMessage_stores fd msg :
  fst (Simple.writeMessage fd msg) = true ->
  take Simple.sizeof_Message (h_bytes (snd (Simple.writeMessage fd msg))) = Simple.encode msg.
Proof.
  unfold Simple.writeMessage. destruct (lseek fd =? -1)%Z; [discriminate|].
  destruct (write fd (Simple.encode msg)) as [n fd'] eqn:Hw.
  destruct (n =? -1)%Z; [discriminate|]. cbn [fst snd].
  intros Hn. apply Z.eqb_eq in Hn.
  replace fd' with (snd (write fd (Simple.encode msg))) by (rewrite Hw; reflexivity).
  apply write_full; [apply Simple_encode_length|rewrite Hw; exact Hn].
Qed.

Lemma Simple_io_writeMessage_run msg w :
  Simple.io_writeMessage msg w =
    (fst (Simple.writeMessage (w_mailbox (tick w)) msg),
     emit (EvWriteMessage (Simple.encode msg) (fst (Simple.writeMessage (w_mailbox (tick w)) msg)))
          (set_mailbox (snd (Simple.writeMessage (w_mailbox (tick w)) msg)) (tick w))).
Proof.
  unfold Simple.io_writeMessage.
  destruct (Simple.writeMessage (w_mailbox (tick w)) msg). reflexivity.
Qed.

Lemma Simple_processRequest_invalid request w :
  (Simple.extractRequestNumber request =? -1)%Z
  || String.eqb (Simple.extractRequestText request) EmptyString = true ->
  Simple.processRequest request w = ((Simple.INVALID_FORMAT, true), w).
Proof. intros H. unfold Simple.processRequest. rewrite H. reflexivity. Qed.

(** The two invalid-format paths of the single-mailbox server. *)
Lemma Simple_handle_invalid st msg w :
  Simple.passes_validation (Simple.data msg) = false ->
  let answer := {| Simple.status := 2; Simple.data := store_text Simple.INVALID_FORMAT |} in
  let ok := fst (Simple.writeMessage (w_mailbox (tick w)) answer) in
  snd (Simple.handle_request st msg w) = snd (Simple.io_writeMessage answer w)
  /\ Simple.processedRequests (fst (Simple.handle_request st msg w))
     = wrap_int (Simple.processedRequests st + 1)
  /\ (Simple.errorCount (fst (Simple.handle_request st msg w))
      = wrap_int (Simple.errorCount st + 1)
      \/ (ok = false
          /\ Simple.errorCount (fst (Simple.handle_request st msg w))
             = wrap_int (wrap_int (Simple.errorCount st + 1) + 1))).
Proof.
  intros Hinv answer ok. unfold Simple.passes_validation in Hinv.
  unfold Simple.handle_request.
  destruct (Simple.isValidRequest (Simple.data msg)); cbn [negb andb] in *.
  - apply negb_false_iff in Hinv.
    rewrite bind_run, (Simple_processRequest_invalid _ w Hinv).
    cbn beta iota. rewrite bind_run. fold answer.
    rewrite Simple_io_writeMessage_run. fold ok. cbn [snd].
    destruct ok eqn:Hok; cbn [negb]; unfold mret, M_ret;
      cbn [fst snd Simple.processedRequests Simple.errorCount]; auto.
  - rewrite bind_run. fold answer. rewrite Simple_io_writeMessage_run. fold ok.
    unfold mret, M_ret. cbn [fst snd Simple.processedRequests Simple.errorCount]. auto.
Qed.

(** C1 (amended). A request whose payload fails validation is answered at
    once (no sleep before the write) with a RESPONSE record carrying the fixed
    error text. The ping server keeps the request's client_id in the record and
    leaves all its session state (next id, known clients, client count)
    untouched; it has no processed-request counter. The single-mailbox server,
    whose record has no client_id, has counted the request in
    [processedRequests] before it validates it, and counts it in
    [errorCount] as well. *)
Theorem C1_invalid_request_answer (w : World) :
  (forall (sv : Ping.Server) (msg : Ping.Message),
     Ping.isValidPingRequest (Ping.data msg) = false ->
     let answer := {| Ping.status := 2; Ping.client_id := Ping.client_id msg;
                      Ping.data := store_text Ping.INVALID_COMMAND |} in
     let r := Ping.handle_request sv msg w in
     let ok := fst (Ping.writeMessage (w_mailbox (tick w)) answer) in
     fst r = sv
     /\ w_trace (snd r) = w_trace w ++ [EvWriteMessage (Ping.encode answer) ok]
     /\ w_now (snd r) = w_now (tick w)
     /\ (ok = true ->
         take Ping.sizeof_Message (h_bytes (w_mailbox (snd r))) = Ping.encode answer)
     /\ c_str (Ping.data answer) = "ERROR: Only 'ping' is accepted"%string)
  /\ (forall (st : Simple.Counters) (msg : Simple.Message),
     Simple.passes_validation (Simple.data msg) = false ->
     let answer := {| Simple.status := 2;
                      Simple.data := store_text Simple.INVALID_FORMAT |} in
     let r := Simple.handle_request st msg w in
     let ok := fst (Simple.writeMessage (w_mailbox (tick w)) answer) in
     Simple.processedRequests (fst r) = wrap_int (Simple.processedRequests st + 1)
     /\ (Simple.errorCount (fst r) = wrap_int (Simple.errorCount st + 1)
         \/ (ok = false
             /\ Simple.errorCount (fst r)
                = wrap_int (wrap_int (Simple.errorCount st + 1) + 1)))
     /\ w_trace (snd r) = w_trace w ++ [EvWriteMessage (Simple.encode answer) ok]
     /\ w_now (snd r) = w_now (tick w)
     /\ (ok = true ->
         take Simple.sizeof_Message (h_bytes (w_mailbox (snd r))) = Simple.encode answer)
     /\ c_str (Simple.data answer) = "ERROR: Invalid request format"%string).
Proof.
  split.
  - intros sv msg Hinv answer r ok. subst r.
    rewrite (Ping_handle_invalid sv msg w Hinv). fold answer.
    rewrite Ping_io_writeMessage_run. cbn [fst snd]. fold ok.
    split; [reflexivity|]. split; [cbn; rewrite tick_trace; reflexivity|].
    split; [reflexivity|]. split; [|reflexivity].
    intros Hok. cbn [emit set_mailbox w_mailbox]. apply Ping_writeMessage_stores. exact Hok.
  - intros st msg Hinv answer r ok. subst r.
    destruct (Simple_handle_invalid st msg w Hinv) as (Hw & Hp & He).
    fold answer in Hw. fold answer ok in He.
    split; [exact Hp|]. split; [exact He|].
    rewrite Hw, Simple_io_writeMessage_run. cbn [snd]. fold ok.
    split; [cbn; rewrite tick_trace; reflexivity|].
    split; [reflexivity|]. split; [|reflexivity].
    intros Hok. cbn [emit set_mailbox w_mailbox]. apply Simple_writeMessage_stores. exact Hok.
Qed.

Lemma C1_invalid_request_answer_witness :
  let w := quiet_world (healthy (Ping.encode (Ping.request_Message 7 "PONG"))) in
  Ping.isValidPingRequest (Ping.data (Ping.request_Message 7 "PONG")) = false
  /\ fst (Ping.handle_request (Ping.initial_Server 1) (Ping.request_Message 7 "PONG") w)
     = Ping.initial_Server 1.
Proof.
  cbv zeta. split; [reflexivity|].
  apply (proj1 (C1_invalid_request_answer _) (Ping.initial_Server 1)
               (Ping.request_Message 7 "PONG")).
  reflexivity.
Defined.

(** C1, the claim as stated fails for the single-mailbox server: a request
    whose payload is too short to be valid ("ab") is answered with the error
    record, and [processedRequests] has gone from 0 to 1. *)
Lemma C1_single_mailbox_counts_invalid_request :
  let request := {| Simple.status := 1; Simple.data := store_text "ab" |} in
  let w := quiet_world (healthy (Simple.encode request)) in
  let st := {| Simple.processedRequests := 0; Simple.errorCount := 0 |} in
  Simple.isValidRequest (Simple.data request) = false
  /\ Simple.processedRequests (fst (Simple.handle_request st request w)) = 1%Z
  /\ fst (Simple.serve 1 st w)
     = Some (true, {| Simple.processedRequests := 1; Simple.errorCount := 1 |})
  /\ written (w_trace (snd (Simple.serve 1 st w)))
     = [Simple.encode {| Simple.status := 2;
                         Simple.data := store_text Simple.INVALID_FORMAT |}].
Proof. cbv zeta. repeat split; vm_compute; reflexivity. Qed.

(** ** Client identities *)

Lemma written_app tr1 tr2 : written (tr1 ++ tr2) = written tr1 ++ written tr2.
Proof.
  induction tr1 as [|e tr1 IH]; [reflexivity|].
  destruct e; cbn [app written]; rewrite IH; reflexivity.
Qed.

(** The valid-ping branch of the ping server. *)
Lemma Ping_handle_valid sv msg w :
  Ping.isValidPingRequest (Ping.data msg) = true ->
  let sv1 := fst (Ping.register_client sv msg) in
  let id := Ping.client_id (snd (Ping.register_client sv msg)) in
  let answer := pong_Message (Ping.serverInstanceNumber sv1) id in
  fst (Ping.handle_request sv msg w) = sv1
  /\ written (w_trace (snd (Ping.handle_request sv msg w)))
     = written (w_trace w) ++ [Ping.encode answer]
  /\ c_str (Ping.data answer) = c_str (store_text (Ping.pong (Ping.serverInstanceNumber sv1) id)).
Proof.
  intros Hvalid sv1 id answer. unfold Ping.handle_request. rewrite Hvalid. cbn [negb].
  subst sv1 id answer. destruct (Ping.register_client sv msg) as [sv1 msg1]. cbn [fst snd].
  rewrite bind_run. fold (pong_Message (Ping.serverInstanceNumber sv1) (Ping.client_id msg1)).
  rewrite Ping_io_writeMessage_run.
  destruct (fst (Ping.writeMessage _ _)); cbn [negb].
  - rewrite bind_run, sleep_for_run. unfold mret, M_ret. cbn [fst snd].
    autorewrite with trace. rewrite !written_app. cbn [written].
    rewrite app_nil_r. auto.
  - unfold mret, M_ret. cbn [fst snd].
    autorewrite with trace. rewrite !written_app. cbn [written]. auto.
Qed.

Lemma register_new_client sv msg :
  Ping.client_id msg = 0%Z ->
  Ping.register_client sv msg =
    ({| Ping.serverInstanceNumber := Ping.serverInstanceNumber sv;
        Ping.nextClientId := wrap_int (Ping.nextClientId sv + 1);
        Ping.connectedClients := {[Ping.nextClientId sv]} ∪ Ping.connectedClients sv;
        Ping.clientCounter :=
          Z.of_nat (size ({[Ping.nextClientId sv]} ∪ Ping.connectedClients sv)) |},
     {| Ping.status := Ping.status msg; Ping.client_id := Ping.nextClientId sv;
        Ping.data := Ping.data msg |}).
Proof. intros H. unfold Ping.register_client. rewrite H. reflexivity. Qed.


Lemma ids_from_NoDup a n : NoDup (map Z.of_nat (seq a n)).
Proof.
  apply NoDup_fmap_2; [intros x y; lia|]. apply NoDup_ListNoDup, seq_NoDup.
Qed.

Lemma ids_from_sorted a n : StronglySorted Z.lt (map Z.of_nat (seq a n)).
Proof.
  revert a. induction n as [|n IH]; intros a; cbn [seq map]; constructor; [apply IH|].
  apply List.Forall_forall. intros id Hin. apply in_map_iff in Hin as (i & <- & Hi).
  apply in_seq in Hi. lia.
Qed.

(** A run of first contacts: the ids handed out are consecutive from
    [nextClientId]. *)
Lemma handle_all_new_clients requests :
  forall sv w,
    Forall new_client_request requests ->
    (1 <= Ping.nextClientId sv)%Z ->
    (Ping.nextClientId sv + Z.of_nat (length requests) <= INT_MAX)%Z ->
    let r := Ping.handle_all sv requests w in
    let ids := map (fun i => (Ping.nextClientId sv + Z.of_nat i)%Z) (seq 0 (length requests)) in
    written (w_trace (snd r))
      = written (w_trace w)
        ++ map (fun id => Ping.encode (pong_Message (Ping.serverInstanceNumber sv) id)) ids
    /\ Ping.serverInstanceNumber (fst r) = Ping.serverInstanceNumber sv
    /\ Ping.nextClientId (fst r) = (Ping.nextClientId sv + Z.of_nat (length requests))%Z
    /\ (forall id, id ∈ Ping.connectedClients (fst r) <->
                   id ∈ Ping.connectedClients sv
                   \/ (Ping.nextClientId sv <= id
                       < Ping.nextClientId sv + Z.of_nat (length requests))%Z).
Proof.
  induction requests as [|msg requests IH]; intros sv w Hall Hlo Hhi.
  - cbn [Ping.handle_all length seq map]. unfold mret, M_ret. cbn [fst snd].
    rewrite app_nil_r, Z.add_0_r. repeat split; auto.
    + intros [H|H]; [exact H|lia].
  - apply Forall_cons in Hall as [[Hzero Hvalid] Hall].
    cbn [length] in Hhi. cbn [Ping.handle_all]. rewrite bind_run.
    destruct (Ping_handle_valid sv msg w Hvalid) as (Hsv & Hwr & _).
    rewrite (register_new_client sv msg Hzero) in Hsv, Hwr. cbn [fst snd] in Hsv, Hwr.
    cbn [Ping.serverInstanceNumber Ping.client_id] in Hwr.
    destruct (Ping.handle_request sv msg w) as [sv1 w1]. cbn [fst snd] in Hsv, Hwr.
    subst sv1.
    rewrite wrap_int_small by (unfold INT_MIN, INT_MAX in *; lia).
    set (sv1 := {| Ping.serverInstanceNumber := Ping.serverInstanceNumber sv;
                   Ping.nextClientId := (Ping.nextClientId sv + 1)%Z;
                   Ping.connectedClients := {[Ping.nextClientId sv]} ∪ Ping.connectedClients sv;
                   Ping.clientCounter := _ |}).
    destruct (IH sv1 w1 Hall) as (Hwr' & Hinst & Hnext & Hmem).
    { subst sv1. cbn [Ping.nextClientId]. lia. }
    { subst sv1. cbn [Ping.nextClientId]. lia. }
    cbv zeta. rewrite Hwr', Hwr, Hinst, Hnext.
    subst sv1. cbn [Ping.serverInstanceNumber Ping.nextClientId Ping.connectedClients] in *.
    split; [|split; [reflexivity|split; [cbn [length]; lia|]]].
    + rewrite <- app_assoc. f_equal. cbn [length seq map app].
      rewrite Z.add_0_r. f_equal. rewrite <- seq_shift, !map_map.
      apply map_ext. intros i. do 2 f_equal. lia.
    + intros id. rewrite Hmem. cbn [length]. rewrite elem_of_union, elem_of_singleton.
      intuition lia.
Qed.

Lemma register_known_or_negative sv msg :
  Ping.client_id msg <> 0%Z ->
  (Ping.client_id msg < 0)%Z \/ Ping.client_id msg ∈ Ping.connectedClients sv ->
  Ping.register_client sv msg = (sv, msg).
Proof.
  intros Hnz H. unfold Ping.register_client.
  destruct (Z.eqb_spec (Ping.client_id msg) 0) as [?|_]; [contradiction|].
  destruct H as [H|H].
  - destruct (Z.ltb_spec 0 (Ping.client_id msg)); [lia|reflexivity].
  - rewrite bool_decide_eq_false_2 by (intros Hn; exact (Hn H)).
    rewrite andb_false_r. reflexivity.
Qed.

Lemma register_unseen_client sv msg :
  (0 < Ping.client_id msg)%Z ->
  Ping.client_id msg ∉ Ping.connectedClients sv ->
  Ping.register_client sv msg =
    ({| Ping.serverInstanceNumber := Ping.serverInstanceNumber sv;
        Ping.nextClientId := Ping.nextClientId sv;
        Ping.connectedClients := {[Ping.client_id msg]} ∪ Ping.connectedClients sv;
        Ping.clientCounter :=
          Z.of_nat (size ({[Ping.client_id msg]} ∪ Ping.connectedClients sv)) |},
     msg).
Proof.
  intros Hpos Hnew. unfold Ping.register_client.
  destruct (Z.eqb_spec (Ping.client_id msg) 0) as [?|_]; [lia|].
  destruct (Z.ltb_spec 0 (Ping.client_id msg)); [|lia].
  rewrite bool_decide_eq_true_2 by exact Hnew. reflexivity.
Qed.

(** C3 (amended). Valid requests arriving one after the other with
    client_id 0 at a server that has just started are answered with the ids 1,
    2, ..., N (pairwise distinct, strictly increasing from 1), and exactly
    these ids are in the known-clients set afterwards (N below [INT_MAX], so
    that the counter does not overflow). A valid request with a positive
    client_id that the set does not hold is registered and answered with the
    pong; a valid request with a negative client_id is answered with the pong
    as well but is not registered. *)
Theorem C3_client_ids (w : World) :
  (forall instance requests,
     Forall new_client_request requests ->
     (Z.of_nat (length requests) < INT_MAX)%Z ->
     let r := Ping.handle_all (Ping.initial_Server instance) requests w in
     let ids := map Z.of_nat (seq 1 (length requests)) in
     let answers := map (fun id => Ping.encode (pong_Message instance id)) ids in
     written (w_trace (snd r)) = written (w_trace w) ++ answers
     /\ assigned_ids answers = ids
     /\ NoDup ids
     /\ StronglySorted Z.lt ids
     /\ (forall id, id ∈ Ping.connectedClients (fst r) <->
                    (1 <= id <= Z.of_nat (length requests))%Z))
  /\ (forall sv msg,
        Ping.isValidPingRequest (Ping.data msg) = true ->
        (0 < Ping.client_id msg)%Z ->
        Ping.client_id msg ∉ Ping.connectedClients sv ->
        let r := Ping.handle_request sv msg w in
        Ping.connectedClients (fst r) = {[Ping.client_id msg]} ∪ Ping.connectedClients sv
        /\ Ping.nextClientId (fst r) = Ping.nextClientId sv
        /\ written (w_trace (snd r))
           = written (w_trace w)
             ++ [Ping.encode (pong_Message (Ping.serverInstanceNumber sv) (Ping.client_id msg))])
  /\ (forall sv msg,
        Ping.isValidPingRequest (Ping.data msg) = true ->
        (Ping.client_id msg < 0)%Z ->
        let r := Ping.handle_request sv msg w in
        fst r = sv
        /\ written (w_trace (snd r))
           = written (w_trace w)
             ++ [Ping.encode (pong_Message (Ping.serverInstanceNumber sv) (Ping.client_id msg))]).
Proof.
  split; [|split].
  - intros instance requests Hall Hlen r ids answers.
    destruct (handle_all_new_clients requests (Ping.initial_Server instance) w Hall)
      as (Hwr & _ & _ & Hmem).
    { cbn. lia. }
    { cbn [Ping.initial_Server Ping.nextClientId]. lia. }
    cbn [Ping.initial_Server Ping.nextClientId Ping.serverInstanceNumber
         Ping.connectedClients] in Hwr, Hmem.
    assert (Hids : map (fun i => (1 + Z.of_nat i)%Z) (seq 0 (length requests)) = ids).
    { subst ids. rewrite <- seq_shift, map_map. apply map_ext. intros i. lia. }
    rewrite Hids in Hwr. fold answers in Hwr. fold r in Hwr, Hmem.
    split; [exact Hwr|]. split; [|split; [apply ids_from_NoDup|split; [apply ids_from_sorted|]]].
    + subst answers. unfold assigned_ids. rewrite map_map.
      rewrite <- (map_id ids) at 2. apply map_ext_in.
      intros id Hin. subst ids. apply in_map_iff in Hin as (i & <- & Hi). apply in_seq in Hi.
      destruct (Ping_decode_encode_fields (pong_Message instance (Z.of_nat i))) as (_ & -> & _).
      cbn [pong_Message Ping.client_id]. apply bytes_int_int_bytes.
      unfold INT_MIN, INT_MAX in *. lia.
    + intros id. rewrite Hmem. split.
      * intros [H|H]; [set_solver|lia].
      * intros H. right. lia.
  - intros sv msg Hvalid Hpos Hnew r. subst r.
    destruct (Ping_handle_valid sv msg w Hvalid) as (Hsv & Hwr & _).
    rewrite (register_unseen_client sv msg Hpos Hnew) in Hsv, Hwr.
    cbn [fst snd Ping.serverInstanceNumber] in Hsv, Hwr.
    rewrite Hsv, Hwr. cbn [Ping.connectedClients Ping.nextClientId]. auto.
  - intros sv msg Hvalid Hneg r. subst r.
    destruct (Ping_handle_valid sv msg w Hvalid) as (Hsv & Hwr & _).
    rewrite (register_known_or_negative sv msg) in Hsv, Hwr by (lia || auto).
    cbn [fst snd] in Hsv, Hwr. auto.
Qed.

Lemma C3_client_ids_witness :
  let w := quiet_world (healthy []) in
  let requests := [Ping.request_Message 0 "ping"; Ping.request_Message 0 " PING "] in
  written (w_trace (snd (Ping.handle_all (Ping.initial_Server 4) requests w)))
  = [Ping.encode (pong_Message 4 1); Ping.encode (pong_Message 4 2)].
Proof.
  cbv zeta.
  apply (proj1 (proj1 (C3_client_ids (quiet_world (healthy []))) 4%Z
                  [Ping.request_Message 0 "ping"; Ping.request_Message 0 " PING "]
                  ltac:(repeat constructor) ltac:(vm_compute; reflexivity))).
Defined.

(** C3, the claim as stated fails: a valid ping carrying the nonzero id -1,
    which the known-clients set does not hold, is answered with the pong and
    the set stays empty. *)
Lemma C3_negative_id_not_registered :
  let w := quiet_world (healthy []) in
  let msg := Ping.request_Message (-1) "ping" in
  let r := Ping.handle_request (Ping.initial_Server 1) msg w in
  Ping.isValidPingRequest (Ping.data msg) = true
  /\ Ping.client_id msg <> 0%Z
  /\ Ping.connectedClients (Ping.initial_Server 1) = ∅
  /\ Ping.connectedClients (fst r) = ∅
  /\ written (w_trace (snd r)) = [Ping.encode (pong_Message 1 (-1))].
Proof.
  cbv zeta. split; [reflexivity|]. split; [discriminate|]. split; [reflexivity|].
  split; vm_compute; reflexivity.
Qed.

(** ** The ping client: waiting for a free mailbox *)

Lemma Ping_io_readMessage_run msg w :
  Ping.io_readMessage msg w = (Ping.readMessage (w_mailbox (tick w)) msg, tick w).
Proof. reflexivity. Qed.

Lemma mailbox_status_Some fd s msg :
  mailbox_status fd = Some s ->
  exists m, Ping.readMessage fd msg = (true, m) /\ Ping.status m = s.
Proof.
  unfold mailbox_status.
  destruct (Ping.readMessage fd Ping.zero_Message) as [ok m] eqn:Hr.
  destruct ok; [|discriminate]. intros [= <-].
  exists m. split; [|reflexivity].
  apply Ping_readMessage_success. apply Ping_readMessage_success in Hr. exact Hr.
Qed.

Lemma mailbox_status_None fd msg :
  mailbox_status fd = None -> fst (Ping.readMessage fd msg) = false.
Proof.
  unfold mailbox_status. rewrite !Ping_readMessage_cases.
  destruct (h_seek_ok fd && h_read_ok fd); [|reflexivity].
  destruct (h_bytes fd); [discriminate|].
  destruct (Ping.sizeof_Message <=? _)%nat; [discriminate|reflexivity].
Qed.

Lemma after_poll_trace w : w_trace (after_poll w) = w_trace w ++ [EvSleep 100].
Proof. unfold after_poll. rewrite sleep_for_run. cbn [snd]. autorewrite with trace. reflexivity. Qed.

Lemma after_polls_trace n w :
  w_trace (after_polls n w) = w_trace w ++ replicate n (EvSleep 100).
Proof.
  revert w. induction n as [|n IH]; intros w; cbn [after_polls replicate].
  - rewrite app_nil_r. reflexivity.
  - rewrite IH, after_poll_trace, <- app_assoc. reflexivity.
Qed.

(** One turn of the loop that finds the mailbox busy. *)
Lemma wait_for_free_busy fuel waitAttempts msg w :
  busy_poll w = true ->
  (0 <= waitAttempts < Ping.MAX_WAIT_ATTEMPTS)%Z ->
  exists m,
    Ping.wait_for_free (S fuel) waitAttempts msg w
    = Ping.wait_for_free fuel (waitAttempts + 1) m (after_poll w).
Proof.
  intros Hbusy Hrange. unfold busy_poll in Hbusy.
  apply andb_true_iff in Hbusy as [Hrun Hst].
  destruct (mailbox_status (w_mailbox (tick (tick w)))) as [s|] eqn:Hs; [|discriminate].
  apply Z.eqb_eq in Hst. subst s.
  destruct (mailbox_status_Some _ _ msg Hs) as (m & Hread & Hm).
  exists m. cbn [Ping.wait_for_free].
  rewrite bind_run, load_running_run, Hrun.
  destruct (Z.ltb_spec waitAttempts Ping.MAX_WAIT_ATTEMPTS) as [_|?]; [|lia].
  cbn [andb negb]. rewrite bind_run, Ping_io_readMessage_run, Hread.
  cbn beta iota. cbn [negb]. rewrite Hm. cbn [Z.eqb].
  rewrite bind_run, sleep_for_run.
  rewrite wrap_int_small by (unfold Ping.MAX_WAIT_ATTEMPTS, INT_MIN, INT_MAX in *; lia).
  reflexivity.
Qed.

Lemma wait_for_free_busy_turns k :
  forall fuel waitAttempts msg w,
    busy_for k w = true ->
    (0 <= waitAttempts)%Z ->
    (waitAttempts + Z.of_nat k <= Ping.MAX_WAIT_ATTEMPTS)%Z ->
    exists m,
      Ping.wait_for_free (k + fuel) waitAttempts msg w
      = Ping.wait_for_free fuel (waitAttempts + Z.of_nat k) m (after_polls k w).
Proof.
  induction k as [|k IH]; intros fuel waitAttempts msg w Hbusy Hlo Hhi.
  - exists msg. cbn [after_polls Nat.add]. rewrite Z.add_0_r. reflexivity.
  - cbn [busy_for] in Hbusy. apply andb_true_iff in Hbusy as [Hnow Hlater].
    destruct (wait_for_free_busy (k + fuel) waitAttempts msg w Hnow) as (m1 & Hstep); [lia|].
    destruct (IH fuel (waitAttempts + 1)%Z m1 (after_poll w) Hlater) as (m & Hrest); [lia|lia|].
    exists m. cbn [Nat.add after_polls]. rewrite Hstep, Hrest. f_equal. lia.
Qed.

(** One turn of the loop that finds the mailbox occupied. *)
Lemma wait_for_free_occupied fuel waitAttempts msg w :
  occupied_poll w = true ->
  (0 <= waitAttempts < Ping.MAX_WAIT_ATTEMPTS)%Z ->
  exists m,
    Ping.wait_for_free (S fuel) waitAttempts msg w
    = Ping.wait_for_free fuel (waitAttempts + 1) m (after_poll w).
Proof.
  intros Hbusy Hrange. unfold occupied_poll in Hbusy.
  apply andb_true_iff in Hbusy as [Hrun Hst].
  destruct (mailbox_status (w_mailbox (tick (tick w)))) as [s|] eqn:Hs; [|discriminate].
  apply negb_true_iff in Hst.
  destruct (mailbox_status_Some _ _ msg Hs) as (m & Hread & Hm).
  exists m. cbn [Ping.wait_for_free].
  rewrite bind_run, load_running_run, Hrun.
  destruct (Z.ltb_spec waitAttempts Ping.MAX_WAIT_ATTEMPTS) as [_|?]; [|lia].
  cbn [andb negb]. rewrite bind_run, Ping_io_readMessage_run, Hread.
  cbn beta iota. cbn [negb]. rewrite Hm, Hst.
  rewrite bind_run, sleep_for_run.
  rewrite wrap_int_small by (unfold Ping.MAX_WAIT_ATTEMPTS, INT_MIN, INT_MAX in *; lia).
  reflexivity.
Qed.

Lemma wait_for_free_occupied_turns k :
  forall fuel waitAttempts msg w,
    occupied_for k w = true ->
    (0 <= waitAttempts)%Z ->
    (waitAttempts + Z.of_nat k <= Ping.MAX_WAIT_ATTEMPTS)%Z ->
    exists m,
      Ping.wait_for_free (k + fuel) waitAttempts msg w
      = Ping.wait_for_free fuel (waitAttempts + Z.of_nat k) m (after_polls k w).
Proof.
  induction k as [|k IH]; intros fuel waitAttempts msg w Hbusy Hlo Hhi.
  - exists msg. cbn [after_polls Nat.add]. rewrite Z.add_0_r. reflexivity.
  - cbn [occupied_for] in Hbusy. apply andb_true_iff in Hbusy as [Hnow Hlater].
    destruct (wait_for_free_occupied (k + fuel) waitAttempts msg w Hnow) as (m1 & Hstep); [lia|].
    destruct (IH fuel (waitAttempts + 1)%Z m1 (after_poll w) Hlater) as (m & Hrest); [lia|lia|].
    exists m. cbn [Nat.add after_polls]. rewrite Hstep, Hrest. f_equal. lia.
Qed.

(** What the polls of an occupied mailbox have read. *)
Lemma occupied_for_seen k :
  forall w j,
    occupied_for k w = true ->
    (j < k)%nat ->
    mailbox_status (w_mailbox (tick (tick (after_polls j w)))) <> Some 0%Z.
Proof.
  induction k as [|k IH]; intros w j Hocc Hj; [lia|].
  cbn [occupied_for] in Hocc. apply andb_true_iff in Hocc as [Hnow Hlater].
  destruct j as [|j]; cbn [after_polls].
  - unfold occupied_poll in Hnow. apply andb_true_iff in Hnow as [_ Hst].
    destruct (mailbox_status (w_mailbox (tick (tick w)))) as [s|]; [|discriminate].
    intros [= ->]. discriminate Hst.
  - apply (IH (after_poll w) j Hlater). lia.
Qed.

(** The turn that ends the loop with attempts left. *)
Lemma wait_for_free_over fuel waitAttempts msg w w1 :
  wait_over w = Some w1 ->
  (waitAttempts < Ping.MAX_WAIT_ATTEMPTS)%Z ->
  exists m, Ping.wait_for_free (S fuel) waitAttempts msg w = (Some (waitAttempts, m), w1).
Proof.
  unfold wait_over. intros Hover Hlt. cbn [Ping.wait_for_free].
  rewrite bind_run, load_running_run.
  destruct (Z.ltb_spec waitAttempts Ping.MAX_WAIT_ATTEMPTS) as [_|?]; [|lia].
  destruct (w_running (tick w)); cbn [andb negb] in *.
  2: { injection Hover as <-. exists msg. reflexivity. }
  rewrite bind_run, Ping_io_readMessage_run.
  destruct (mailbox_status (w_mailbox (tick (tick w)))) as [s|] eqn:Hs.
  - destruct (mailbox_status_Some _ _ msg Hs) as (m & Hread & Hm).
    destruct (s =? 0)%Z eqn:Hfree; [|discriminate]. injection Hover as <-.
    exists m. rewrite Hread. cbn beta iota. cbn [negb]. rewrite Hm, Hfree. reflexivity.
  - injection Hover as <-. pose proof (mailbox_status_None _ msg Hs) as Hread.
    destruct (Ping.readMessage (w_mailbox (tick (tick w))) msg) as [ok m].
    cbn [fst] in Hread. subst ok. exists m. reflexivity.
Qed.

(** The loop ends once the attempts are used up. *)
Lemma wait_for_free_exhausted fuel waitAttempts msg w :
  (Ping.MAX_WAIT_ATTEMPTS <= waitAttempts)%Z ->
  Ping.wait_for_free (S fuel) waitAttempts msg w = (Some (waitAttempts, msg), tick w).
Proof.
  intros Hmax. cbn [Ping.wait_for_free]. rewrite bind_run, load_running_run.
  destruct (Z.ltb_spec waitAttempts Ping.MAX_WAIT_ATTEMPTS) as [?|_]; [lia|].
  rewrite andb_false_r. reflexivity.
Qed.


Lemma ping_exchange_busy fuel command currentClientId w :
  busy_for 5 w = true ->
  Ping.ping_exchange (5 + S fuel) command currentClientId w
  = (Some (Ping.Busy, currentClientId),
     emit (EvPrint "Server is busy.") (tick (after_polls 5 w))).
Proof.
  intros Hbusy.
  destruct (wait_for_free_busy_turns 5 (S fuel) 0 Ping.zero_Message w Hbusy)
    as (m & Hwait); [lia|unfold Ping.MAX_WAIT_ATTEMPTS; lia|].
  assert (Hmax : (Ping.MAX_WAIT_ATTEMPTS <= 0 + Z.of_nat 5)%Z)
    by (unfold Ping.MAX_WAIT_ATTEMPTS; lia).
  unfold Ping.ping_exchange, Ping.receive. rewrite bind_run.
  rewrite Hwait, (wait_for_free_exhausted fuel _ m _ Hmax).
  cbn beta iota.
  destruct (Z.leb_spec Ping.MAX_WAIT_ATTEMPTS (0 + Z.of_nat 5)) as [_|?]; [|lia].
  rewrite bind_run, print_run. reflexivity.
Qed.




(** ** Traces only grow *)

Lemma grows_ret {A} (a : A) : grows (mret a).
Proof. intros w. exists []. rewrite app_nil_r. reflexivity. Qed.

Lemma grows_bind {A B} (m : M A) (k : A -> M B) :
  grows m -> (forall a, grows (k a)) -> grows (m ≫= k).
Proof.
  intros Hm Hk w. rewrite bind_run.
  destruct (Hm w) as [rest1 H1]. destruct (m w) as [a w1]. cbn [snd] in H1.
  destruct (Hk a w1) as [rest2 H2].
  exists (rest1 ++ rest2). rewrite H2, H1, app_assoc. reflexivity.
Qed.

Lemma grows_load_running : grows load_running.
Proof.
  intros w. exists []. rewrite load_running_run. cbn [snd].
  rewrite tick_trace, app_nil_r. reflexivity.
Qed.

Lemma grows_steady_now : grows steady_now.
Proof.
  intros w. exists []. rewrite steady_now_run. cbn [snd].
  rewrite tick_trace, app_nil_r. reflexivity.
Qed.

Lemma grows_sleep_for ms : grows (sleep_for ms).
Proof.
  intros w. exists [EvSleep ms]. rewrite sleep_for_run. cbn [snd].
  autorewrite with trace. reflexivity.
Qed.

Lemma grows_print line : grows (print line).
Proof. intros w. exists [EvPrint line]. reflexivity. Qed.

Lemma Ping_grows_read msg : grows (Ping.io_readMessage msg).
Proof.
  intros w. exists []. rewrite Ping_io_readMessage_run. cbn [snd].
  rewrite tick_trace, app_nil_r. reflexivity.
Qed.

Lemma Ping_grows_write msg : grows (Ping.io_writeMessage msg).
Proof.
  intros w. rewrite Ping_io_writeMessage_run. cbn [snd].
  eexists. autorewrite with trace. reflexivity.
Qed.

Ltac grows_step :=
  first
    [ apply grows_ret
    | apply grows_load_running
    | apply grows_steady_now
    | apply grows_sleep_for
    | apply grows_print
    | apply Ping_grows_read
    | apply Ping_grows_write
    | apply grows_bind; [|intros ?]
    | match goal with
      | |- grows (if ?b then _ else _) => destruct b
      | |- grows (match ?x with Some _ => _ | None => _ end) => destruct x
      | |- grows (let (_, _) := ?x in _) => destruct x
      | |- grows (match ?x with (_, _) => _ end) => destruct x
      end ].

Lemma Ping_grows_await fuel :
  forall start currentClientId msg,
    grows (Ping.await_response fuel start currentClientId msg).
Proof.
  induction fuel as [|fuel IH]; intros start currentClientId msg; cbn [Ping.await_response].
  - apply grows_ret.
  - repeat (apply IH || grows_step).
Qed.

Lemma bind_trace {A B} (m : M A) (k : A -> M B) w :
  (forall a, grows (k a)) ->
  exists rest, w_trace (snd ((m ≫= k) w)) = w_trace (snd (m w)) ++ rest.
Proof.
  intros Hk. rewrite bind_run. destruct (m w) as [a w1]. cbn [snd]. apply Hk.
Qed.

(** A turn of the wait-until-free loop in which the read fails ends the
    loop. *)
Lemma wait_for_free_read_failure fuel waitAttempts msg w :
  failing_poll w = true ->
  (waitAttempts < Ping.MAX_WAIT_ATTEMPTS)%Z ->
  exists m,
    Ping.wait_for_free (S fuel) waitAttempts msg w
    = (Some (waitAttempts, m), tick (tick w)).
Proof.
  intros Hfail Hlt. unfold failing_poll in Hfail.
  apply andb_true_iff in Hfail as [Hrun Hst].
  destruct (mailbox_status (w_mailbox (tick (tick w)))) as [s|] eqn:Hs; [discriminate|].
  pose proof (mailbox_status_None _ msg Hs) as Hread.
  cbn [Ping.wait_for_free]. rewrite bind_run, load_running_run, Hrun.
  destruct (Z.ltb_spec waitAttempts Ping.MAX_WAIT_ATTEMPTS) as [_|?]; [|lia].
  cbn [andb negb]. rewrite bind_run, Ping_io_readMessage_run.
  destruct (Ping.readMessage (w_mailbox (tick (tick w))) msg) as [ok m].
  cbn [fst] in Hread. subst ok. exists m. reflexivity.
Qed.

Lemma Ping_grows_receive fuel currentClientId msg :
  grows (Ping.receive fuel currentClientId msg).
Proof. unfold Ping.receive. repeat (apply Ping_grows_await || grows_step). Qed.

(** Once the wait loop has ended below the maximum, the request is written,
    and the rest of the loop body follows if the write succeeds. *)
Lemma ping_exchange_after_wait fuel command currentClientId w waitAttempts m w1 :
  Ping.wait_for_free fuel 0 Ping.zero_Message w = (Some (waitAttempts, m), w1) ->
  (waitAttempts < Ping.MAX_WAIT_ATTEMPTS)%Z ->
  let request := Ping.request_Message currentClientId command in
  let sent := Ping.io_writeMessage request w1 in
  Ping.ping_exchange fuel command currentClientId w
  = if fst sent then Ping.receive fuel currentClientId request (snd sent)
    else (Some (Ping.SendFailed, currentClientId),
          emit (EvPrint "Failed to send ping.") (snd sent)).
Proof.
  intros Hwait Hlt. cbv zeta. unfold Ping.ping_exchange. rewrite bind_run, Hwait.
  cbn beta iota.
  destruct (Z.leb_spec Ping.MAX_WAIT_ATTEMPTS waitAttempts) as [?|_]; [lia|].
  rewrite bind_run.
  destruct (Ping.io_writeMessage (Ping.request_Message currentClientId command) w1)
    as [ok w2].
  cbn [fst snd]. destruct ok; cbn [negb]; [reflexivity|].
  rewrite bind_run, print_run. reflexivity.
Qed.

Lemma ping_exchange_sends fuel command currentClientId w waitAttempts m w1 :
  Ping.wait_for_free fuel 0 Ping.zero_Message w = (Some (waitAttempts, m), w1) ->
  (waitAttempts < Ping.MAX_WAIT_ATTEMPTS)%Z ->
  exists rest,
    w_trace (snd (Ping.ping_exchange fuel command currentClientId w))
    = w_trace w1
      ++ EvWriteMessage
           (Ping.encode (Ping.request_Message currentClientId command))
           (fst (Ping.writeMessage (w_mailbox (tick w1))
                   (Ping.request_Message currentClientId command)))
         :: rest.
Proof.
  intros Hwait Hlt.
  rewrite (ping_exchange_after_wait _ command currentClientId _ _ _ _ Hwait Hlt).
  rewrite Ping_io_writeMessage_run. cbn [fst snd].
  set (request := Ping.request_Message currentClientId command).
  set (ok := fst (Ping.writeMessage (w_mailbox (tick w1)) request)).
  set (w2 := emit (EvWriteMessage (Ping.encode request) ok) _).
  assert (Hw2 : w_trace w2 = w_trace w1 ++ [EvWriteMessage (Ping.encode request) ok])
    by (unfold w2; autorewrite with trace; reflexivity).
  destruct ok.
  - destruct (Ping_grows_receive fuel currentClientId request w2) as [rest Hrest].
    exists rest. rewrite Hrest, Hw2, <- app_assoc. reflexivity.
  - exists [EvPrint "Failed to send ping."]. cbn [snd].
    rewrite emit_trace, Hw2, <- app_assoc. reflexivity.
Qed.

(** C10. When the first [k] turns of the wait-until-free loop (k below 5)
    go on, each finding the flag up and reading a status other than FREE, and
    the read of the next turn fails, the loop is left with [waitAttempts = k],
    below the maximum, no read having shown the status FREE. The client then
    hands its REQUEST record to [writeMessage]: the mailbox takes what this
    write stores (the whole record when the write succeeds), and the loop
    body goes on with the wait for the response, or with "Failed to send
    ping." when the write fails. *)
Theorem C10_read_failure_sends_anyway
    (fuel k : nat) (command : string) (currentClientId : Z) (w : World) :
  (k < 5)%nat ->
  (k < fuel)%nat ->
  occupied_for k w = true ->
  failing_poll (after_polls k w) = true ->
  let request := Ping.request_Message currentClientId command in
  let w1 := tick (tick (after_polls k w)) in
  let sent := Ping.io_writeMessage request w1 in
  let r := Ping.ping_exchange fuel command currentClientId w in
  (exists m, Ping.wait_for_free fuel 0 Ping.zero_Message w = (Some (Z.of_nat k, m), w1))
  /\ (Z.of_nat k < Ping.MAX_WAIT_ATTEMPTS)%Z
  /\ (forall j, (j <= k)%nat ->
        mailbox_status (w_mailbox (tick (tick (after_polls j w)))) <> Some 0%Z)
  /\ Ping.status request = 1%Z
  /\ fst sent = fst (Ping.writeMessage (w_mailbox (tick w1)) request)
  /\ w_mailbox (snd sent) = snd (Ping.writeMessage (w_mailbox (tick w1)) request)
  /\ (fst sent = true ->
      take Ping.sizeof_Message (h_bytes (w_mailbox (snd sent))) = Ping.encode request)
  /\ w_trace (snd sent)
     = w_trace w ++ replicate k (EvSleep 100)
       ++ [EvWriteMessage (Ping.encode request) (fst sent)]
  /\ r = (if fst sent then Ping.receive fuel currentClientId request (snd sent)
          else (Some (Ping.SendFailed, currentClientId),
                emit (EvPrint "Failed to send ping.") (snd sent)))
  /\ exists rest,
       w_trace (snd r)
       = w_trace w ++ replicate k (EvSleep 100)
         ++ EvWriteMessage (Ping.encode request) (fst sent) :: rest.
Proof.
  intros Hk Hfuel Hocc Hfail request w1 sent r.
  assert (Hlt : (Z.of_nat k < Ping.MAX_WAIT_ATTEMPTS)%Z)
    by (unfold Ping.MAX_WAIT_ATTEMPTS; lia).
  assert (Hwait : exists m,
             Ping.wait_for_free fuel 0 Ping.zero_Message w = (Some (Z.of_nat k, m), w1)).
  { replace fuel with (k + S (fuel - S k))%nat by lia.
    destruct (wait_for_free_occupied_turns k (S (fuel - S k)) 0 Ping.zero_Message w Hocc)
      as (m1 & Hturns); [lia|lia|].
    destruct (wait_for_free_read_failure (fuel - S k) (0 + Z.of_nat k) m1
                (after_polls k w) Hfail) as (m & Hend); [lia|].
    exists m. rewrite Hturns, Hend. reflexivity. }
  assert (Hsent : sent
                  = (fst (Ping.writeMessage (w_mailbox (tick w1)) request),
                     emit (EvWriteMessage (Ping.encode request)
                             (fst (Ping.writeMessage (w_mailbox (tick w1)) request)))
                       (set_mailbox (snd (Ping.writeMessage (w_mailbox (tick w1)) request))
                          (tick w1))))
    by apply Ping_io_writeMessage_run.
  assert (Hw1 : w_trace w1 = w_trace w ++ replicate k (EvSleep 100))
    by (unfold w1; rewrite !tick_trace; apply after_polls_trace).
  split; [exact Hwait|]. split; [exact Hlt|]. split.
  { intros j Hj. destruct (Nat.eq_dec j k) as [->|Hne].
    - unfold failing_poll in Hfail. apply andb_true_iff in Hfail as [_ Hst].
      destruct (mailbox_status (w_mailbox (tick (tick (after_polls k w)))));
        [discriminate Hst|discriminate].
    - apply (occupied_for_seen k w j Hocc). lia. }
  split; [reflexivity|].
  split; [rewrite Hsent; reflexivity|].
  split; [rewrite Hsent; reflexivity|].
  split.
  { rewrite Hsent. cbn [fst snd]. rewrite emit_mailbox. cbn [set_mailbox w_mailbox].
    apply Ping_writeMessage_stores. }
  split.
  { rewrite Hsent. cbn [fst snd]. autorewrite with trace. rewrite Hw1, <- app_assoc.
    reflexivity. }
  destruct Hwait as (m & Hwait).
  split.
  { subst r. apply (ping_exchange_after_wait _ command currentClientId _ _ _ _ Hwait Hlt). }
  destruct (ping_exchange_sends fuel command currentClientId w _ _ _ Hwait Hlt)
    as (rest & Htrace).
  exists rest. subst r. rewrite Htrace, Hw1, <- app_assoc, Hsent. reflexivity.
Qed.

Lemma C10_read_failure_sends_anyway_witness :
  let w := read_breaks_world in
  let request := Ping.request_Message 0 "ping" in
  let r := Ping.ping_exchange 60 "ping" 0 w in
  occupied_for 1 w = true
  /\ failing_poll (after_polls 1 w) = true
  /\ mailbox_status (w_mailbox w) = Some 2%Z
  /\ fst (Ping.wait_for_free 60 0 Ping.zero_Message w) = Some (1%Z, pong_Message 2 5)
  /\ take Ping.sizeof_Message
       (h_bytes (w_mailbox (snd (Ping.io_writeMessage request
                                   (tick (tick (after_polls 1 w)))))))
     = Ping.encode request
  /\ exists rest,
       w_trace (snd r) = [EvSleep 100; EvWriteMessage (Ping.encode request) true] ++ rest.
Proof.
  cbv zeta.
  destruct (C10_read_failure_sends_anyway 60 1 "ping" 0 read_breaks_world
              ltac:(lia) ltac:(lia) eq_refl eq_refl)
    as (_ & _ & _ & _ & _ & _ & Hstored & _ & _ & rest & Htrace).
  split; [reflexivity|]. split; [reflexivity|]. split; [reflexivity|].
  split; [vm_compute; reflexivity|].
  split; [apply Hstored; vm_compute; reflexivity|].
  exists rest. exact Htrace.
Defined.

(** ** Timeouts *)

Lemma tick_now w : (w_now w <= w_now (tick w))%Z.
Proof. unfold tick. destruct (w_env w); cbn [w_now]; lia. Qed.

Lemma Ping_await_timeout fuel :
  forall start currentClientId msg w got c m w',
    Ping.await_response fuel start currentClientId msg w = (Some (true, got, c, m), w') ->
    got = false /\ c = currentClientId /\ (5000 < w_now w' - start)%Z.
Proof.
  induction fuel as [|fuel IH]; intros start currentClientId msg w got c m w';
    cbn [Ping.await_response]; [discriminate|].
  rewrite bind_run, load_running_run.
  destruct (w_running (tick w)); cbn [negb]; [|discriminate].
  rewrite bind_run, Ping_io_readMessage_run.
  destruct (Ping.readMessage (w_mailbox (tick (tick w))) msg) as [ok msg1].
  destruct ok; cbn [negb]; [|discriminate].
  destruct (Ping.status msg1 =? 2)%Z.
  - destruct ((0 <? Ping.client_id msg1)%Z && (currentClientId =? 0)%Z).
    + rewrite bind_run, print_run. discriminate.
    + discriminate.
  - rewrite bind_run, steady_now_run.
    destruct (Z.ltb_spec 5000 (w_now (tick (tick (tick w))) - start)) as [Hlate|_].
    + intros [= <- <- <- <-]. auto.
    + rewrite bind_run, sleep_for_run. apply IH.
Qed.

Lemma Ping_free_Message_read_back fd currentClientId msg m :
  take Ping.sizeof_Message (h_bytes fd) = Ping.encode (Ping.free_Message currentClientId) ->
  Ping.readMessage fd msg = (true, m) ->
  Ping.status m = 0%Z /\ Ping.data m = replicate 256 NUL.
Proof.
  intros Hstored Hread. apply Ping_readMessage_success in Hread.
  destruct Hread as (_ & _ & [[_ ->] | [_ ->]]); [split; reflexivity|].
  rewrite Hstored.
  destruct (Ping_decode_encode_fields (Ping.free_Message currentClientId)) as (-> & _ & ->).
  split; reflexivity.
Qed.

Lemma Ping_timeout_reset fuel command currentClientId w cid' w' :
  Ping.ping_exchange fuel command currentClientId w = (Some (Ping.TimedOut, cid'), w') ->
  cid' = currentClientId
  /\ exists w3,
       w' = snd (Ping.io_writeMessage (Ping.free_Message currentClientId)
                   (emit (EvPrint "Timeout waiting for response.") w3)).
Proof.
  unfold Ping.ping_exchange, Ping.receive. rewrite bind_run.
  destruct (Ping.wait_for_free fuel 0 Ping.zero_Message w) as [[[waitAttempts msg1]|] w1];
    [|discriminate].
  destruct (Ping.MAX_WAIT_ATTEMPTS <=? waitAttempts)%Z.
  { rewrite bind_run, print_run. discriminate. }
  rewrite bind_run, Ping_io_writeMessage_run.
  destruct (fst (Ping.writeMessage _ _)); cbn [negb].
  2: { rewrite bind_run, print_run. discriminate. }
  rewrite bind_run, steady_now_run. rewrite bind_run.
  destruct (Ping.await_response _ _ _ _ _) as [[[[[timeout got] c] m]|] w3] eqn:Hawait;
    [|discriminate].
  destruct timeout.
  - apply Ping_await_timeout in Hawait. destruct Hawait as (_ & -> & _).
    rewrite bind_run, print_run. rewrite bind_run.
    destruct (Ping.io_writeMessage _ _) as [ok w4] eqn:Hw.
    intros [= <- <-]. split; [reflexivity|]. exists w3. rewrite Hw. reflexivity.
  - rewrite bind_run.
    destruct (got && negb (Ascii.eqb (nth 0 (Ping.data m) NUL) NUL));
      [rewrite print_run|unfold mret at 1, M_ret at 1];
      rewrite bind_run; destruct (Ping.io_writeMessage _ _); discriminate.
Qed.

Lemma Simple_readMessage_success fd msg m :
  Simple.readMessage fd msg = (true, m) ->
  m = Simple.zero_Message
  \/ m = Simple.decode (take Simple.sizeof_Message (h_bytes fd)).
Proof.
  unfold Simple.readMessage, lseek, read.
  destruct (h_seek_ok fd); [|discriminate].
  destruct (h_read_ok fd); [|discriminate].
  cbn [Z.eqb]. rewrite length_take.
  destruct (Z.eqb_spec (Z.of_nat (Nat.min Simple.sizeof_Message (length (h_bytes fd)))) (-1))
    as [?|_]; [lia|].
  destruct (Z.eqb_spec (Z.of_nat (Nat.min Simple.sizeof_Message (length (h_bytes fd)))) 0)
    as [_|_]; [intros [= <-]; left; reflexivity|].
  destruct (Z.eqb_spec (Z.of_nat (Nat.min Simple.sizeof_Message (length (h_bytes fd))))
              (Z.of_nat Simple.sizeof_Message)) as [Hfull|_]; [|discriminate].
  intros [= <-]. right. unfold Simple.overlay.
  rewrite length_take.
  rewrite drop_ge by (rewrite Simple_encode_length; lia).
  rewrite app_nil_r. reflexivity.
Qed.

Lemma Simple_free_Message_read_back fd msg m :
  take Simple.sizeof_Message (h_bytes fd) = Simple.encode Simple.free_Message ->
  Simple.readMessage fd msg = (true, m) ->
  Simple.status m = 0%Z /\ Simple.data m = replicate 256 NUL.
Proof.
  intros Hstored Hread. apply Simple_readMessage_success in Hread.
  destruct Hread as [-> | ->]; [split; reflexivity|].
  rewrite Hstored. split; reflexivity.
Qed.

Lemma Simple_io_readMessage_run msg w :
  Simple.io_readMessage msg w = (Simple.readMessage (w_mailbox (tick w)) msg, tick w).
Proof. reflexivity. Qed.

Lemma Simple_await_timeout fuel :
  forall start msg w got m w',
    Simple.await_response fuel start msg w = (Some (true, got, m), w') ->
    got = false /\ (Simple.TIMEOUT_MS < w_now w' - start)%Z.
Proof.
  induction fuel as [|fuel IH]; intros start msg w got m w';
    cbn [Simple.await_response]; [discriminate|].
  rewrite bind_run, load_running_run.
  destruct (w_running (tick w)); cbn [negb]; [|discriminate].
  rewrite bind_run, Simple_io_readMessage_run.
  destruct (Simple.readMessage (w_mailbox (tick (tick w))) msg) as [ok msg1].
  destruct ok; cbn [negb].
  - destruct (Simple.status msg1 =? 2)%Z; [discriminate|].
    rewrite bind_run, steady_now_run.
    destruct (Z.ltb_spec Simple.TIMEOUT_MS (w_now (tick (tick (tick w))) - start))
      as [Hlate|_].
    + intros [= <- <- <-]. auto.
    + rewrite bind_run, sleep_for_run. apply IH.
  - rewrite bind_run, print_run, bind_run, sleep_for_run. apply IH.
Qed.

Lemma Simple_timeout_reset fuel userInput requestCounter w counter' w' :
  Simple.request_exchange fuel userInput requestCounter w
  = (Some (Simple.TimedOut, counter'), w') ->
  exists w3,
    w' = snd (Simple.io_writeMessage Simple.free_Message
                (emit (EvPrint "Client: Timeout waiting for server response") w3)).
Proof.
  unfold Simple.request_exchange. rewrite bind_run, print_run.
  rewrite bind_run, Simple_io_writeMessage_run.
  destruct (fst (Simple.writeMessage _ _)); cbn [negb].
  2: { rewrite bind_run, print_run, bind_run, sleep_for_run. discriminate. }
  rewrite bind_run, print_run, bind_run, steady_now_run, bind_run.
  destruct (Simple.await_response _ _ _ _) as [[[[timeout got] m]|] w3] eqn:Hawait;
    [|discriminate].
  destruct timeout.
  - rewrite bind_run, print_run, bind_run.
    destruct (Simple.io_writeMessage _ _) as [ok w4] eqn:Hw.
    intros [= <- <-]. exists w3. rewrite Hw. reflexivity.
  - destruct got; cbn [negb]; [|discriminate].
    rewrite bind_run.
    destruct (Simple.isValidResponse (Simple.data m)); rewrite print_run;
      rewrite bind_run; destruct (Simple.io_writeMessage _ _) as [ok w4];
      destruct ok; cbn [negb]; rewrite bind_run;
      rewrite ?print_run; unfold mret, M_ret; rewrite ?bind_run, ?print_run; discriminate.
Qed.

(** *** The wait that runs past its limit *)

Lemma wait_over_trace w w1 : wait_over w = Some w1 -> w_trace w1 = w_trace w.
Proof.
  unfold wait_over. destruct (w_running (tick w)); cbn [negb].
  - destruct (mailbox_status (w_mailbox (tick (tick w)))) as [s|];
      [destruct (s =? 0)%Z; [|discriminate]|]; intros [= <-]; rewrite !tick_trace; reflexivity.
  - intros [= <-]. apply tick_trace.
Qed.

Lemma after_wait_trace w : w_trace (after_wait w) = w_trace w ++ [EvSleep 100].
Proof.
  unfold after_wait. rewrite sleep_for_run. cbn [snd]. autorewrite with trace. reflexivity.
Qed.

Lemma after_waits_trace n w :
  w_trace (after_waits n w) = w_trace w ++ replicate n (EvSleep 100).
Proof.
  revert w. induction n as [|n IH]; intros w; cbn [after_waits replicate].
  - rewrite app_nil_r. reflexivity.
  - rewrite IH, after_wait_trace, <- app_assoc. reflexivity.
Qed.

(** The turns of an overdue wait, one by one: the loop ends by timeout in the
    turn that finds the clock past the limit. *)
Lemma Ping_await_overdue n :
  forall fuel start currentClientId msg w,
    overdue_after 5000 n start w = true ->
    exists m,
      Ping.await_response (n + S fuel) start currentClientId msg w
      = (Some (true, false, currentClientId, m), tick (tick (tick (after_waits n w)))).
Proof.
  induction n as [|n IH]; intros fuel start currentClientId msg w Hdue;
    cbn [overdue_after] in Hdue.
  - apply andb_true_iff in Hdue as [Hpoll Hlate].
    unfold unanswered_poll in Hpoll. apply andb_true_iff in Hpoll as [Hrun Hst].
    destruct (mailbox_status (w_mailbox (tick (tick w)))) as [s|] eqn:Hs; [|discriminate].
    apply negb_true_iff in Hst.
    destruct (mailbox_status_Some _ _ msg Hs) as (m & Hread & Hm).
    exists m. cbn [Nat.add Ping.await_response after_waits].
    rewrite bind_run, load_running_run, Hrun. cbn [negb].
    rewrite bind_run, Ping_io_readMessage_run, Hread. cbn beta iota. cbn [negb].
    rewrite Hm, Hst, bind_run, steady_now_run.
    unfold poll_clock in Hlate. rewrite Hlate. reflexivity.
  - apply andb_true_iff in Hdue as [Hdue Hlater].
    apply andb_true_iff in Hdue as [Hpoll Hearly].
    unfold unanswered_poll in Hpoll. apply andb_true_iff in Hpoll as [Hrun Hst].
    destruct (mailbox_status (w_mailbox (tick (tick w)))) as [s|] eqn:Hs; [|discriminate].
    apply negb_true_iff in Hst. apply negb_true_iff in Hearly.
    destruct (mailbox_status_Some _ _ msg Hs) as (m1 & Hread & Hm).
    destruct (IH fuel start currentClientId m1 (after_wait w) Hlater) as (m & Hrest).
    exists m. cbn [Nat.add Ping.await_response after_waits].
    rewrite bind_run, load_running_run, Hrun. cbn [negb].
    rewrite bind_run, Ping_io_readMessage_run, Hread. cbn beta iota. cbn [negb].
    rewrite Hm, Hst, bind_run, steady_now_run.
    unfold poll_clock in Hearly. rewrite Hearly.
    rewrite bind_run, sleep_for_run. exact Hrest.
Qed.

(** An exchange that reaches the wait for the response and finds it overdue
    ends as a timeout. *)
Lemma ping_exchange_times_out fuel k n command currentClientId w w1 :
  (k < 5)%nat ->
  (k < fuel)%nat ->
  (n < fuel)%nat ->
  occupied_for k w = true ->
  wait_over (after_polls k w) = Some w1 ->
  let request := Ping.request_Message currentClientId command in
  let sent := Ping.io_writeMessage request w1 in
  fst sent = true ->
  overdue_after 5000 n (w_now (tick (snd sent))) (tick (snd sent)) = true ->
  Ping.ping_exchange fuel command currentClientId w
  = (Some (Ping.TimedOut, currentClientId),
     snd (Ping.io_writeMessage (Ping.free_Message currentClientId)
            (emit (EvPrint "Timeout waiting for response.")
               (tick (tick (tick (after_waits n (tick (snd sent))))))))).
Proof.
  intros Hk Hfuel Hn Hocc Hover request sent Hsent Hdue.
  assert (Hlt : (Z.of_nat k < Ping.MAX_WAIT_ATTEMPTS)%Z)
    by (unfold Ping.MAX_WAIT_ATTEMPTS; lia).
  assert (Hwait : exists m,
             Ping.wait_for_free fuel 0 Ping.zero_Message w = (Some (Z.of_nat k, m), w1)).
  { replace fuel with (k + S (fuel - S k))%nat by lia.
    destruct (wait_for_free_occupied_turns k (S (fuel - S k)) 0 Ping.zero_Message w Hocc)
      as (m1 & Hturns); [lia|lia|].
    destruct (wait_for_free_over (fuel - S k) (0 + Z.of_nat k) m1 _ _ Hover) as (m & Hend);
      [lia|].
    exists m. rewrite Hturns, Hend. reflexivity. }
  destruct Hwait as (m & Hwait).
  rewrite (ping_exchange_after_wait _ command currentClientId _ _ _ _ Hwait Hlt).
  fold request. fold sent. rewrite Hsent.
  unfold Ping.receive. rewrite bind_run, steady_now_run, bind_run.
  replace fuel with (n + S (fuel - S n))%nat at 1 by lia.
  destruct (Ping_await_overdue n (fuel - S n) _ currentClientId request _ Hdue) as (m2 & ->).
  cbn beta iota. rewrite bind_run, print_run, bind_run.
  destruct (Ping.io_writeMessage (Ping.free_Message currentClientId) _) as [ok w4].
  reflexivity.
Qed.

(** *** The same for the single mailbox *)

Lemma single_mailbox_status_Some fd s msg :
  single_mailbox_status fd = Some s ->
  exists m, Simple.readMessage fd msg = (true, m) /\ Simple.status m = s.
Proof.
  unfold single_mailbox_status, Simple.readMessage, lseek, read.
  destruct (h_seek_ok fd); cbn [Z.eqb]; [|discriminate].
  destruct (h_read_ok fd); cbn [Z.eqb]; [|discriminate].
  rewrite length_take.
  destruct (Z.eqb_spec (Z.of_nat (Nat.min Simple.sizeof_Message (length (h_bytes fd)))) (-1))
    as [?|_]; [lia|].
  destruct (Z.eqb_spec (Z.of_nat (Nat.min Simple.sizeof_Message (length (h_bytes fd)))) 0)
    as [_|_]; [intros [= <-]; eauto|].
  destruct (Z.eqb_spec (Z.of_nat (Nat.min Simple.sizeof_Message (length (h_bytes fd))))
              (Z.of_nat Simple.sizeof_Message)) as [Hfull|_]; [|discriminate].
  intros [= <-]. eexists. split; [reflexivity|].
  unfold Simple.overlay. rewrite length_take.
  rewrite !drop_ge by (rewrite Simple_encode_length; lia). reflexivity.
Qed.

Lemma single_mailbox_status_None fd msg :
  single_mailbox_status fd = None -> fst (Simple.readMessage fd msg) = false.
Proof.
  unfold single_mailbox_status, Simple.readMessage, lseek, read.
  destruct (h_seek_ok fd); cbn [Z.eqb]; [|reflexivity].
  destruct (h_read_ok fd); cbn [Z.eqb]; [|reflexivity].
  rewrite length_take.
  destruct (Z.eqb_spec (Z.of_nat (Nat.min Simple.sizeof_Message (length (h_bytes fd)))) (-1))
    as [?|_]; [lia|].
  destruct (Z.eqb_spec (Z.of_nat (Nat.min Simple.sizeof_Message (length (h_bytes fd)))) 0)
    as [_|_]; [discriminate|].
  destruct (Z.eqb_spec (Z.of_nat (Nat.min Simple.sizeof_Message (length (h_bytes fd))))
              (Z.of_nat Simple.sizeof_Message)) as [Hfull|_]; [discriminate|reflexivity].
Qed.

Lemma after_unread_trace w :
  w_trace (after_unread w)
  = w_trace w ++ [EvPrint "Client: Error reading response"; EvSleep 100].
Proof.
  unfold after_unread. rewrite sleep_for_run. cbn [snd]. autorewrite with trace.
  rewrite <- app_assoc. reflexivity.
Qed.

Lemma Simple_await_times_out n :
  forall fuel start msg w,
    times_out_after n start w = true ->
    exists m w3 earlier,
      Simple.await_response (n + S fuel) start msg w = (Some (true, false, m), w3)
      /\ w_trace w3 = w_trace w ++ earlier.
Proof.
  induction n as [|n IH]; intros fuel start msg w Hdue; cbn [times_out_after] in Hdue;
    apply andb_true_iff in Hdue as [Hrun Hdue];
    cbn [Nat.add Simple.await_response];
    rewrite bind_run, load_running_run, Hrun; cbn [negb];
    rewrite bind_run, Simple_io_readMessage_run;
    destruct (single_mailbox_status (w_mailbox (tick (tick w)))) as [s|] eqn:Hs.
  - apply andb_true_iff in Hdue as [Hst Hlate]. apply negb_true_iff in Hst.
    destruct (single_mailbox_status_Some _ _ msg Hs) as (m & Hread & Hm).
    exists m, (tick (tick (tick w))), []. rewrite Hread. cbn beta iota. cbn [negb].
    rewrite Hm, Hst, bind_run, steady_now_run.
    unfold poll_clock in Hlate. rewrite Hlate.
    split; [reflexivity|]. rewrite !tick_trace, app_nil_r. reflexivity.
  - discriminate.
  - apply andb_true_iff in Hdue as [Hdue Hlater].
    apply andb_true_iff in Hdue as [Hst Hearly].
    apply negb_true_iff in Hst. apply negb_true_iff in Hearly.
    destruct (single_mailbox_status_Some _ _ msg Hs) as (m1 & Hread & Hm).
    destruct (IH fuel start m1 (after_wait w) Hlater) as (m & w3 & earlier & Hrest & Htrace).
    exists m, w3, (EvSleep 100 :: earlier). rewrite Hread. cbn beta iota. cbn [negb].
    rewrite Hm, Hst, bind_run, steady_now_run.
    unfold poll_clock in Hearly. rewrite Hearly.
    rewrite bind_run, sleep_for_run. split; [exact Hrest|].
    rewrite Htrace, after_wait_trace, <- app_assoc. reflexivity.
  - pose proof (single_mailbox_status_None _ msg Hs) as Hread.
    destruct (Simple.readMessage (w_mailbox (tick (tick w))) msg) as [ok m1].
    cbn [fst] in Hread. subst ok. cbn [negb].
    destruct (IH fuel start m1 (after_unread w) Hdue) as (m & w3 & earlier & Hrest & Htrace).
    exists m, w3, ([EvPrint "Client: Error reading response"; EvSleep 100] ++ earlier).
    rewrite bind_run, print_run, bind_run, sleep_for_run. split; [exact Hrest|].
    rewrite Htrace, after_unread_trace, <- app_assoc. reflexivity.
Qed.

Lemma request_exchange_times_out fuel n userInput requestCounter w :
  (n < fuel)%nat ->
  let counter := wrap_int (requestCounter + 1) in
  let request := Simple.request_Message counter userInput in
  let sent :=
    Simple.io_writeMessage request
      (emit (EvPrint ("Client: Sending request #" +:+ to_string counter +:+ ": "
                      +:+ Simple.QUOTE +:+ userInput +:+ Simple.QUOTE)) w) in
  fst sent = true ->
  let begun := tick (emit (EvPrint "Client: Waiting for server response...") (snd sent)) in
  times_out_after n (w_now begun) begun = true ->
  exists w3 earlier,
    (Simple.TIMEOUT_MS < w_now w3 - w_now begun)%Z
    /\ w_trace w3 = w_trace (snd sent) ++ earlier
    /\ Simple.request_exchange fuel userInput requestCounter w
       = (Some (Simple.TimedOut, counter),
          snd (Simple.io_writeMessage Simple.free_Message
                 (emit (EvPrint "Client: Timeout waiting for server response") w3))).
Proof.
  intros Hn counter request sent Hsent begun Hdue.
  destruct (Simple_await_times_out n (fuel - S n) _ request _ Hdue)
    as (m & w3 & earlier & Hawait & Htrace).
  exists w3, (EvPrint "Client: Waiting for server response..." :: earlier).
  split; [apply (Simple_await_timeout _ _ _ _ _ _ _ Hawait)|].
  split; [rewrite Htrace; unfold begun; autorewrite with trace;
          rewrite <- app_assoc; reflexivity|].
  unfold Simple.request_exchange. fold counter. fold request.
  rewrite bind_run, print_run, bind_run.
  fold sent. destruct sent as [ok w2] eqn:Hw2. cbn [fst snd] in *. subst ok. cbn [negb].
  rewrite bind_run, print_run, bind_run, steady_now_run, bind_run.
  fold begun. replace fuel with (n + S (fuel - S n))%nat at 1 by lia.
  rewrite Hawait. cbn beta iota. rewrite bind_run, print_run, bind_run.
  destruct (Simple.io_writeMessage Simple.free_Message _) as [ok w4]. reflexivity.
Qed.

(** C4 (amended). An exchange whose wait for the response runs past its
    limit without a RESPONSE ends as a timeout, and always in the same way.
    The multi-instance client: after [k] polls of an occupied mailbox the wait
    for a free one is over with attempts left, the request is written, and
    the wait for the response, in which every turn finds the flag up and
    reads a status other than RESPONSE, finds the clock more than 5000 ms
    past its start in turn [n]. The single-mailbox client: the request is
    written, every turn of the wait finds the flag up, and turn [n] is the
    first in which a read that succeeds is followed by a clock more than
    [TIMEOUT_MS] past the start (a turn whose read fails does not look at the
    clock). Each client then first reports the timeout on its console and
    next, before it leaves the exchange, calls [writeMessage] with status
    FREE, its own client_id (multi-instance client) and a payload of NUL
    bytes, without looking at the result. When that write succeeds the
    mailbox holds this record, so that a read which succeeds next finds
    status FREE and an empty payload. *)
Theorem C4_timeout_resets_mailbox :
  (forall fuel k n command currentClientId w w1,
     (k < 5)%nat -> (k < fuel)%nat -> (n < fuel)%nat ->
     occupied_for k w = true ->
     wait_over (after_polls k w) = Some w1 ->
     let request := Ping.request_Message currentClientId command in
     let sent := Ping.io_writeMessage request w1 in
     fst sent = true ->
     let start := w_now (tick (snd sent)) in
     overdue_after 5000 n start (tick (snd sent)) = true ->
     let r := Ping.ping_exchange fuel command currentClientId w in
     let w' := snd r in
     fst r = Some (Ping.TimedOut, currentClientId)
     /\ (5000 < w_now w' - start)%Z
     /\ Ping.status (Ping.free_Message currentClientId) = 0%Z
     /\ Ping.data (Ping.free_Message currentClientId) = replicate 256 NUL
     /\ exists ok,
          w_trace w'
          = w_trace w ++ replicate k (EvSleep 100)
            ++ [EvWriteMessage (Ping.encode request) true]
            ++ replicate n (EvSleep 100)
            ++ [EvPrint "Timeout waiting for response.";
                EvWriteMessage (Ping.encode (Ping.free_Message currentClientId)) ok]
          /\ (ok = true ->
              take Ping.sizeof_Message (h_bytes (w_mailbox w'))
              = Ping.encode (Ping.free_Message currentClientId)
              /\ forall msg m,
                   Ping.readMessage (w_mailbox w') msg = (true, m) ->
                   Ping.status m = 0%Z /\ Ping.data m = replicate 256 NUL))
  /\ (forall fuel n userInput requestCounter w,
     (n < fuel)%nat ->
     let counter := wrap_int (requestCounter + 1) in
     let request := Simple.request_Message counter userInput in
     let sent :=
       Simple.io_writeMessage request
         (emit (EvPrint ("Client: Sending request #" +:+ to_string counter +:+ ": "
                         +:+ Simple.QUOTE +:+ userInput +:+ Simple.QUOTE)) w) in
     fst sent = true ->
     let begun := tick (emit (EvPrint "Client: Waiting for server response...") (snd sent)) in
     times_out_after n (w_now begun) begun = true ->
     let r := Simple.request_exchange fuel userInput requestCounter w in
     let w' := snd r in
     fst r = Some (Simple.TimedOut, counter)
     /\ (Simple.TIMEOUT_MS < w_now w' - w_now begun)%Z
     /\ Simple.status Simple.free_Message = 0%Z
     /\ Simple.data Simple.free_Message = replicate 256 NUL
     /\ exists earlier ok,
          w_trace w'
          = w_trace (snd sent) ++ earlier
            ++ [EvPrint "Client: Timeout waiting for server response";
                EvWriteMessage (Simple.encode Simple.free_Message) ok]
          /\ (ok = true ->
              take Simple.sizeof_Message (h_bytes (w_mailbox w'))
              = Simple.encode Simple.free_Message
              /\ forall msg m,
                   Simple.readMessage (w_mailbox w') msg = (true, m) ->
                   Simple.status m = 0%Z /\ Simple.data m = replicate 256 NUL)).
Proof.
  split.
  - intros fuel k n command currentClientId w w1 Hk Hfuel Hn Hocc Hover request sent Hsent
      start Hdue r w'.
    assert (Hrun : r = (Some (Ping.TimedOut, currentClientId),
                        snd (Ping.io_writeMessage (Ping.free_Message currentClientId)
                               (emit (EvPrint "Timeout waiting for response.")
                                  (tick (tick (tick (after_waits n (tick (snd sent))))))))))
      by (apply ping_exchange_times_out with (k := k) (w1 := w1); assumption).
    set (w3 := tick (tick (tick (after_waits n (tick (snd sent)))))) in Hrun.
    assert (Hlate : (5000 < w_now w3 - start)%Z).
    { destruct (Ping_await_overdue n 0 start currentClientId request _ Hdue) as (m & Hawait).
      apply (Ping_await_timeout _ _ _ _ _ _ _ _ _ Hawait). }
    assert (Hw1 : w_trace w1 = w_trace w ++ replicate k (EvSleep 100))
      by (rewrite (wait_over_trace _ _ Hover); apply after_polls_trace).
    assert (Hsent_trace : w_trace (snd sent)
                          = w_trace w1 ++ [EvWriteMessage (Ping.encode request) true]).
    { rewrite <- Hsent. unfold sent. rewrite Ping_io_writeMessage_run. cbn [fst snd].
      autorewrite with trace. reflexivity. }
    assert (Hw3 : w_trace w3 = w_trace (snd sent) ++ replicate n (EvSleep 100))
      by (unfold w3; rewrite !tick_trace, after_waits_trace, tick_trace; reflexivity).
    subst w'. rewrite Hrun. cbn [fst snd]. rewrite Ping_io_writeMessage_run. cbn [snd].
    split; [reflexivity|]. split.
    { rewrite emit_now. cbn [set_mailbox w_now].
      pose proof (tick_now (emit (EvPrint "Timeout waiting for response.") w3)) as Hmono.
      rewrite emit_now in Hmono. lia. }
    split; [reflexivity|]. split; [reflexivity|].
    eexists. split.
    + autorewrite with trace. rewrite Hw3, Hsent_trace, Hw1, <- !app_assoc. reflexivity.
    + intros Hok. rewrite emit_mailbox. cbn [set_mailbox w_mailbox].
      pose proof (Ping_writeMessage_stores _ _ Hok) as Hstored.
      split; [exact Hstored|]. intros msg m.
      apply (Ping_free_Message_read_back _ currentClientId msg m Hstored).
  - intros fuel n userInput requestCounter w Hn counter request sent Hsent begun Hdue r w'.
    destruct (request_exchange_times_out fuel n userInput requestCounter w Hn Hsent Hdue)
      as (w3 & earlier & Hlate & Hearlier & Hrun).
    subst w' r begun sent request counter. cbv zeta in *. rewrite Hrun. cbn [fst snd]. rewrite Simple_io_writeMessage_run. cbn [snd].
    split; [reflexivity|]. split.
    { rewrite emit_now. cbn [set_mailbox w_now].
      pose proof (tick_now (emit (EvPrint "Client: Timeout waiting for server response") w3))
        as Hmono.
      rewrite emit_now in Hmono. lia. }
    split; [reflexivity|]. split; [reflexivity|].
    exists earlier. eexists. split.
    + autorewrite with trace. rewrite Hearlier, <- !app_assoc. reflexivity.
    + intros Hok. rewrite emit_mailbox. cbn [set_mailbox w_mailbox].
      pose proof (Simple_writeMessage_stores _ _ Hok) as Hstored.
      split; [exact Hstored|]. intros msg m.
      apply (Simple_free_Message_read_back _ msg m Hstored).
Qed.

Lemma C4_timeout_resets_mailbox_witness :
  let w := quiet_world (healthy (Ping.encode (Ping.free_Message 0))) in
  let r := Ping.ping_exchange 60 "ping" 0 w in
  let r' := Simple.request_exchange 60 "hello" 0 unanswered_world in
  wait_over w = Some (tick (tick w))
  /\ fst r = Some (Ping.TimedOut, 0%Z)
  /\ mailbox_status (w_mailbox (snd r)) = Some 0%Z
  /\ (exists ok,
        w_trace (snd r)
        = [EvWriteMessage (Ping.encode (Ping.request_Message 0 "ping")) true]
          ++ replicate 51 (EvSleep 100)
          ++ [EvPrint "Timeout waiting for response.";
              EvWriteMessage (Ping.encode (Ping.free_Message 0)) ok])
  /\ fst r' = Some (Simple.TimedOut, 1%Z)
  /\ single_mailbox_status (w_mailbox (snd r')) = Some 0%Z.
Proof.
  cbv zeta.
  destruct (proj1 C4_timeout_resets_mailbox 60%nat 0%nat 51%nat "ping"%string 0%Z
              (quiet_world (healthy (Ping.encode (Ping.free_Message 0))))
              (tick (tick (quiet_world (healthy (Ping.encode (Ping.free_Message 0))))))
              ltac:(lia) ltac:(lia) ltac:(lia) eq_refl eq_refl
              ltac:(vm_compute; reflexivity) ltac:(vm_compute; reflexivity))
    as (Hend & _ & _ & _ & ok & Htrace & _).
  destruct (proj2 C4_timeout_resets_mailbox 60%nat 0%nat "hello"%string 0%Z unanswered_world
              ltac:(lia) ltac:(vm_compute; reflexivity) ltac:(vm_compute; reflexivity))
    as (Hend' & _).
  split; [reflexivity|]. split; [exact Hend|]. split; [vm_compute; reflexivity|].
  split; [exists ok; exact Htrace|].
  split; [exact Hend'|vm_compute; reflexivity].
Defined.

(** C4, the claim as stated fails on three counts. With nothing going wrong
    the timeout is reported (the console line) before the record is written
    back: the line comes first in the trace and the only record written
    before it is the request. The result of the write is not looked at: when
    the device refuses it, the exchange ends as a timeout all the same and
    the mailbox still reads REQUEST. And the single-mailbox client looks at
    the clock only in a turn whose read has succeeded: with a mailbox that
    takes the request but cannot be read, its wait is still going on after
    20 seconds, twice [TIMEOUT_MS], having reported no timeout and written
    nothing but the request. *)
Lemma C4_report_precedes_unchecked_reset :
  let w := quiet_world (healthy (Ping.encode (Ping.free_Message 0))) in
  let r := Ping.ping_exchange 60 "ping" 0 w in
  let r' := Ping.ping_exchange 60 "ping" 0 abandoned_world in
  let r'' := Simple.request_exchange 200 "hello" 0 (quiet_world unreadable) in
  fst r = Some (Ping.TimedOut, 0%Z)
  /\ drop 52 (w_trace (snd r))
     = [EvPrint "Timeout waiting for response.";
        EvWriteMessage (Ping.encode (Ping.free_Message 0)) true]
  /\ written (take 52 (w_trace (snd r))) = [Ping.encode (Ping.request_Message 0 "ping")]
  /\ fst r' = Some (Ping.TimedOut, 0%Z)
  /\ w_trace (snd r')
     = [EvWriteMessage (Ping.encode (Ping.request_Message 0 "ping")) true;
        EvPrint "Timeout waiting for response.";
        EvWriteMessage (Ping.encode (Ping.free_Message 0)) false]
  /\ mailbox_status (w_mailbox (snd r')) = Some 1%Z
  /\ fst r'' = None
  /\ w_now (snd r'') = 20000%Z
  /\ w_trace (snd r'')
     = [EvPrint ("Client: Sending request #1: " +:+ Simple.QUOTE +:+ "hello" +:+ Simple.QUOTE);
        EvWriteMessage (Simple.encode (Simple.request_Message 1 "hello")) true;
        EvPrint "Client: Waiting for server response..."]
       ++ concat (replicate 200 [EvPrint "Client: Error reading response"; EvSleep 100])
  /\ take Simple.sizeof_Message (h_bytes (w_mailbox (snd r'')))
     = Simple.encode (Simple.request_Message 1 "hello").
Proof. cbv zeta. repeat split; vm_compute; reflexivity. Qed.

(** ** Enough fuel: the exchange of the ping client always ends *)

Lemma Ping_wait_for_free_total fuel :
  forall waitAttempts msg w,
    (0 <= waitAttempts)%Z ->
    (0 < fuel)%nat ->
    (Ping.MAX_WAIT_ATTEMPTS - waitAttempts < Z.of_nat fuel)%Z ->
    fst (Ping.wait_for_free fuel waitAttempts msg w) <> None.
Proof.
  induction fuel as [|fuel IH]; intros waitAttempts msg w Hlo Hpos Hfuel; [lia|].
  cbn [Ping.wait_for_free]. rewrite bind_run, load_running_run.
  destruct (Z.ltb_spec waitAttempts Ping.MAX_WAIT_ATTEMPTS) as [Hlt|_];
    [|rewrite andb_false_r; discriminate].
  destruct (w_running (tick w)); cbn [andb negb]; [|discriminate].
  rewrite bind_run, Ping_io_readMessage_run.
  destruct (Ping.readMessage _ msg) as [ok msg1].
  destruct ok; cbn [negb]; [|discriminate].
  destruct (Ping.status msg1 =? 0)%Z; [discriminate|].
  rewrite bind_run, sleep_for_run.
  rewrite wrap_int_small by (unfold Ping.MAX_WAIT_ATTEMPTS, INT_MIN, INT_MAX in *; lia).
  apply IH; unfold Ping.MAX_WAIT_ATTEMPTS in *; lia.
Qed.

Lemma Ping_await_response_total fuel :
  forall start currentClientId msg w,
    (0 < fuel)%nat ->
    (5000 < w_now w - start + 100 * (Z.of_nat fuel - 1))%Z ->
    fst (Ping.await_response fuel start currentClientId msg w) <> None.
Proof.
  induction fuel as [|fuel IH]; intros start currentClientId msg w Hpos Hfuel; [lia|].
  cbn [Ping.await_response]. rewrite bind_run, load_running_run.
  destruct (w_running (tick w)); cbn [negb]; [|discriminate].
  rewrite bind_run, Ping_io_readMessage_run.
  destruct (Ping.readMessage _ msg) as [ok msg1].
  destruct ok; cbn [negb]; [|discriminate].
  destruct (Ping.status msg1 =? 2)%Z.
  { destruct ((0 <? Ping.client_id msg1)%Z && (currentClientId =? 0)%Z);
      [rewrite bind_run, print_run|]; discriminate. }
  rewrite bind_run, steady_now_run.
  pose proof (tick_now w). pose proof (tick_now (tick w)). pose proof (tick_now (tick (tick w))).
  destruct (Z.ltb_spec 5000 (w_now (tick (tick (tick w))) - start)) as [_|Hearly];
    [discriminate|].
  rewrite bind_run, sleep_for_run.
  pose proof (tick_now (tick (tick (tick w)))).
  apply IH; [lia|]. rewrite emit_now. cbn [advance w_now]. lia.
Qed.

(** With fuel for 52 turns the model of the exchange never stops short: the
    wait loop ends within 5 turns, the wait for the response within 52 (each
    turn that does not end it sleeps 100 ms of the 5000 ms allowed). *)
Lemma Ping_ping_exchange_total fuel command currentClientId w :
  (52 <= fuel)%nat ->
  fst (Ping.ping_exchange fuel command currentClientId w) <> None.
Proof.
  intros Hfuel. unfold Ping.ping_exchange, Ping.receive. rewrite bind_run.
  pose proof (Ping_wait_for_free_total fuel 0 Ping.zero_Message w) as Hwait.
  destruct (Ping.wait_for_free fuel 0 Ping.zero_Message w) as [[[waitAttempts msg1]|] w1].
  2: { exfalso. apply Hwait; [lia|lia|unfold Ping.MAX_WAIT_ATTEMPTS; lia|reflexivity]. }
  clear Hwait.
  destruct (Ping.MAX_WAIT_ATTEMPTS <=? waitAttempts)%Z.
  { rewrite bind_run, print_run. discriminate. }
  rewrite bind_run, Ping_io_writeMessage_run.
  destruct (fst (Ping.writeMessage _ _)); cbn [negb].
  2: { rewrite bind_run, print_run. discriminate. }
  rewrite bind_run, steady_now_run, bind_run.
  match goal with
  | |- context [Ping.await_response fuel ?start ?c ?m ?w2] =>
      pose proof (Ping_await_response_total fuel start c m w2) as Hawait;
      destruct (Ping.await_response fuel start c m w2) as [[[[[timeout got] c'] m']|] w3]
  end.
  2: { exfalso. apply Hawait; [lia|lia|reflexivity]. }
  clear Hawait. destruct timeout.
  - rewrite bind_run, print_run, bind_run.
    destruct (Ping.io_writeMessage _ _). discriminate.
  - rewrite bind_run.
    destruct (got && negb (Ascii.eqb (nth 0 (Ping.data m') NUL) NUL));
      [rewrite print_run|unfold mret at 1, M_ret at 1];
      rewrite bind_run; destruct (Ping.io_writeMessage _ _); discriminate.
Qed.

(** ** Write, then read *)

Lemma Ping_write_then_read fd msg other :
  (INT_MIN <= Ping.status msg <= INT_MAX)%Z ->
  (INT_MIN <= Ping.client_id msg <= INT_MAX)%Z ->
  length (Ping.data msg) = 256%nat ->
  fst (Ping.writeMessage fd msg) = true ->
  h_read_ok fd = true ->
  Ping.readMessage (snd (Ping.writeMessage fd msg)) other = (true, msg).
Proof.
  intros Hs Hc Hd Hok Hread.
  pose proof (Ping_writeMessage_stores fd msg Hok) as Hstored.
  apply Ping_readMessage_success.
  assert (Hflags : h_seek_ok (snd (Ping.writeMessage fd msg)) = true
                   /\ h_read_ok (snd (Ping.writeMessage fd msg)) = true).
  { revert Hok. unfold Ping.writeMessage, lseek, write.
    destruct (h_seek_ok fd) eqn:Hseek; cbn [Z.eqb]; [|discriminate].
    destruct (h_write_cap fd); cbn [Z.eqb fst snd]; [|discriminate].
    destruct (Z.of_nat _ =? -1)%Z; [discriminate|].
    cbn [snd h_seek_ok h_read_ok]. auto. }
  destruct Hflags as [Hseek' Hread'].
  split; [exact Hseek'|]. split; [exact Hread'|]. right.
  assert (Hlen : length (take Ping.sizeof_Message (h_bytes (snd (Ping.writeMessage fd msg))))
                 = Ping.sizeof_Message) by (rewrite Hstored; apply Ping_encode_length).
  rewrite length_take in Hlen. split; [lia|].
  rewrite Hstored. symmetry. apply Ping_decode_encode; assumption.
Qed.

(** ** A first contact, end to end *)

(** The client of a fresh mailbox sends "ping" with client_id 0; server 2
    answers; the client adopts id 1 and frees the mailbox. *)
Example first_contact :
  let r := Ping.ping_exchange 60 "ping" 0 first_contact_world in
  fst r = Some (Ping.Completed true, 1%Z)
  /\ w_trace (snd r)
     = [EvWriteMessage (Ping.encode (Ping.request_Message 0 "ping")) true;
        EvPrint "Server assigned Client ID: 1";
        EvPrint "Response: pong from server #2 to client #1";
        EvWriteMessage (Ping.encode (Ping.free_Message 1)) true]
  /\ Ping.decode (h_bytes (w_mailbox (snd r))) = Ping.free_Message 1.
Proof. cbv zeta. repeat split; vm_compute; reflexivity. Qed.
(** ** Further properties of the record codec *)

Lemma c_chars_no_nul s : Forall (fun c => c <> NUL) (c_chars s).
Proof.
  induction s as [|c s IH]; cbn [c_chars]; [constructor|].
  destruct (Ascii.eqb_spec c NUL); [constructor|]. constructor; assumption.
Qed.

Lemma c_str_padded l :
  Forall (fun c => c <> NUL) l ->
  forall n m, (n <= m)%nat ->
    c_str (take n (l ++ replicate m NUL) ++ [NUL]) = take_chars n (c_str l).
Proof.
  induction 1 as [|c l Hc Hl IH]; intros n m Hnm.
  - cbn [app c_str]. destruct n as [|n]; [reflexivity|].
    destruct m as [|m]; [lia|]. reflexivity.
  - destruct n as [|n]; [reflexivity|].
    cbn [app take firstn c_str take_chars].
    destruct (Ascii.eqb_spec c NUL) as [->|_]; [contradiction|].
    cbn [take_chars]. f_equal. apply IH. lia.
Qed.

Lemma store_text_length s : length (store_text s) = 256%nat.
Proof. unfold store_text. rewrite length_app, pad_length. reflexivity. Qed.

Lemma c_str_store_text s : c_str (store_text s) = take_chars 255 (c_str (c_chars s)).
Proof.
  unfold store_text, pad. apply c_str_padded; [apply c_chars_no_nul|lia].
Qed.

(** X1. A record that [writeMessage] reports as written is what the next
    [readMessage] on the same file delivers, whatever the reader's object
    held before: status, client id and all 256 payload bytes (for fields that
    are [int]s and a payload that is the 256-byte array). *)
Theorem X1_write_then_read (fd : Handle) (msg other : Ping.Message) :
  in_int_range (Ping.status msg) = true ->
  in_int_range (Ping.client_id msg) = true ->
  length (Ping.data msg) = 256%nat ->
  h_read_ok fd = true ->
  fst (Ping.writeMessage fd msg) = true ->
  Ping.readMessage (snd (Ping.writeMessage fd msg)) other = (true, msg).
Proof.
  intros Hs Hc Hd Hread Hok. unfold in_int_range in Hs, Hc.
  apply Ping_write_then_read; try assumption; lia.
Qed.

Lemma X1_write_then_read_witness :
  Ping.readMessage
    (snd (Ping.writeMessage (healthy []) (Ping.request_Message 7 "ping")))
    Ping.zero_Message
  = (true, Ping.request_Message 7 "ping").
Proof.
  apply (X1_write_then_read (healthy []) (Ping.request_Message 7 "ping") Ping.zero_Message);
    reflexivity.
Defined.

(** X2. A [writeMessage] that reports failure has either left the file as it
    was (the seek or the write failed) or replaced only the first [k] bytes
    of the file by the first [k] bytes of the record, [k] being fewer than
    the record has: a short write leaves a torn record behind. *)
Theorem X2_failed_write_effect (fd : Handle) (msg : Ping.Message) :
  fst (Ping.writeMessage fd msg) = false ->
  (snd (Ping.writeMessage fd msg) = fd
   /\ (h_seek_ok fd = false \/ h_write_cap fd = None))
  \/ (exists k, h_seek_ok fd = true /\ h_write_cap fd = Some k
        /\ (k < Ping.sizeof_Message)%nat
        /\ h_bytes (snd (Ping.writeMessage fd msg))
           = take k (Ping.encode msg) ++ drop k (h_bytes fd)).
Proof.
  unfold Ping.writeMessage, lseek, write.
  destruct (h_seek_ok fd) eqn:Hseek; cbn [Z.eqb fst snd]; [|intros _; left; auto].
  destruct (h_write_cap fd) as [k|] eqn:Hcap; cbn [Z.eqb fst snd]; [|intros _; left; auto].
  pose proof (Ping_encode_length msg) as Hlen.
  rewrite length_take, Hlen.
  destruct (Z.eqb_spec (Z.of_nat (k `min` Ping.sizeof_Message)) (-1)) as [|_]; [lia|].
  cbn [fst snd h_bytes]. intros Hshort. apply Z.eqb_neq in Hshort.
  right. exists k. repeat split; try reflexivity; [lia|].
  replace (k `min` Ping.sizeof_Message)%nat with k by lia. reflexivity.
Qed.

Lemma X2_failed_write_effect_witness :
  let fd := {| h_seek_ok := true; h_read_ok := true; h_write_cap := Some 4%nat;
               h_rdwr_ok := true; h_bytes := Ping.encode Ping.zero_Message |} in
  let msg := Ping.request_Message 0 "ping" in
  (snd (Ping.writeMessage fd msg) = fd
   /\ (h_seek_ok fd = false \/ h_write_cap fd = None))
  \/ (exists k, h_seek_ok fd = true /\ h_write_cap fd = Some k
        /\ (k < Ping.sizeof_Message)%nat
        /\ h_bytes (snd (Ping.writeMessage fd msg))
           = take k (Ping.encode msg) ++ drop k (h_bytes fd)).
Proof.
  cbv zeta. apply X2_failed_write_effect. reflexivity.
Defined.

(** X3. Text put into a payload with [strncpy(data, text, 255)] and the
    terminator at index 255 fills the 256 bytes, ends in NUL, and is read
    back as a C string as the first 255 characters of the text (of what
    precedes its first NUL). *)
Theorem X3_payload_text (s : string) :
  length (store_text s) = 256%nat
  /\ nth 255 (store_text s) NUL = NUL
  /\ c_str (store_text s) = take_chars 255 (c_str (c_chars s)).
Proof.
  split; [apply store_text_length|]. split; [|apply c_str_store_text].
  unfold store_text.
  rewrite app_nth2 by (rewrite pad_length; lia).
  rewrite pad_length. reflexivity.
Qed.

(** ** The ping server over any sequence of requests *)

Lemma register_client_cases sv msg :
  let sv' := fst (Ping.register_client sv msg) in
  let msg' := snd (Ping.register_client sv msg) in
  Ping.serverInstanceNumber sv' = Ping.serverInstanceNumber sv
  /\ Ping.connectedClients sv ⊆ Ping.connectedClients sv'
  /\ Ping.data msg' = Ping.data msg
  /\ (Ping.client_id msg' = Ping.client_id msg \/ Ping.client_id msg = 0%Z)
  /\ (Ping.clientCounter sv' = Z.of_nat (size (Ping.connectedClients sv')) \/ sv' = sv).
Proof.
  unfold Ping.register_client.
  destruct (Ping.client_id msg =? 0)%Z eqn:Hzero.
  - apply Z.eqb_eq in Hzero. cbn [fst snd Ping.serverInstanceNumber Ping.connectedClients
                                   Ping.data Ping.client_id Ping.clientCounter].
    repeat split; auto. set_solver.
  - destruct ((0 <? Ping.client_id msg)%Z && bool_decide (Ping.client_id msg ∉ Ping.connectedClients sv));
      cbn [fst snd Ping.serverInstanceNumber Ping.connectedClients
           Ping.data Ping.client_id Ping.clientCounter];
      repeat split; auto. set_solver.
Qed.

Lemma Ping_handle_request_answer sv msg w :
  let r := Ping.handle_request sv msg w in
  exists response,
    written (w_trace (snd r)) = written (w_trace w) ++ [Ping.encode response]
    /\ answers_request (Ping.serverInstanceNumber sv) msg response
    /\ Ping.serverInstanceNumber (fst r) = Ping.serverInstanceNumber sv
    /\ Ping.connectedClients sv ⊆ Ping.connectedClients (fst r)
    /\ (Ping.clientCounter (fst r) = Z.of_nat (size (Ping.connectedClients (fst r)))
        \/ fst r = sv).
Proof.
  cbv zeta. destruct (Ping.isValidPingRequest (Ping.data msg)) eqn:Hvalid.
  - destruct (Ping_handle_valid sv msg w Hvalid) as (Hsv & Hwr & _).
    destruct (register_client_cases sv msg) as (Hinst & Hsub & Hdata & Hid & Hcount).
    rewrite Hsv, Hwr.
    eexists. split; [reflexivity|].
    split; [|auto].
    unfold answers_request, pong_Message.
    cbn [Ping.status Ping.client_id Ping.data]. rewrite Hvalid, Hinst.
    split; [reflexivity|]. split; [reflexivity|].
    destruct Hid as [Hid|Hid]; auto.
  - rewrite (Ping_handle_invalid sv msg w Hvalid). cbn [fst snd].
    rewrite Ping_io_writeMessage_run. cbn [snd]. autorewrite with trace.
    rewrite written_app. cbn [written].
    eexists. split; [reflexivity|].
    split; [|auto].
    unfold answers_request. cbn [Ping.status Ping.client_id Ping.data]. rewrite Hvalid. auto.
Qed.

(** X4. Whatever the requests are, valid or not, the ping server answers
    each of them with exactly one record, a RESPONSE that bears the pong for
    its id or the error text; meanwhile the instance number stays, no client
    is ever forgotten, and the client count is the size of the set of known
    clients, unless set and count are both what they were. *)
Theorem X4_one_response_per_request (requests : list Ping.Message) (sv : Ping.Server) (w : World) :
  let r := Ping.handle_all sv requests w in
  (exists responses,
      written (w_trace (snd r)) = written (w_trace w) ++ map Ping.encode responses
      /\ Forall2 (answers_request (Ping.serverInstanceNumber sv)) requests responses)
  /\ Ping.serverInstanceNumber (fst r) = Ping.serverInstanceNumber sv
  /\ Ping.connectedClients sv ⊆ Ping.connectedClients (fst r)
  /\ (Ping.clientCounter (fst r) = Z.of_nat (size (Ping.connectedClients (fst r)))
      \/ (Ping.connectedClients (fst r) = Ping.connectedClients sv
          /\ Ping.clientCounter (fst r) = Ping.clientCounter sv)).
Proof.
  cbv zeta. revert sv w. induction requests as [|msg requests IH]; intros sv w.
  - cbn [Ping.handle_all]. unfold mret, M_ret. cbn [fst snd].
    split; [exists []; rewrite app_nil_r; split; [reflexivity|constructor]|].
    split; [reflexivity|]. split; [reflexivity|]. right. auto.
  - cbn [Ping.handle_all]. rewrite bind_run.
    destruct (Ping_handle_request_answer sv msg w)
      as (response & Hwr & Hans & Hinst & Hsub & Hcount).
    destruct (Ping.handle_request sv msg w) as [sv1 w1]. cbn [fst snd] in *.
    destruct (IH sv1 w1) as ((responses & Hwr' & Hall) & Hinst' & Hsub' & Hcount').
    split; [|split; [congruence|split; [intros id Hid; apply Hsub', Hsub, Hid|]]].
    + exists (response :: responses). rewrite Hwr', Hwr, <- app_assoc. split; [reflexivity|].
      constructor; [exact Hans|]. rewrite <- Hinst. exact Hall.
    + destruct Hcount' as [Hc|[Hset Hc]]; [left; exact Hc|].
      destruct Hcount as [Hc1| ->]; [left; congruence|right; auto].
Qed.

(** X5. The set of known clients does not make ids unique: when a client
    that already bears the id the server would hand out next has been
    registered, the next first contact is given that same id, and the set of
    known clients gains nothing by it. *)
Theorem X5_id_handed_out_twice (sv : Ping.Server) (known fresh : Ping.Message) (w : World) :
  Ping.isValidPingRequest (Ping.data known) = true ->
  Ping.isValidPingRequest (Ping.data fresh) = true ->
  (0 < Ping.nextClientId sv)%Z ->
  Ping.client_id known = Ping.nextClientId sv ->
  Ping.client_id fresh = 0%Z ->
  let r := Ping.handle_all sv [known; fresh] w in
  written (w_trace (snd r))
    = written (w_trace w)
      ++ [Ping.encode (pong_Message (Ping.serverInstanceNumber sv) (Ping.nextClientId sv));
          Ping.encode (pong_Message (Ping.serverInstanceNumber sv) (Ping.nextClientId sv))]
  /\ Ping.connectedClients (fst r) = {[Ping.nextClientId sv]} ∪ Ping.connectedClients sv.
Proof.
  intros Hknown Hfresh Hpos Hid Hzero. cbv zeta.
  cbn [Ping.handle_all]. rewrite bind_run.
  destruct (Ping_handle_valid sv known w Hknown) as (Hsv1 & Hwr1 & _).
  destruct (Ping.handle_request sv known w) as [sv1 w1]. cbn [fst snd] in Hsv1, Hwr1.
  rewrite bind_run.
  destruct (Ping_handle_valid sv1 fresh w1 Hfresh) as (Hsv2 & Hwr2 & _).
  destruct (Ping.handle_request sv1 fresh w1) as [sv2 w2]. cbn [fst snd] in Hsv2, Hwr2.
  unfold mret, M_ret. cbn [fst snd].
  rewrite (register_new_client sv1 fresh Hzero) in Hsv2, Hwr2. cbn [fst snd] in Hsv2, Hwr2.
  cbn [Ping.serverInstanceNumber Ping.client_id] in Hwr2.
  assert (Hreg : Ping.serverInstanceNumber sv1 = Ping.serverInstanceNumber sv
                 /\ Ping.nextClientId sv1 = Ping.nextClientId sv
                 /\ Ping.connectedClients sv1 = {[Ping.nextClientId sv]} ∪ Ping.connectedClients sv
                 /\ Ping.client_id (snd (Ping.register_client sv known)) = Ping.nextClientId sv).
  { subst sv1. unfold Ping.register_client. rewrite Hid.
    destruct (Z.eqb_spec (Ping.nextClientId sv) 0) as [|_]; [lia|].
    destruct (Z.ltb_spec 0 (Ping.nextClientId sv)) as [_|]; [|lia]. cbn [andb].
    destruct (bool_decide_reflect (Ping.nextClientId sv ∉ Ping.connectedClients sv)) as [Hnew|Hold];
      cbn [fst snd Ping.serverInstanceNumber Ping.nextClientId Ping.connectedClients];
      rewrite ?Hid; repeat split; try reflexivity.
    apply dec_stable in Hold. apply set_eq. intros x.
    rewrite elem_of_union, elem_of_singleton. intuition congruence. }
  destruct Hreg as (Hinst & Hnext & Hset & Hid1).
  rewrite <- Hsv1 in Hwr1.
  rewrite Hwr2, Hwr1, Hid1, Hinst, Hnext, <- app_assoc. split; [reflexivity|].
  subst sv2. cbn [Ping.connectedClients]. rewrite Hnext, Hset.
  apply set_eq. intros x. rewrite !elem_of_union, elem_of_singleton. tauto.
Qed.

Lemma X5_id_handed_out_twice_witness :
  let sv := Ping.initial_Server 1 in
  let r := Ping.handle_all sv [Ping.request_Message 1 "ping"; Ping.request_Message 0 "PING"]
             (quiet_world (healthy [])) in
  written (w_trace (snd r))
    = written (w_trace (quiet_world (healthy [])))
      ++ [Ping.encode (pong_Message (Ping.serverInstanceNumber sv) (Ping.nextClientId sv));
          Ping.encode (pong_Message (Ping.serverInstanceNumber sv) (Ping.nextClientId sv))]
  /\ Ping.connectedClients (fst r) = {[Ping.nextClientId sv]} ∪ Ping.connectedClients sv.
Proof.
  cbv zeta.
  apply (X5_id_handed_out_twice (Ping.initial_Server 1)
           (Ping.request_Message 1 "ping") (Ping.request_Message 0 "PING")
           (quiet_world (healthy []))); try reflexivity.
Defined.

(** ** The life of a ping server *)

Lemma Ping_wait_for_request_silent fuel :
  forall msg w,
    written (w_trace (snd (Ping.wait_for_request fuel msg w))) = written (w_trace w).
Proof.
  induction fuel as [|fuel IH]; intros msg w; [reflexivity|].
  cbn [Ping.wait_for_request]. rewrite bind_run, load_running_run.
  destruct (w_running (tick w)); cbn [negb];
    [|unfold mret, M_ret; cbn [snd]; autorewrite with trace; reflexivity].
  rewrite bind_run, Ping_io_readMessage_run.
  destruct (Ping.readMessage _ msg) as [ok msg1].
  destruct ok; cbn [negb].
  - destruct (Ping.status msg1 =? 1)%Z.
    + unfold mret, M_ret. cbn [snd]. autorewrite with trace. reflexivity.
    + rewrite bind_run, sleep_for_run, IH. autorewrite with trace.
      rewrite written_app, app_nil_r. reflexivity.
  - rewrite bind_run, sleep_for_run, IH. autorewrite with trace.
    rewrite written_app, app_nil_r. reflexivity.
Qed.

Lemma Ping_serve_turn fuel sv w :
  match fst (Ping.serve fuel sv w) with
  | None => True
  | Some (false, sv') =>
      sv' = sv
      /\ w_running (snd (Ping.serve fuel sv w)) = false
      /\ written (w_trace (snd (Ping.serve fuel sv w))) = written (w_trace w)
  | Some (true, sv') =>
      Ping.serverInstanceNumber sv' = Ping.serverInstanceNumber sv
      /\ exists response,
           Ping.status response = 2%Z
           /\ written (w_trace (snd (Ping.serve fuel sv w)))
              = written (w_trace w) ++ [Ping.encode response]
  end.
Proof.
  unfold Ping.serve. rewrite bind_run, load_running_run.
  destruct (w_running (tick w)) eqn:Hrun; cbn [negb].
  2: { unfold mret, M_ret. cbn [fst snd]. autorewrite with trace. auto. }
  rewrite bind_run.
  pose proof (Ping_wait_for_request_silent fuel Ping.zero_Message (tick w)) as Hsilent.
  destruct (Ping.wait_for_request fuel Ping.zero_Message (tick w)) as [[msg|] w1];
    cbn [fst snd] in *; [|exact I].
  rewrite bind_run, load_running_run.
  destruct (w_running (tick w1)) eqn:Hrun1; cbn [negb].
  2: { unfold mret, M_ret. cbn [fst snd]. autorewrite with trace in *. auto. }
  rewrite bind_run.
  destruct (Ping_handle_request_answer sv msg (tick w1))
    as (response & Hwr & (Hstatus & _) & Hinst & _).
  destruct (Ping.handle_request sv msg (tick w1)) as [sv1 w2]. cbn [fst snd] in *.
  unfold mret, M_ret. cbn [fst snd].
  split; [exact Hinst|]. exists response. split; [exact Hstatus|].
  rewrite Hwr. autorewrite with trace in *. rewrite Hsilent. reflexivity.
Qed.

Lemma Ping_main_loop_ends fuel :
  forall sv w sv',
    fst (Ping.main_loop fuel sv w) = Some sv' ->
    w_running (snd (Ping.main_loop fuel sv w)) = false
    /\ Ping.serverInstanceNumber sv' = Ping.serverInstanceNumber sv
    /\ exists responses,
         Forall (fun response => Ping.status response = 2%Z) responses
         /\ written (w_trace (snd (Ping.main_loop fuel sv w)))
            = written (w_trace w) ++ map Ping.encode responses.
Proof.
  induction fuel as [|fuel IH]; intros sv w sv'; [discriminate|].
  cbn [Ping.main_loop]. rewrite bind_run.
  pose proof (Ping_serve_turn (S fuel) sv w) as Hturn.
  destruct (Ping.serve (S fuel) sv w) as [[[[|] sv1]|] w1]; cbn [fst snd] in Hturn.
  - destruct Hturn as (Hinst & response & Hstatus & Hwr).
    intros Hend. destruct (IH sv1 w1 sv' Hend) as (Hrun & Hinst' & responses & Hall & Hwr').
    split; [exact Hrun|]. split; [congruence|].
    exists (response :: responses). split; [constructor; assumption|].
    rewrite Hwr', Hwr, <- app_assoc. reflexivity.
  - destruct Hturn as (-> & Hrun & Hwr). unfold mret, M_ret. cbn [fst snd].
    intros [= ->]. split; [exact Hrun|]. split; [reflexivity|].
    exists []. split; [constructor|]. rewrite Hwr, app_nil_r. reflexivity.
  - discriminate.
Qed.

Lemma tick_running_false w : w_running w = false -> w_running (tick w) = false.
Proof.
  intros H. unfold tick. destruct (w_env w); [exact H|]. cbn [w_running]. rewrite H. reflexivity.
Qed.

Lemma io_lseek_end_run w : io_lseek_end w = (lseek_end (w_mailbox (tick w)), tick w).
Proof. reflexivity. Qed.

(** The initialisation writes at most the zero record. *)
Lemma Ping_initialise_cases w :
  let r := Ping.initialise w in
  (fst r = true /\ w_trace (snd r) = w_trace w
   /\ w_mailbox (snd r) = w_mailbox (tick w)
   /\ (Z.of_nat Ping.sizeof_Message <= lseek_end (w_mailbox (tick w)))%Z)
  \/ ((lseek_end (w_mailbox (tick w)) < Z.of_nat Ping.sizeof_Message)%Z
      /\ r = Ping.io_writeMessage Ping.zero_Message (tick w)).
Proof.
  cbv zeta. unfold Ping.initialise. rewrite bind_run, io_lseek_end_run.
  destruct (Z.ltb_spec (lseek_end (w_mailbox (tick w))) (Z.of_nat Ping.sizeof_Message)).
  - right. auto.
  - left. unfold mret, M_ret. cbn [fst snd]. autorewrite with trace. auto.
Qed.

(** X6. Once its mailbox is open the ping server ends in one of two ways
    only. It gives up with exit code 1 when the file is shorter than a
    record and the write of the zero record fails, having written nothing
    else. Or it ends with exit code 0, and then its [running] flag is down;
    between the (possible) zero record and the last record it has written
    RESPONSE records only, and the last record is the FREE record that
    carries the text SERVER_SHUTDOWN and client id 0. No read or write that
    fails in between ends the server. *)
Theorem X6_server_life (fuel : nat) (instance : Z) (w : World) (code : Z) (sv : Ping.Server) :
  fst (Ping.run_server fuel instance w) = Some (code, sv) ->
  let records := written (w_trace (snd (Ping.run_server fuel instance w))) in
  (code = 1%Z
   /\ records = written (w_trace w) ++ [Ping.encode Ping.zero_Message])
  \/ (code = 0%Z
      /\ w_running (snd (Ping.run_server fuel instance w)) = false
      /\ Ping.serverInstanceNumber sv = instance
      /\ exists initial responses,
           (initial = [] \/ initial = [Ping.encode Ping.zero_Message])
           /\ Forall (fun response => Ping.status response = 2%Z) responses
           /\ records = written (w_trace w) ++ initial ++ map Ping.encode responses
                        ++ [Ping.encode Ping.shutdown_Message]).
Proof.
  cbv zeta. unfold Ping.run_server. rewrite bind_run.
  assert (Hinit : exists initial,
             (initial = [] \/ initial = [Ping.encode Ping.zero_Message])
             /\ written (w_trace (snd (Ping.initialise w))) = written (w_trace w) ++ initial
             /\ (fst (Ping.initialise w) = false -> initial = [Ping.encode Ping.zero_Message])).
  { destruct (Ping_initialise_cases w) as [(Hok & Htr & _)|[_ ->]].
    - exists []. rewrite Htr, app_nil_r, Hok. split; [auto|]. split; [reflexivity|discriminate].
    - exists [Ping.encode Ping.zero_Message]. rewrite Ping_io_writeMessage_run. cbn [fst snd].
      autorewrite with trace. rewrite written_app. cbn [written]. auto. }
  destruct Hinit as (initial & Hshape & Hwr0 & Hfail).
  destruct (Ping.initialise w) as [ok w0]. cbn [fst snd] in Hwr0, Hfail.
  destruct ok; cbn [negb].
  2: { unfold mret, M_ret. cbn [fst snd]. intros [= <- <-]. left.
       rewrite Hwr0, Hfail by reflexivity. auto. }
  rewrite bind_run.
  pose proof (Ping_main_loop_ends fuel (Ping.initial_Server instance) w0) as Hloop.
  destruct (Ping.main_loop fuel (Ping.initial_Server instance) w0) as [[sv1|] w1];
    cbn [fst snd] in Hloop; [|discriminate].
  destruct (Hloop sv1 eq_refl) as (Hrun & Hinst & responses & Hall & Hwr1).
  rewrite bind_run, Ping_io_writeMessage_run. unfold mret, M_ret. cbn [fst snd].
  intros [= <- <-]. right. split; [reflexivity|].
  split; [unfold emit, set_mailbox; cbn [w_running]; apply tick_running_false, Hrun|].
  split; [exact Hinst|].
  exists initial, responses. split; [exact Hshape|]. split; [exact Hall|].
  autorewrite with trace. rewrite written_app, Hwr1, Hwr0. cbn [written].
  rewrite <- !app_assoc. reflexivity.
Qed.

Lemma X6_server_life_witness :
  let r := Ping.run_server 5 3 one_client_world in
  fst r = Some (0%Z, {| Ping.serverInstanceNumber := 3; Ping.nextClientId := 2;
                        Ping.connectedClients := {[1%Z]}; Ping.clientCounter := 1 |})
  /\ w_running (snd r) = false.
Proof.
  cbv zeta.
  assert (Hend : fst (Ping.run_server 5 3 one_client_world)
                 = Some (0%Z, {| Ping.serverInstanceNumber := 3; Ping.nextClientId := 2;
                                 Ping.connectedClients := {[1%Z]}; Ping.clientCounter := 1 |}))
    by (vm_compute; reflexivity).
  split; [exact Hend|].
  destruct (X6_server_life 5 3 one_client_world 0 _ Hend) as [[H _]|(_ & H & _)];
    [discriminate H|exact H].
Defined.

(** X7. When the initialisation of the server's file succeeds, the file
    holds at least one whole record, so that no reader finds it short:
    either it was long enough already and has not been written (whatever it
    holds, a request left from an earlier run included), or the zero record
    has just been written at its start. *)
Theorem X7_initialise_file (w : World) :
  fst (Ping.initialise w) = true ->
  let fd := w_mailbox (snd (Ping.initialise w)) in
  (Ping.sizeof_Message <= length (h_bytes fd))%nat
  /\ ((w_trace (snd (Ping.initialise w)) = w_trace w /\ fd = w_mailbox (tick w))
      \/ (written (w_trace (snd (Ping.initialise w)))
            = written (w_trace w) ++ [Ping.encode Ping.zero_Message]
          /\ take Ping.sizeof_Message (h_bytes fd) = Ping.encode Ping.zero_Message)).
Proof.
  intros Hok. cbv zeta.
  destruct (Ping_initialise_cases w) as [(_ & Htr & Hfd & Hsize)|[_ Hwrite]].
  - rewrite Hfd. split; [|left; auto].
    revert Hsize. unfold lseek_end. destruct (h_seek_ok _); [lia|].
    unfold Ping.sizeof_Message. lia.
  - rewrite Hwrite in *. rewrite Ping_io_writeMessage_run in *. cbn [fst snd] in *.
    pose proof (Ping_writeMessage_stores _ _ Hok) as Hstored.
    unfold emit, set_mailbox. cbn [w_mailbox w_trace].
    assert (Hlen : length (take Ping.sizeof_Message
                             (h_bytes (snd (Ping.writeMessage (w_mailbox (tick (tick w)))
                                              Ping.zero_Message))))
                   = Ping.sizeof_Message)
      by (rewrite Hstored; apply Ping_encode_length).
    rewrite length_take in Hlen. split; [lia|]. right.
    rewrite tick_trace, written_app, tick_trace. cbn [written]. auto.
Qed.

Lemma X7_initialise_file_witness :
  let fd := w_mailbox (snd (Ping.initialise (quiet_world (healthy [])))) in
  (Ping.sizeof_Message <= length (h_bytes fd))%nat.
Proof.
  cbv zeta. apply (X7_initialise_file (quiet_world (healthy []))). reflexivity.
Defined.

(** ** The server's file *)

Lemma start_server_file dir fs :
  let '(_, name, startup, fs1) := Ping.start_server dir fs in
  (forall other, other <> name -> fs_files fs1 !! other = fs_files fs !! other)
  /\ fs_can_create fs1 = fs_can_create fs
  /\ match startup with
     | Ping.Created fd =>
         fs_files fs !! name = None /\ fs_files fs1 !! name = Some fd
     | Ping.Reused fd => fs_files fs1 !! name = Some fd /\ fs1 = fs
     | Ping.OpenFailed =>
         fs1 = fs /\ (fs_files fs !! name <> None \/ fs_can_create fs = false)
     end.
Proof.
  unfold Ping.start_server.
  set (name := (Ping.SERVER_FILE_PREFIX +:+ _ +:+ ".bin")%string).
  unfold open_excl.
  destruct (fs_files fs !! name) as [fd|] eqn:Hfile.
  - unfold open_rdwr. rewrite Hfile.
    destruct (h_rdwr_ok fd); auto.
    split; [auto|]. split; [auto|]. split; [reflexivity|]. left. congruence.
  - destruct (fs_can_create fs) eqn:Hcreate.
    + cbn [fs_files fs_can_create]. split; [|split; [reflexivity|]].
      * intros other Hother. apply lookup_insert_ne. congruence.
      * split; [exact Hfile|]. apply lookup_insert_eq.
    + unfold open_rdwr. rewrite Hfile. auto.
Qed.

Lemma stored_lookup fs name fd :
  (forall other, other <> name ->
     fs_files (stored fs name fd) !! other = fs_files fs !! other)
  /\ fs_can_create (stored fs name fd) = fs_can_create fs
  /\ fs_files (stored fs name fd) !! name = (fun _ => fd) <$> fs_files fs !! name.
Proof.
  unfold stored. destruct (fs_files fs !! name) eqn:Hfile; cbn [fs_files fs_can_create].
  - split; [|split; [reflexivity|apply lookup_insert_eq]].
    intros other Hother. apply lookup_insert_ne. congruence.
  - rewrite Hfile. auto.
Qed.

Lemma unlink_lookup fs name :
  (forall other, other <> name ->
     fs_files (snd (unlink fs name)) !! other = fs_files fs !! other)
  /\ (fs_can_create fs = true -> fs_files (snd (unlink fs name)) !! name = None).
Proof.
  unfold unlink. destruct (fs_files fs !! name) eqn:Hfile.
  - destruct (fs_can_create fs); cbn [snd fs_files]; split; auto; try discriminate.
    + intros other Hother. apply lookup_delete_ne. congruence.
    + intros _. apply lookup_delete_eq.
  - cbn [snd]. auto.
Qed.

(** X8. A ping server that ends with exit code 0 in a directory it may
    change leaves no file of its name behind, and every other file of the
    directory as it found it. *)
Theorem X8_clean_exit_removes_file (fuel : nat) (dir : option (list string)) (fs : FS)
    (w : World) (fs' : FS) :
  fs_can_create fs = true ->
  fst (Ping.main fuel dir fs w) = Some (0%Z, fs') ->
  let currentFileName := snd (fst (fst (Ping.start_server dir fs))) in
  fs_files fs' !! currentFileName = None
  /\ forall other, other <> currentFileName -> fs_files fs' !! other = fs_files fs !! other.
Proof.
  intros Hcreate. unfold Ping.main.
  pose proof (start_server_file dir fs) as Hstart.
  destruct (Ping.start_server dir fs) as [[[instance name] startup] fs1].
  destruct Hstart as (Hothers & Hcreate1 & Hname). cbn [fst snd].
  assert (Hrun : forall fd,
             fst (let '(ended, w0) := Ping.run_server fuel instance (set_mailbox fd w) in
                  match ended with
                  | Some (code, _) =>
                      let fs0 := stored fs1 name (w_mailbox w0) in
                      if (code =? 0)%Z then (Some (0%Z, snd (unlink fs0 name)), w0)
                      else (Some (code, fs0), w0)
                  | None => (None, w0)
                  end) = Some (0%Z, fs') ->
             fs_files fs' !! name = None
             /\ forall other, other <> name -> fs_files fs' !! other = fs_files fs !! other).
  { intros fd. destruct (Ping.run_server fuel instance (set_mailbox fd w)) as [[[code sv]|] w0];
      [|discriminate].
    destruct (stored_lookup fs1 name (w_mailbox w0)) as (Hst & Hstc & _).
    destruct (unlink_lookup (stored fs1 name (w_mailbox w0)) name) as (Hun & Hgone).
    destruct (Z.eqb_spec code 0) as [->|Hcode]; cbn [fst].
    - intros [= <-]. split; [apply Hgone; congruence|].
      intros other Hother. rewrite Hun, Hst, Hothers by assumption. reflexivity.
    - intros [= -> _]. contradiction. }
  destruct startup as [fd|fd|]; [apply Hrun|apply Hrun|discriminate].
Qed.

Lemma X8_clean_exit_removes_file_witness :
  let dir := Some ["ipc_server_2.bin"]%string in
  let fs := sample_fs "ipc_server_2.bin" (healthy []) in
  fst (Ping.main 5 dir fs one_client_world) = Some (0%Z, fs)
  /\ fs_files fs !! "ipc_server_3.bin"%string = None.
Proof.
  cbv zeta.
  assert (Hend : fst (Ping.main 5 (Some ["ipc_server_2.bin"]%string)
                        (sample_fs "ipc_server_2.bin" (healthy [])) one_client_world)
                 = Some (0%Z, sample_fs "ipc_server_2.bin" (healthy [])))
    by (vm_compute; reflexivity).
  split; [exact Hend|].
  exact (proj1 (X8_clean_exit_removes_file 5 (Some ["ipc_server_2.bin"]%string)
                  (sample_fs "ipc_server_2.bin" (healthy [])) one_client_world
                  (sample_fs "ipc_server_2.bin" (healthy [])) eq_refl Hend)).
Defined.

(** X9. A ping server that has created its file and then gives up (exit
    code other than 0) does not remove it. When nothing has been stored in
    the file and it can be opened and read, the clients' availability check
    accepts this leftover as a server. *)
Theorem X9_failed_start_leaves_file (fuel : nat) (dir : option (list string)) (fs : FS)
    (w : World) (code : Z) (fs' : FS) :
  let currentFileName := snd (fst (fst (Ping.start_server dir fs))) in
  let fd := w_mailbox (snd (Ping.main fuel dir fs w)) in
  fs_files fs !! currentFileName = None ->
  fs_can_create fs = true ->
  fst (Ping.main fuel dir fs w) = Some (code, fs') ->
  code <> 0%Z ->
  h_rdwr_ok fd = true -> h_seek_ok fd = true -> h_read_ok fd = true -> h_bytes fd = [] ->
  fs_files fs' !! currentFileName = Some fd
  /\ Ping.checkServerAvailability fs' currentFileName = true.
Proof.
  cbv zeta. intros Hfresh Hcreate. unfold Ping.main.
  pose proof (start_server_file dir fs) as Hstart.
  destruct (Ping.start_server dir fs) as [[[instance name] startup] fs1].
  destruct Hstart as (Hothers & Hcreate1 & Hname). cbn [fst snd] in *.
  destruct startup as [fd0|fd0|].
  - destruct Hname as [_ Hfile].
    destruct (Ping.run_server fuel instance (set_mailbox fd0 w)) as [[[code0 sv]|] w0];
      [|discriminate].
    destruct (stored_lookup fs1 name (w_mailbox w0)) as (_ & _ & Hst).
    rewrite Hfile in Hst. cbn [fmap option_fmap option_map] in Hst.
    destruct (Z.eqb_spec code0 0) as [->|Hcode]; cbn [fst snd].
    + intros [= <- _] Hne. contradiction.
    + intros [= <- <-] _ Hopen Hseek Hread Hbytes.
      split; [exact Hst|].
      unfold Ping.checkServerAvailability, open_rdwr. rewrite Hst, Hopen.
      unfold Ping.readMessage, lseek, read. rewrite Hseek, Hread, Hbytes. reflexivity.
  - destruct Hname as [Hfile ->]. congruence.
  - destruct Hname as [_ [Hfile|Hno]]; congruence.
Qed.

Lemma X9_failed_start_leaves_file_witness :
  let left_behind :=
    {| h_seek_ok := true; h_read_ok := true; h_write_cap := None;
       h_rdwr_ok := true; h_bytes := [] |} in
  let fs' := sample_fs "ipc_server_1.bin" left_behind in
  fst (Ping.main 5 (Some []) empty_fs no_write_world) = Some (1%Z, fs')
  /\ Ping.checkServerAvailability fs' "ipc_server_1.bin" = true.
Proof.
  cbv zeta.
  assert (Hend : fst (Ping.main 5 (Some []) empty_fs no_write_world)
                 = Some (1%Z, sample_fs "ipc_server_1.bin"
                                {| h_seek_ok := true; h_read_ok := true; h_write_cap := None;
                                   h_rdwr_ok := true; h_bytes := [] |}))
    by (vm_compute; reflexivity).
  split; [exact Hend|].
  refine (proj2 (X9_failed_start_leaves_file 5 (Some []) empty_fs no_write_world 1 _
                   _ _ Hend _ _ _ _ _)); try reflexivity.
  discriminate.
Defined.

(** ** What the ping client writes *)

Lemma silent_ret {A} (a : A) : silent (mret a).
Proof. intros w. reflexivity. Qed.

Lemma silent_bind {A B} (m : M A) (k : A -> M B) :
  silent m -> (forall a, silent (k a)) -> silent (m ≫= k).
Proof.
  intros Hm Hk w. rewrite bind_run. specialize (Hm w).
  destruct (m w) as [a w1]. cbn [snd] in Hm. rewrite Hk. exact Hm.
Qed.

Lemma silent_load_running : silent load_running.
Proof. intros w. rewrite load_running_run. cbn [snd]. rewrite tick_trace. reflexivity. Qed.

Lemma silent_steady_now : silent steady_now.
Proof. intros w. rewrite steady_now_run. cbn [snd]. rewrite tick_trace. reflexivity. Qed.

Lemma silent_sleep_for ms : silent (sleep_for ms).
Proof.
  intros w. rewrite sleep_for_run. cbn [snd]. autorewrite with trace.
  rewrite written_app. apply app_nil_r.
Qed.

Lemma silent_print line : silent (print line).
Proof.
  intros w. rewrite print_run. cbn [snd]. autorewrite with trace.
  rewrite written_app. apply app_nil_r.
Qed.

Lemma written_print line w : written (w_trace (emit (EvPrint line) w)) = written (w_trace w).
Proof. apply (silent_print line w). Qed.

Lemma silent_store_running b : silent (store_running b).
Proof. intros w. reflexivity. Qed.

Lemma Ping_silent_read msg : silent (Ping.io_readMessage msg).
Proof. intros w. rewrite Ping_io_readMessage_run. cbn [snd]. rewrite tick_trace. reflexivity. Qed.

Ltac silent_step :=
  first
    [ apply silent_ret
    | apply silent_load_running
    | apply silent_steady_now
    | apply silent_sleep_for
    | apply silent_print
    | apply silent_store_running
    | apply Ping_silent_read
    | apply silent_bind; [|intros ?]
    | match goal with |- silent (let '(_, _) := ?p in _) => destruct p end
    | match goal with |- silent (if ?b then _ else _) => destruct b end ].

Lemma Ping_silent_wait_for_free fuel :
  forall waitAttempts msg, silent (Ping.wait_for_free fuel waitAttempts msg).
Proof.
  induction fuel as [|fuel IH]; intros waitAttempts msg; cbn [Ping.wait_for_free].
  - apply silent_ret.
  - repeat (apply IH || silent_step).
Qed.

Lemma Ping_silent_await_response fuel :
  forall start currentClientId msg,
    silent (Ping.await_response fuel start currentClientId msg).
Proof.
  induction fuel as [|fuel IH]; intros start currentClientId msg; cbn [Ping.await_response].
  - apply silent_ret.
  - repeat (apply IH || silent_step).
Qed.

Lemma Ping_written_write msg w :
  written (w_trace (snd (Ping.io_writeMessage msg w))) = written (w_trace w) ++ [Ping.encode msg].
Proof.
  rewrite Ping_io_writeMessage_run. cbn [snd]. autorewrite with trace.
  rewrite written_app. reflexivity.
Qed.

(** X10. In one exchange the ping client hands at most two records to
    [writeMessage], whatever happens around it: none when it reports the
    server busy, its REQUEST alone when sending fails, and otherwise its
    REQUEST followed by the FREE record that bears the id it then has, after
    a timeout as well as after a response. It never writes a RESPONSE. *)
Theorem X10_exchange_writes (fuel : nat) (command : string) (currentClientId : Z) (w : World) :
  let r := Ping.ping_exchange fuel command currentClientId w in
  let before := written (w_trace w) in
  let request := Ping.encode (Ping.request_Message currentClientId command) in
  match fst r with
  | Some (Ping.Busy, id) =>
      id = currentClientId /\ written (w_trace (snd r)) = before
  | Some (Ping.SendFailed, id) =>
      id = currentClientId /\ written (w_trace (snd r)) = before ++ [request]
  | Some (Ping.TimedOut, id) | Some (Ping.Completed _, id) =>
      written (w_trace (snd r))
      = before ++ [request; Ping.encode (Ping.free_Message id)]
  | None =>
      written (w_trace (snd r)) = before \/ written (w_trace (snd r)) = before ++ [request]
  end.
Proof.
  cbv zeta. unfold Ping.ping_exchange, Ping.receive. rewrite bind_run.
  pose proof (Ping_silent_wait_for_free fuel 0 Ping.zero_Message w) as Hwait.
  destruct (Ping.wait_for_free fuel 0 Ping.zero_Message w) as [[[waitAttempts msg1]|] w1];
    cbn [fst snd] in *; [|unfold mret, M_ret; cbn [fst snd]; left; exact Hwait].
  destruct (Ping.MAX_WAIT_ATTEMPTS <=? waitAttempts)%Z.
  { rewrite bind_run, print_run. unfold mret, M_ret. cbn [fst snd].
    split; [reflexivity|]. rewrite written_print. exact Hwait. }
  rewrite bind_run.
  pose proof (Ping_written_write (Ping.request_Message currentClientId command) w1) as Hsent.
  rewrite Hwait in Hsent.
  destruct (Ping.io_writeMessage (Ping.request_Message currentClientId command) w1) as [ok w2].
  cbn [snd] in Hsent. destruct ok; cbn [negb].
  2: { rewrite bind_run, print_run. unfold mret, M_ret. cbn [fst snd].
       split; [reflexivity|]. rewrite written_print. exact Hsent. }
  rewrite bind_run, steady_now_run, bind_run.
  match goal with
  | |- context [Ping.await_response fuel ?start ?c ?m ?w3] =>
      pose proof (Ping_silent_await_response fuel start c m w3) as Hawait;
      destruct (Ping.await_response fuel start c m w3) as [[[[[timeout got] id] m']|] w4]
  end; cbn [fst snd] in *; rewrite tick_trace in Hawait.
  2: { unfold mret, M_ret. cbn [fst snd]. right. rewrite Hawait. exact Hsent. }
  destruct timeout.
  - rewrite bind_run, print_run, bind_run.
    pose proof (Ping_written_write (Ping.free_Message id)
                  (emit (EvPrint "Timeout waiting for response.") w4)) as Hfree.
    destruct (Ping.io_writeMessage _ _) as [ok w5]. unfold mret, M_ret. cbn [fst snd] in *.
    rewrite Hfree, written_print, Hawait, Hsent, <- app_assoc. reflexivity.
  - rewrite bind_run.
    assert (Hprinted : exists w5,
               (if got && negb (Ascii.eqb (nth 0 (Ping.data m') NUL) NUL)
                then print ("Response: " +:+ c_str (Ping.data m')) else mret tt) w4 = (tt, w5)
               /\ written (w_trace w5) = written (w_trace w4)).
    { destruct (got && negb (Ascii.eqb (nth 0 (Ping.data m') NUL) NUL)).
      - eexists. split; [apply print_run|]. apply written_print.
      - exists w4. split; reflexivity. }
    destruct Hprinted as (w5 & -> & Hprinted). rewrite bind_run.
    pose proof (Ping_written_write (Ping.free_Message id) w5) as Hfree.
    destruct (Ping.io_writeMessage _ _) as [ok w6]. unfold mret, M_ret. cbn [fst snd] in *.
    rewrite Hfree, Hprinted, Hawait, Hsent, <- app_assoc. reflexivity.
Qed.

Lemma Ping_await_response_id fuel :
  forall start currentClientId msg w timeout got id m,
    fst (Ping.await_response fuel start currentClientId msg w) = Some (timeout, got, id, m) ->
    id = currentClientId
    \/ (currentClientId = 0%Z /\ (0 < id)%Z /\ timeout = false /\ got = true
        /\ Ping.status m = 2%Z /\ Ping.client_id m = id).
Proof.
  induction fuel as [|fuel IH]; intros start currentClientId msg w timeout got id m;
    [discriminate|].
  cbn [Ping.await_response]. rewrite bind_run, load_running_run.
  destruct (w_running (tick w)); cbn [negb];
    [|unfold mret, M_ret; cbn [fst]; intros [= _ _ <- _]; left; reflexivity].
  rewrite bind_run, Ping_io_readMessage_run.
  destruct (Ping.readMessage _ msg) as [ok msg1].
  destruct ok; cbn [negb];
    [|unfold mret, M_ret; cbn [fst]; intros [= _ _ <- _]; left; reflexivity].
  destruct (Z.eqb_spec (Ping.status msg1) 2) as [Hstatus|_].
  - destruct (Z.ltb_spec 0 (Ping.client_id msg1)) as [Hpos|_]; cbn [andb].
    + destruct (Z.eqb_spec currentClientId 0) as [Hzero|_].
      * rewrite bind_run, print_run. unfold mret, M_ret. cbn [fst].
        intros [= <- <- <- <-]. right. auto 10.
      * unfold mret, M_ret. cbn [fst]. intros [= _ _ <- _]. left. reflexivity.
    + unfold mret, M_ret. cbn [fst]. intros [= _ _ <- _]. left. reflexivity.
  - rewrite bind_run, steady_now_run.
    destruct (5000 <? _)%Z.
    + unfold mret, M_ret. cbn [fst]. intros [= _ _ <- _]. left. reflexivity.
    + rewrite bind_run, sleep_for_run. apply IH.
Qed.

(** X11. An exchange never changes a client id the client already has: the
    id after the exchange is the id before it, except that a client without
    id (0) takes the positive id it reads in a RESPONSE, and only in an
    exchange that ends with a response. *)
Theorem X11_client_id_kept (fuel : nat) (command : string) (currentClientId : Z) (w : World)
    (outcome : Ping.Outcome) (id : Z) :
  fst (Ping.ping_exchange fuel command currentClientId w) = Some (outcome, id) ->
  id = currentClientId
  \/ (currentClientId = 0%Z /\ (0 < id)%Z /\ outcome = Ping.Completed true).
Proof.
  unfold Ping.ping_exchange, Ping.receive. rewrite bind_run.
  destruct (Ping.wait_for_free fuel 0 Ping.zero_Message w) as [[[waitAttempts msg1]|] w1];
    [|discriminate].
  destruct (Ping.MAX_WAIT_ATTEMPTS <=? waitAttempts)%Z.
  { rewrite bind_run, print_run. unfold mret, M_ret. cbn [fst]. intros [= _ <-]. auto. }
  rewrite bind_run.
  destruct (Ping.io_writeMessage (Ping.request_Message currentClientId command) w1) as [ok w2].
  destruct ok; cbn [negb].
  2: { rewrite bind_run, print_run. unfold mret, M_ret. cbn [fst]. intros [= _ <-]. auto. }
  rewrite bind_run, steady_now_run, bind_run.
  match goal with
  | |- context [Ping.await_response fuel ?start ?c ?m ?w3] =>
      pose proof (Ping_await_response_id fuel start c m w3) as Hawait;
      destruct (Ping.await_response fuel start c m w3) as [[[[[timeout got] id'] m']|] w4]
  end; cbn [fst] in Hawait; [|discriminate].
  specialize (Hawait _ _ _ _ eq_refl).
  destruct timeout.
  - rewrite bind_run, print_run, bind_run.
    destruct (Ping.io_writeMessage _ _) as [ok w5]. unfold mret, M_ret. cbn [fst].
    intros [= _ <-]. destruct Hawait as [Hid|(_ & _ & Hto & _)]; [auto|discriminate].
  - rewrite bind_run.
    destruct ((if got && negb (Ascii.eqb (nth 0 (Ping.data m') NUL) NUL)
               then print ("Response: " +:+ c_str (Ping.data m')) else mret tt) w4) as [[] w5].
    rewrite bind_run.
    destruct (Ping.io_writeMessage _ _) as [ok w6]. unfold mret, M_ret. cbn [fst].
    intros [= <- <-]. destruct Hawait as [Hid|(Hzero & Hpos & _ & -> & _)]; auto.
Qed.

Lemma X11_client_id_kept_witness :
  (1 = 0 \/ (0 = 0 /\ 0 < 1 /\ Ping.Completed true = Ping.Completed true))%Z.
Proof.
  apply (X11_client_id_kept 60 "ping" 0 first_contact_world (Ping.Completed true) 1).
  vm_compute. reflexivity.
Defined.

Lemma emit_running e w : w_running (emit e w) = w_running w.
Proof. reflexivity. Qed.

Lemma set_mailbox_running h w : w_running (set_mailbox h w) = w_running w.
Proof. reflexivity. Qed.

Lemma ping_exchange_stopped fuel command currentClientId w :
  w_running (tick w) = false ->
  Ping.ping_exchange (S fuel) command currentClientId w
  = let sending := Ping.io_writeMessage (Ping.request_Message currentClientId command) (tick w) in
    if fst sending
    then (Some (Ping.Completed false, currentClientId),
          snd (Ping.io_writeMessage (Ping.free_Message currentClientId)
                 (tick (tick (snd sending)))))
    else (Some (Ping.SendFailed, currentClientId),
          emit (EvPrint "Failed to send ping.") (snd sending)).
Proof.
  intros Hdown. cbv zeta.
  unfold Ping.ping_exchange, Ping.receive. rewrite bind_run.
  cbn [Ping.wait_for_free]. rewrite bind_run, load_running_run, Hdown. cbn [andb negb].
  unfold mret at 1, M_ret at 1.
  change (Ping.MAX_WAIT_ATTEMPTS <=? 0)%Z with false. cbv iota.
  rewrite bind_run.
  assert (Hdown' : w_running
                     (tick (tick (snd (Ping.io_writeMessage
                                         (Ping.request_Message currentClientId command)
                                         (tick w))))) = false).
  { rewrite Ping_io_writeMessage_run. cbn [snd]. do 2 apply tick_running_false.
    rewrite emit_running, set_mailbox_running. apply tick_running_false, Hdown. }
  destruct (Ping.io_writeMessage (Ping.request_Message currentClientId command) (tick w))
    as [ok w2]. cbn [fst snd] in *.
  destruct ok; cbn [negb].
  - rewrite bind_run, steady_now_run, bind_run.
    cbn [Ping.await_response]. rewrite bind_run, load_running_run, Hdown'. cbn [negb].
    unfold mret at 1, M_ret at 1. cbn [andb].
    rewrite bind_run. unfold mret at 1, M_ret at 1. rewrite bind_run.
    destruct (Ping.io_writeMessage (Ping.free_Message currentClientId) (tick (tick w2))).
    reflexivity.
  - rewrite bind_run, print_run. reflexivity.
Qed.

(** X12. A ping client whose [running] flag is found down at the first
    look of its wait for a free mailbox does not leave the exchange there:
    without having read the mailbox it overwrites it with its REQUEST, and,
    when that write succeeds, with the FREE record right after, waiting for
    no response. *)
Theorem X12_stopped_client_still_writes (fuel : nat) (command : string) (currentClientId : Z)
    (w : World) :
  (0 < fuel)%nat ->
  w_running (tick w) = false ->
  let r := Ping.ping_exchange fuel command currentClientId w in
  let request := Ping.request_Message currentClientId command in
  let sent := fst (Ping.writeMessage (w_mailbox (tick (tick w))) request) in
  fst r = Some (if sent then Ping.Completed false else Ping.SendFailed, currentClientId)
  /\ written (w_trace (snd r))
     = written (w_trace w)
       ++ Ping.encode request
          :: (if sent then [Ping.encode (Ping.free_Message currentClientId)] else []).
Proof.
  intros Hfuel Hdown. cbv zeta. destruct fuel as [|fuel]; [lia|].
  rewrite (ping_exchange_stopped fuel command currentClientId w Hdown). cbv zeta.
  pose proof (Ping_written_write (Ping.request_Message currentClientId command) (tick w))
    as Hsent.
  rewrite (Ping_io_writeMessage_run _ (tick w)) in *. cbn [fst snd] in *.
  rewrite tick_trace in Hsent.
  destruct (fst (Ping.writeMessage (w_mailbox (tick (tick w)))
                   (Ping.request_Message currentClientId command))); cbn [fst snd].
  - split; [reflexivity|]. rewrite Ping_written_write, !tick_trace, Hsent, <- app_assoc.
    reflexivity.
  - split; [reflexivity|]. rewrite written_print. exact Hsent.
Qed.

Lemma X12_stopped_client_still_writes_witness :
  let w := {| w_mailbox := healthy (Ping.encode (Ping.request_Message 3 "ping"));
              w_now := 0; w_running := true; w_trace := []; w_env := [signal] |} in
  written (w_trace (snd (Ping.ping_exchange 60 "ping" 4 w)))
  = [Ping.encode (Ping.request_Message 4 "ping"); Ping.encode (Ping.free_Message 4)].
Proof.
  cbv zeta.
  apply (proj2 (X12_stopped_client_still_writes 60 "ping" 4
                  {| w_mailbox := healthy (Ping.encode (Ping.request_Message 3 "ping"));
                     w_now := 0; w_running := true; w_trace := []; w_env := [signal] |}
                  ltac:(lia) eq_refl)).
Defined.

(** ** The connection check of the ping client *)

Lemma io_open_run w : io_open w = (h_rdwr_ok (w_mailbox (tick w)), tick w).
Proof. reflexivity. Qed.

Lemma silent_io_open : silent io_open.
Proof. intros w. rewrite io_open_run. cbn [snd]. rewrite tick_trace. reflexivity. Qed.

Lemma Ping_silent_probe_response fuel :
  forall start msg, silent (Ping.probe_response fuel start msg).
Proof.
  induction fuel as [|fuel IH]; intros start msg; cbn [Ping.probe_response].
  - apply silent_ret.
  - repeat (apply IH || silent_step).
Qed.

(** X13. The connection check [isConnectedToServer] tells "connected" only
    after it has written a ping REQUEST of its own and then the FREE record;
    when it tells "not connected" it has written nothing, or its REQUEST
    alone, which it does not take back. *)
Theorem X13_connection_check_writes (fuel : nat) (currentClientId : Z) (w : World) :
  let r := Ping.isConnectedToServer fuel currentClientId w in
  let before := written (w_trace w) in
  let request := Ping.encode (Ping.request_Message currentClientId "ping") in
  match fst r with
  | Some true =>
      written (w_trace (snd r))
      = before ++ [request; Ping.encode (Ping.free_Message currentClientId)]
  | Some false =>
      written (w_trace (snd r)) = before \/ written (w_trace (snd r)) = before ++ [request]
  | None => written (w_trace (snd r)) = before ++ [request]
  end.
Proof.
  cbv zeta. unfold Ping.isConnectedToServer. rewrite bind_run, io_open_run.
  destruct (h_rdwr_ok (w_mailbox (tick w))); cbn [negb].
  2: { unfold mret, M_ret. cbn [fst snd]. rewrite tick_trace. left. reflexivity. }
  rewrite bind_run, Ping_io_readMessage_run.
  destruct (Ping.readMessage (w_mailbox (tick (tick w))) Ping.zero_Message) as [ok msg].
  destruct (ok && (Ping.status msg =? 0)%Z).
  2: { unfold mret, M_ret. cbn [fst snd]. rewrite !tick_trace. left. reflexivity. }
  rewrite bind_run.
  fold (Ping.request_Message currentClientId "ping").
  pose proof (Ping_written_write (Ping.request_Message currentClientId "ping") (tick (tick w)))
    as Hsent.
  rewrite !tick_trace in Hsent.
  destruct (Ping.io_writeMessage (Ping.request_Message currentClientId "ping") (tick (tick w)))
    as [sent w1]. cbn [snd] in Hsent.
  destruct sent; cbn [negb].
  2: { unfold mret, M_ret. cbn [fst snd]. right. exact Hsent. }
  rewrite bind_run, steady_now_run, bind_run.
  match goal with
  | |- context [Ping.probe_response fuel ?start ?m ?w2] =>
      pose proof (Ping_silent_probe_response fuel start m w2) as Hprobe;
      destruct (Ping.probe_response fuel start m w2) as [[connected|] w3]
  end; cbn [fst snd] in *; rewrite tick_trace in Hprobe.
  2: { unfold mret, M_ret. cbn [fst snd]. rewrite Hprobe. exact Hsent. }
  destruct connected.
  - rewrite bind_run.
    pose proof (Ping_written_write (Ping.free_Message currentClientId) w3) as Hfree.
    destruct (Ping.io_writeMessage (Ping.free_Message currentClientId) w3) as [ok' w4].
    unfold mret, M_ret. cbn [fst snd] in *.
    rewrite Hfree, Hprobe, Hsent, <- app_assoc. reflexivity.
  - unfold mret, M_ret. cbn [fst snd]. right. rewrite Hprobe. exact Hsent.
Qed.

Lemma tick_alone w : w_env w = [] -> tick w = w.
Proof. intros H. unfold tick. rewrite H. reflexivity. Qed.

Lemma probe_response_alone fuel :
  forall start msg w,
    alone w ->
    mailbox_status (w_mailbox w) = Some 1%Z ->
    (0 < fuel)%nat ->
    (500 < w_now w - start + 50 * (Z.of_nat fuel - 1))%Z ->
    exists w',
      Ping.probe_response fuel start msg w = (Some false, w')
      /\ alone w' /\ w_mailbox w' = w_mailbox w.
Proof.
  induction fuel as [|fuel IH]; intros start msg w [Henv Hrun] Hstatus Hpos Hfuel; [lia|].
  cbn [Ping.probe_response]. rewrite bind_run, load_running_run, (tick_alone w Henv), Hrun.
  cbn [negb]. rewrite bind_run, Ping_io_readMessage_run, (tick_alone w Henv).
  destruct (mailbox_status_Some _ _ msg Hstatus) as (m & -> & Hm).
  cbn [negb]. rewrite Hm. change (1 =? 2)%Z with false. cbv iota.
  rewrite bind_run, steady_now_run, (tick_alone w Henv).
  destruct (Z.ltb_spec 500 (w_now w - start)) as [_|Hearly].
  - exists w. split; [reflexivity|]. split; [split; assumption|reflexivity].
  - rewrite bind_run, sleep_for_run, (tick_alone w Henv).
    destruct (IH start m (emit (EvSleep 50) (advance 50 w))) as (w' & Heq & Halone & Hfd).
    + split; assumption.
    + exact Hstatus.
    + lia.
    + cbn [emit advance w_now]. lia.
    + exists w'. split; [exact Heq|]. split; [exact Halone|]. rewrite Hfd. reflexivity.
Qed.

Lemma busy_for_alone n :
  forall w, alone w -> mailbox_status (w_mailbox w) = Some 1%Z -> busy_for n w = true.
Proof.
  induction n as [|n IH]; intros w [Henv Hrun] Hstatus; [reflexivity|].
  cbn [busy_for]. unfold busy_poll, after_poll.
  rewrite sleep_for_run, !(tick_alone w Henv), Hrun, Hstatus. cbn [andb snd].
  change (1 =? 1)%Z with true. cbv iota. apply IH; [split; assumption|exact Hstatus].
Qed.

(** X14. A connection check made while no server looks at the mailbox does
    harm: the client, alone with a FREE mailbox it can write, leaves its
    probe REQUEST in it and reports "not connected"; the ping it tries next
    finds the mailbox busy at each of its five looks and ends with "Server
    is busy". *)
Theorem X14_check_without_server_blocks
    (fuel fuel' : nat) (command : string) (currentClientId : Z) (w : World) (k : nat) :
  alone w ->
  h_rdwr_ok (w_mailbox w) = true ->
  mailbox_status (w_mailbox w) = Some 0%Z ->
  h_write_cap (w_mailbox w) = Some k -> (Ping.sizeof_Message <= k)%nat ->
  in_int_range currentClientId = true ->
  (12 <= fuel)%nat -> (6 <= fuel')%nat ->
  let r := Ping.isConnectedToServer fuel currentClientId w in
  fst r = Some false
  /\ mailbox_status (w_mailbox (snd r)) = Some 1%Z
  /\ fst (Ping.ping_exchange fuel' command currentClientId (snd r))
     = Some (Ping.Busy, currentClientId).
Proof.
  intros [Henv Hrun] Hopen Hfree Hcap Hk Hid Hfuel Hfuel'. cbv zeta.
  unfold in_int_range in Hid. apply andb_true_iff in Hid as [Hlo Hhi].
  apply Z.leb_le in Hlo, Hhi.
  unfold Ping.isConnectedToServer.
  rewrite bind_run, io_open_run, (tick_alone w Henv), Hopen. cbn [negb].
  rewrite bind_run, Ping_io_readMessage_run, (tick_alone w Henv).
  destruct (mailbox_status_Some _ _ Ping.zero_Message Hfree) as (m & Hread & Hm).
  rewrite Hread, Hm. cbn [andb]. change (0 =? 0)%Z with true. cbv iota.
  rewrite bind_run, Ping_io_writeMessage_run, (tick_alone w Henv).
  fold (Ping.request_Message currentClientId "ping").
  set (request := Ping.request_Message currentClientId "ping").
  assert (Hseek : h_seek_ok (w_mailbox w) = true /\ h_read_ok (w_mailbox w) = true).
  { revert Hread. unfold Ping.readMessage, lseek, read.
    destruct (h_seek_ok (w_mailbox w)); [|discriminate].
    destruct (h_read_ok (w_mailbox w)); [auto|discriminate]. }
  destruct Hseek as [Hseek Hreadable].
  assert (Hsent : fst (Ping.writeMessage (w_mailbox w) request) = true).
  { unfold Ping.writeMessage, lseek, write. rewrite Hseek, Hcap. cbn [Z.eqb fst snd].
    rewrite length_take, Ping_encode_length.
    replace (k `min` Ping.sizeof_Message)%nat with Ping.sizeof_Message by lia.
    reflexivity. }
  rewrite Hsent. cbn [negb].
  assert (Hbusy : mailbox_status (snd (Ping.writeMessage (w_mailbox w) request)) = Some 1%Z).
  { unfold mailbox_status.
    rewrite (Ping_write_then_read (w_mailbox w) request Ping.zero_Message);
      [reflexivity|unfold INT_MIN, INT_MAX; cbn; lia
       |cbn [Ping.client_id request Ping.request_Message]; lia
       |apply store_text_length|exact Hsent|exact Hreadable]. }
  set (w1 := emit (EvWriteMessage (Ping.encode request) true)
               (set_mailbox (snd (Ping.writeMessage (w_mailbox w) request)) w)).
  assert (Halone1 : alone w1) by (split; assumption).
  rewrite bind_run, steady_now_run, (tick_alone w1 (proj1 Halone1)), bind_run.
  destruct (probe_response_alone fuel (w_now w1) m w1 Halone1 Hbusy) as (w2 & -> & Halone2 & Hfd);
    [lia|lia|].
  unfold mret, M_ret. cbn [fst snd].
  split; [reflexivity|]. rewrite Hfd. split; [exact Hbusy|].
  replace fuel' with (5 + S (fuel' - 6))%nat by lia.
  rewrite ping_exchange_busy; [reflexivity|].
  apply busy_for_alone; [exact Halone2|]. rewrite Hfd. exact Hbusy.
Qed.

Lemma X14_check_without_server_blocks_witness :
  let w := quiet_world (healthy (Ping.encode Ping.zero_Message)) in
  let r := Ping.isConnectedToServer 12 0 w in
  fst r = Some false
  /\ mailbox_status (w_mailbox (snd r)) = Some 1%Z
  /\ fst (Ping.ping_exchange 6 "ping" 0 (snd r)) = Some (Ping.Busy, 0%Z).
Proof.
  cbv zeta.
  apply (X14_check_without_server_blocks 12 6 "ping" 0
           (quiet_world (healthy (Ping.encode Ping.zero_Message))) 4096);
    try reflexivity; try (split; reflexivity); unfold Ping.sizeof_Message; lia.
Defined.

(** ** The commands of the ping client *)

Lemma same_letter_p c : same_letter c "p" = true -> c = "p"%char \/ c = "P"%char.
Proof. destruct c as [[] [] [] [] [] [] [] []]; cbn; intros H; try discriminate H; auto. Qed.

Lemma same_letter_i c : same_letter c "i" = true -> c = "i"%char \/ c = "I"%char.
Proof. destruct c as [[] [] [] [] [] [] [] []]; cbn; intros H; try discriminate H; auto. Qed.

Lemma same_letter_n c : same_letter c "n" = true -> c = "n"%char \/ c = "N"%char.
Proof. destruct c as [[] [] [] [] [] [] [] []]; cbn; intros H; try discriminate H; auto. Qed.

Lemma same_letter_g c : same_letter c "g" = true -> c = "g"%char \/ c = "G"%char.
Proof. destruct c as [[] [] [] [] [] [] [] []]; cbn; intros H; try discriminate H; auto. Qed.

(** What the client lets through as a ping, the server accepts as one. *)
Lemma lowered_ping_is_valid input :
  String.eqb (transform tolower input) "ping" = true ->
  Ping.isValidPingRequest (store_text input) = true.
Proof.
  rewrite lowered_is_ping.
  destruct input as [|c1 [|c2 [|c3 [|c4 [|c5 s]]]]]; cbn [equal_ignoring_case];
    rewrite ?andb_false_r; try discriminate.
  rewrite andb_true_r. intros H.
  apply andb_true_iff in H as [H1 H]. apply andb_true_iff in H as [H2 H].
  apply andb_true_iff in H as [H3 H4].
  destruct (same_letter_p _ H1) as [->| ->], (same_letter_i _ H2) as [->| ->],
           (same_letter_n _ H3) as [->| ->], (same_letter_g _ H4) as [->| ->];
    vm_compute; reflexivity.
Qed.

Lemma store_running_run b w :
  store_running b w
  = (tt, {| w_mailbox := w_mailbox w; w_now := w_now w; w_running := b;
            w_trace := w_trace w; w_env := w_env w |}).
Proof. reflexivity. Qed.


(** X15. Whatever is typed, [getInputFromUser] hands [main] only one of four
    things: the empty string, with the [running] flag taken down ("exit");
    CONNECT; DISCONNECT; or, when the client has a current file, a text that
    the server's [isValidPingRequest] accepts once it is stored in the
    payload. *)
Theorem X15_commands_handed_on (fuel : nat) (currentFile : string) (currentClientId : Z)
    (stdin : Stdin) (w : World) (command : string) (rest : Stdin) :
  fst (Ping.getInputFromUser fuel currentFile currentClientId stdin w) = Some (command, rest) ->
  (command = EmptyString
   /\ w_running (snd (Ping.getInputFromUser fuel currentFile currentClientId stdin w)) = false)
  \/ command = "CONNECT"%string
  \/ command = "DISCONNECT"%string
  \/ (currentFile <> EmptyString
      /\ Ping.isValidPingRequest (store_text command) = true).
Proof.
  unfold Ping.getInputFromUser.
  enough (Hloop : forall input0 stdin w,
             fst (Ping.getInputFromUser_loop fuel currentFile currentClientId input0 stdin w)
             = Some (command, rest) ->
             (command = EmptyString
              /\ w_running (snd (Ping.getInputFromUser_loop fuel currentFile currentClientId
                                   input0 stdin w)) = false)
             \/ command = "CONNECT"%string
             \/ command = "DISCONNECT"%string
             \/ (currentFile <> EmptyString
                 /\ Ping.isValidPingRequest (store_text command) = true))
    by apply Hloop.
  clear stdin w. induction fuel as [|fuel IH]; intros input0 stdin w; [discriminate|].
  cbn [Ping.getInputFromUser_loop]. rewrite bind_run, print_run.
  destruct (getline input0 stdin) as [input stdin'].
  destruct (String.eqb input EmptyString).
  { rewrite bind_run, print_run. apply IH. }
  destruct (String.eqb (transform tolower input) "exit").
  { rewrite bind_run, store_running_run. unfold mret, M_ret. cbn [fst snd w_running].
    intros [= <- _]. left. auto. }
  destruct (String.eqb (transform tolower input) "status").
  { rewrite bind_run.
    destruct (Ping.showConnectionStatus (S fuel) currentFile currentClientId _) as [[[]|] w1];
      [apply IH|discriminate]. }
  destruct (String.eqb (transform tolower input) "connect").
  { unfold mret, M_ret. cbn [fst]. intros [= <- _]. auto. }
  destruct (String.eqb (transform tolower input) "disconnect").
  { unfold mret, M_ret. cbn [fst]. intros [= <- _]. auto. }
  destruct (String.eqb (transform tolower input) "ping") eqn:Hping; cbn [negb].
  2: { rewrite bind_run, print_run. apply IH. }
  destruct (String.eqb_spec currentFile EmptyString) as [|Hfile].
  { rewrite bind_run, print_run. apply IH. }
  unfold mret, M_ret. cbn [fst]. intros [= <- _].
  right. right. right. split; [exact Hfile|]. apply lowered_ping_is_valid, Hping.
Qed.

Lemma X15_commands_handed_on_witness :
  Ping.isValidPingRequest (store_text "PiNg") = true.
Proof.
  destruct (X15_commands_handed_on 5 "ipc_server_1.bin" 0
              (typed_lines [""; "pong"; "PiNg"; "exit"]%string)
              (quiet_world (healthy [])) "PiNg" (typed_lines ["exit"]%string)
              ltac:(vm_compute; reflexivity))
    as [[H _]|[H|[H|[_ H]]]]; [discriminate H|discriminate H|discriminate H|exact H].
Defined.





(** ** The order of the directory entries *)

Lemma max_fold_unique entries entries' acc :
  entries ≡ₚ entries' ->
  fold_left max_step entries acc = fold_left max_step entries' acc.
Proof.
  intros Hperm.
  destruct (max_fold_bounds entries acc) as (Hle & Hall & Hwit).
  destruct (max_fold_bounds entries' acc) as (Hle' & Hall' & Hwit').
  apply Z.le_antisymm.
  - destruct Hwit as [->|(e & Hin & He)]; [exact Hle'|].
    apply (Hall' e); [|exact He].
    apply (Permutation_in _ Hperm). exact Hin.
  - destruct Hwit' as [->|(e & Hin & He)]; [exact Hle|].
    apply (Hall e); [|exact He].
    apply (Permutation_in _ (Permutation_sym Hperm)). exact Hin.
Qed.

(** X17. The number and the file a starting server takes do not depend on
    the order in which the directory delivers its entries. *)
Theorem X17_directory_order_irrelevant (entries entries' : list string) (fs : FS) :
  entries ≡ₚ entries' ->
  Ping.findMaxServerNumber (Some entries) = Ping.findMaxServerNumber (Some entries')
  /\ Ping.start_server (Some entries) fs = Ping.start_server (Some entries') fs.
Proof.
  intros Hperm.
  assert (Hmax : Ping.findMaxServerNumber (Some entries)
                 = Ping.findMaxServerNumber (Some entries'))
    by (rewrite !findMaxServerNumber_fold; apply max_fold_unique, Hperm).
  split; [exact Hmax|]. unfold Ping.start_server. rewrite Hmax. reflexivity.
Qed.

Lemma X17_directory_order_irrelevant_witness :
  Ping.findMaxServerNumber (Some ["ipc_server_2.bin"; "ipc_server_10.bin"; "a.txt"]%string)
  = Ping.findMaxServerNumber (Some ["a.txt"; "ipc_server_10.bin"; "ipc_server_2.bin"]%string).
Proof.
  apply (proj1 (X17_directory_order_irrelevant
                  ["ipc_server_2.bin"; "ipc_server_10.bin"; "a.txt"]%string
                  ["a.txt"; "ipc_server_10.bin"; "ipc_server_2.bin"]%string empty_fs
                  ltac:(rewrite (Permutation_swap "ipc_server_10.bin"%string
                                   "ipc_server_2.bin"%string ["a.txt"%string]);
                        apply (Permutation_app_comm
                                 ["ipc_server_10.bin"; "ipc_server_2.bin"]%string
                                 ["a.txt"%string])))).
Defined.

Lemma List_filter_perm {A} (f : A -> bool) l l' :
  l ≡ₚ l' -> List.filter f l ≡ₚ List.filter f l'.
Proof.
  induction 1 as [|x l l' _ IH|x y l|l l' l'' _ IH1 _ IH2]; cbn [List.filter].
  - reflexivity.
  - destruct (f x); [constructor|]; exact IH.
  - destruct (f x), (f y); try reflexivity. apply Permutation_swap.
  - etrans; eassumption.
Qed.

(** X18. When every server file of the directory bears a number and no two
    of them the same one, the list of candidates, and with it the server the
    client connects to, does not depend on the order in which the directory
    delivers its entries. *)
Theorem X18_discovery_order_irrelevant (entries entries' : list string) (fs : FS) :
  entries ≡ₚ entries' ->
  (forall name, In name entries -> Ping.is_server_file name = true ->
                is_Some (file_number name)) ->
  (forall a b, In a entries -> In b entries ->
               Ping.is_server_file a = true -> Ping.is_server_file b = true ->
               file_number a = file_number b -> a = b) ->
  Ping.findServerFiles (Some entries) = Ping.findServerFiles (Some entries')
  /\ Ping.autoConnectToServer (Some entries) fs = Ping.autoConnectToServer (Some entries') fs.
Proof.
  intros Hperm Hnum Hdistinct.
  assert (Hnum' : forall name, In name entries' -> Ping.is_server_file name = true ->
                               is_Some (file_number name)).
  { intros name Hin. apply Hnum. apply (Permutation_in _ (Permutation_sym Hperm)), Hin. }
  assert (Hmem : forall l name, In name (Ping.findServerFiles (Some l)) ->
                                In name l /\ Ping.is_server_file name = true).
  { intros l name Hin. apply filter_In.
    apply (Permutation_in _ (sort_perm Ping.newer_first _)). exact Hin. }
  assert (Heq : Ping.findServerFiles (Some entries) = Ping.findServerFiles (Some entries')).
  { apply (StronglySorted_unique_strong newer_or_same).
    - intros a b Ha Hb Hab Hba.
      apply list_elem_of_In, Hmem in Ha as [Ha Hfa].
      apply list_elem_of_In, Hmem in Hb as [Hb Hfb].
      apply (Permutation_in _ (Permutation_sym Hperm)) in Hb.
      apply Hdistinct; try assumption.
      unfold newer_or_same in Hab, Hba.
      destruct (file_number a), (file_number b); try contradiction.
      f_equal. lia.
    - apply findServerFiles_sorted, Hnum.
    - apply findServerFiles_sorted, Hnum'.
    - unfold Ping.findServerFiles. rewrite !sort_perm. apply List_filter_perm, Hperm. }
  split; [exact Heq|]. unfold Ping.autoConnectToServer. rewrite Heq. reflexivity.
Qed.

Lemma X18_discovery_order_irrelevant_witness :
  Ping.findServerFiles (Some ["ipc_server_3.bin"; "notes.txt"; "ipc_server_7.bin"]%string)
  = Ping.findServerFiles (Some ["ipc_server_7.bin"; "notes.txt"; "ipc_server_3.bin"]%string).
Proof.
  apply (proj1 (X18_discovery_order_irrelevant
                  ["ipc_server_3.bin"; "notes.txt"; "ipc_server_7.bin"]%string
                  ["ipc_server_7.bin"; "notes.txt"; "ipc_server_3.bin"]%string empty_fs
                  (Permutation_rev ["ipc_server_3.bin"; "notes.txt"; "ipc_server_7.bin"]%string)
                  ltac:(intros name [<-|[<-|[<-|[]]]] H; try discriminate H;
                        vm_compute; eauto)
                  ltac:(intros a b Ha Hb Hfa Hfb Heq;
                        destruct Ha as [<-|[<-|[<-|[]]]], Hb as [<-|[<-|[<-|[]]]];
                        try reflexivity; try discriminate Hfa; try discriminate Hfb;
                        vm_compute in Heq; discriminate Heq))).
Defined.

(** ** The length of a number in decimal *)

Lemma of_uint_acc_lower d :
  forall acc,
    (Z.pos acc * 10 ^ Z.of_nat (String.length (NilEmpty.string_of_uint d))
     <= Z.pos (Pos.of_uint_acc d acc))%Z.
Proof.
  induction d as [|d IH|d IH|d IH|d IH|d IH|d IH|d IH|d IH|d IH|d IH]; intros acc;
    [cbn; lia|..];
    cbn [NilEmpty.string_of_uint String.length Pos.of_uint_acc];
    rewrite Nat2Z.inj_succ, Z.pow_succ_r by lia;
    (etrans; [|apply IH]);
    assert (0 < 10 ^ Z.of_nat (String.length (NilEmpty.string_of_uint d)))%Z
      by (apply Z.pow_pos_nonneg; lia);
    nia.
Qed.

Lemma nzhead_no_zero_head d e : Decimal.nzhead d <> Decimal.D0 e.
Proof. induction d; cbn [Decimal.nzhead]; try discriminate. exact IHd. Qed.

Lemma to_uint_no_zero_head p e : Pos.to_uint p <> Decimal.D0 e.
Proof.
  intros H.
  pose proof (DecimalPos.Unsigned.to_of (Pos.to_uint p)) as Hnorm.
  rewrite DecimalPos.Unsigned.of_to in Hnorm. cbn [N.to_uint] in Hnorm.
  rewrite H in Hnorm. unfold Decimal.unorm in Hnorm. cbn [Decimal.nzhead] in Hnorm.
  destruct (Decimal.nzhead e) eqn:He; try discriminate Hnorm.
  - injection Hnorm as Hnil. subst e. apply (DecimalPos.Unsigned.to_uint_nonzero p). exact H.
  - injection Hnorm as Hnorm. apply (nzhead_no_zero_head e u). rewrite He. reflexivity.
Qed.

Lemma to_uint_length p :
  (Z.pos p < 10 ^ 10)%Z ->
  (String.length (NilEmpty.string_of_uint (Pos.to_uint p)) <= 10)%nat.
Proof.
  intros Hp.
  pose proof (DecimalPos.Unsigned.of_to p) as Hval.
  pose proof (to_uint_no_zero_head p) as Hhead.
  destruct (Pos.to_uint p) as [|d|d|d|d|d|d|d|d|d|d];
    [cbn; lia|exfalso; apply (Hhead d); reflexivity|..];
    cbn [Pos.of_uint] in Hval; injection Hval as Hval;
    cbn [NilEmpty.string_of_uint String.length];
    match type of Hval with
    | Pos.of_uint_acc d ?k = p => pose proof (of_uint_acc_lower d k) as Hlow
    end;
    rewrite Hval in Hlow;
    destruct (Nat.le_gt_cases (String.length (NilEmpty.string_of_uint d)) 9) as [|Hlong];
    try lia;
    exfalso;
    assert (10 ^ 10 <= 10 ^ Z.of_nat (String.length (NilEmpty.string_of_uint d)))%Z
      by (apply Z.pow_le_mono_r; lia);
    lia.
Qed.

Lemma to_string_length z :
  (INT_MIN <= z <= INT_MAX)%Z -> (String.length (to_string z) <= 11)%nat.
Proof.
  unfold INT_MIN, INT_MAX, to_string. intros Hz.
  destruct z as [|p|p]; [cbn; lia|..]; cbn [Z.to_int NilZero.string_of_int];
    rewrite string_of_uint_nonnil by apply DecimalPos.Unsigned.to_uint_nonnil;
    cbn [String.length]; pose proof (to_uint_length p); lia.
Qed.

(** ** A number read back from the head of a text *)

Lemma append_cons c s t : (String c s +:+ t) = String c (s +:+ t).
Proof. reflexivity. Qed.

Lemma append_nil t : (EmptyString +:+ t) = t.
Proof. reflexivity. Qed.

Lemma digits_value_stop acc rest :
  starts_with_digit rest = false -> digits_value acc rest = acc.
Proof.
  destruct rest as [|c rest]; [reflexivity|]. cbn [starts_with_digit digits_value].
  destruct (digit_of c); [discriminate|reflexivity].
Qed.

Lemma digits_value_acc_app d rest :
  starts_with_digit rest = false ->
  forall acc, digits_value (Z.pos acc) (NilEmpty.string_of_uint d +:+ rest)
              = Z.pos (Pos.of_uint_acc d acc).
Proof.
  intros Hrest.
  induction d as [|d IH|d IH|d IH|d IH|d IH|d IH|d IH|d IH|d IH|d IH]; intros acc;
    [apply digits_value_stop, Hrest|..];
    cbn [NilEmpty.string_of_uint Pos.of_uint_acc]; rewrite append_cons; cbn [digits_value];
    match goal with
    | |- context [digit_of ?c] =>
        let v := eval vm_compute in (digit_of c) in change (digit_of c) with v
    end;
    cbn iota; rewrite <- IH; f_equal; lia.
Qed.

Lemma digits_value_of_uint_app d rest :
  starts_with_digit rest = false ->
  digits_value 0 (NilEmpty.string_of_uint d +:+ rest) = Z.of_N (Pos.of_uint d).
Proof.
  intros Hrest.
  induction d as [|d IH|d IH|d IH|d IH|d IH|d IH|d IH|d IH|d IH|d IH];
    [apply digits_value_stop, Hrest|exact IH|..];
    cbn [NilEmpty.string_of_uint Pos.of_uint]; rewrite append_cons; cbn [digits_value];
    match goal with
    | |- context [digit_of ?c] =>
        let v := eval vm_compute in (digit_of c) in change (digit_of c) with v
    end;
    cbn iota; apply digits_value_acc_app, Hrest.
Qed.

Lemma stoi_digits_app d rest :
  d <> Decimal.Nil ->
  starts_with_digit rest = false ->
  in_int_range (Z.of_N (Pos.of_uint d)) = true ->
  stoi (NilEmpty.string_of_uint d +:+ rest) = Some (Z.of_N (Pos.of_uint d)).
Proof.
  intros Hnil Hrest Hrange. pose proof (digits_value_of_uint_app d rest Hrest) as Hval.
  unfold stoi.
  destruct d; [contradiction|..];
    cbn [NilEmpty.string_of_uint] in *; rewrite append_cons in *; cbn [skip_spaces] in *;
    match goal with
    | |- context [isspace ?c] =>
        let v := eval vm_compute in (isspace c) in change (isspace c) with v
    end;
    cbn iota; unfold starts_with_digit;
    match goal with
    | |- context [digit_of ?c] =>
        let v := eval vm_compute in (digit_of c) in change (digit_of c) with v
    end;
    cbn iota; rewrite Hval, Hrange; reflexivity.
Qed.

(** [std::stoi] reads a nonnegative number written by [std::to_string] at
    the head of a text back, when no digit follows it. *)
Lemma stoi_to_string_app z rest :
  (0 <= z <= INT_MAX)%Z ->
  starts_with_digit rest = false ->
  stoi (to_string z +:+ rest) = Some z.
Proof.
  intros Hz Hrest. unfold to_string.
  assert (Hr : in_int_range z = true).
  { unfold in_int_range, INT_MIN, INT_MAX in *. apply andb_true_iff.
    split; apply Z.leb_le; lia. }
  destruct z as [|p|p]; [|..|lia].
  - change (stoi (String "0" rest) = Some 0%Z).
    unfold stoi. cbn [skip_spaces]. change (isspace "0") with false. cbv iota.
    unfold starts_with_digit at 1. change (digit_of "0") with (Some 0%Z). cbv iota.
    cbn [digits_value]. change (digit_of "0") with (Some 0%Z). cbv iota.
    rewrite digits_value_stop by exact Hrest. reflexivity.
  - cbn [Z.to_int NilZero.string_of_int].
    rewrite string_of_uint_nonnil by apply DecimalPos.Unsigned.to_uint_nonnil.
    rewrite stoi_digits_app; rewrite ?DecimalPos.Unsigned.of_to;
      [reflexivity|apply DecimalPos.Unsigned.to_uint_nonnil|exact Hrest|exact Hr].
Qed.

(** ** The request of the single-mailbox client, read by the server *)

Lemma no_nul_c_chars s : no_nul s = true -> c_str (c_chars s) = s.
Proof.
  induction s as [|c s IH]; [reflexivity|]. cbn [no_nul c_chars].
  destruct (Ascii.eqb_spec c NUL) as [|Hc]; [discriminate|]. cbn [negb andb c_str].
  intros H. destruct (Ascii.eqb_spec c NUL); [contradiction|]. rewrite IH by exact H. reflexivity.
Qed.

Lemma no_nul_append s t : no_nul (s +:+ t) = no_nul s && no_nul t.
Proof.
  induction s as [|c s IH]; [reflexivity|]. rewrite append_cons. cbn [no_nul].
  rewrite IH, andb_assoc. reflexivity.
Qed.

Lemma no_nul_digits d : no_nul (NilEmpty.string_of_uint d) = true.
Proof.
  induction d as [|d IH|d IH|d IH|d IH|d IH|d IH|d IH|d IH|d IH|d IH];
    [reflexivity|..]; exact IH.
Qed.

Lemma no_nul_to_string z : no_nul (to_string z) = true.
Proof.
  unfold to_string. destruct z as [|p|p]; [reflexivity|..];
    cbn [Z.to_int NilZero.string_of_int];
    rewrite string_of_uint_nonnil by apply DecimalPos.Unsigned.to_uint_nonnil;
    [|cbn [no_nul]; change (Ascii.eqb "-" NUL) with false; cbn [negb andb]];
    apply no_nul_digits.
Qed.

Lemma no_bracket_digits d : find_char (NilEmpty.string_of_uint d) "]" = None.
Proof.
  induction d as [|d IH|d IH|d IH|d IH|d IH|d IH|d IH|d IH|d IH|d IH];
    [reflexivity|..];
    cbn [NilEmpty.string_of_uint find_char];
    match goal with
    | |- context [Ascii.eqb ?c "]"] =>
        let v := eval vm_compute in (Ascii.eqb c "]") in change (Ascii.eqb c "]") with v
    end;
    cbv iota; rewrite IH; reflexivity.
Qed.

Lemma no_bracket_to_string z : find_char (to_string z) "]" = None.
Proof.
  unfold to_string. destruct z as [|p|p]; [reflexivity|..];
    cbn [Z.to_int NilZero.string_of_int];
    rewrite string_of_uint_nonnil by apply DecimalPos.Unsigned.to_uint_nonnil;
    [|cbn [find_char]; change (Ascii.eqb "-" "]") with false; cbv iota];
    rewrite no_bracket_digits; reflexivity.
Qed.

Lemma take_chars_app_le a b k :
  (String.length a <= k)%nat ->
  take_chars k (a +:+ b) = (a +:+ take_chars (k - String.length a) b)%string.
Proof.
  revert k. induction a as [|c a IH]; intros k Hk.
  - rewrite !append_nil. cbn [String.length]. rewrite Nat.sub_0_r. reflexivity.
  - cbn [String.length] in Hk. destruct k as [|k]; [lia|].
    rewrite !append_cons. cbn [take_chars String.length Nat.sub]. rewrite IH by lia. reflexivity.
Qed.

Lemma take_chars_all k s : (String.length s <= k)%nat -> take_chars k s = s.
Proof.
  revert k. induction s as [|c s IH]; intros k Hk; [destruct k; reflexivity|].
  cbn [String.length] in Hk. destruct k as [|k]; [lia|].
  cbn [take_chars]. rewrite IH by lia. reflexivity.
Qed.

Lemma take_chars_length k s : String.length (take_chars k s) = Nat.min k (String.length s).
Proof.
  revert k. induction s as [|c s IH]; intros k; [destruct k; reflexivity|].
  destruct k as [|k]; [reflexivity|]. cbn [take_chars String.length]. rewrite IH. lia.
Qed.

Lemma append_length a b : String.length (a +:+ b) = (String.length a + String.length b)%nat.
Proof.
  induction a as [|c a IH]; [reflexivity|]. rewrite append_cons. cbn [String.length].
  rewrite IH. reflexivity.
Qed.

Lemma store_text_cons c s :
  c <> NUL ->
  store_text (String c s) = c :: (take 254 (c_chars s ++ replicate 255 NUL) ++ [NUL]).
Proof.
  intros Hc. unfold store_text, pad. cbn [c_chars].
  destruct (Ascii.eqb_spec c NUL); [contradiction|].
  rewrite <- app_comm_cons. change 255%nat with (S 254) at 1. rewrite firstn_cons.
  reflexivity.
Qed.

Lemma drop_chars_past p c t : drop_chars (S (String.length p)) (p +:+ String c t) = t.
Proof. induction p as [|d p IH]; [reflexivity|exact IH]. Qed.

(** What the server sees in a request the client has stored. *)
Lemma Simple_request_seen n text :
  (0 <= n <= INT_MAX)%Z ->
  no_nul text = true ->
  let request := Simple.data (Simple.request_Message n text) in
  let room := (252 - String.length (to_string n))%nat in
  nth 0 request NUL = "["%char
  /\ c_str request
     = ("[" +:+ to_string n +:+ "] " +:+ take_chars room text)%string
  /\ Simple.extractRequestNumber request = n
  /\ Simple.extractRequestText request = take_chars room text
  /\ (241 <= room)%nat.
Proof.
  intros Hn Htext. cbv zeta. unfold Simple.request_Message. cbn [Simple.data].
  pose proof (to_string_length n) as Hlen.
  assert (Hlen' : (String.length (to_string n) <= 11)%nat)
    by (apply Hlen; unfold INT_MIN, INT_MAX in *; lia).
  clear Hlen.
  set (digits := to_string n) in *.
  set (room := (252 - String.length digits)%nat).
  assert (Hfull : no_nul (digits +:+ "] " +:+ text) = true).
  { rewrite !no_nul_append. unfold digits. rewrite no_nul_to_string, Htext. reflexivity. }
  change ("[" +:+ digits +:+ "] " +:+ text)%string
    with (String "[" (digits +:+ "] " +:+ text)).
  rewrite store_text_cons by discriminate.
  assert (Htail : c_str (take 254 (c_chars (digits +:+ "] " +:+ text) ++ replicate 255 NUL)
                         ++ [NUL])
                  = (digits +:+ "] " +:+ take_chars room text)%string).
  { rewrite c_str_padded by (try apply c_chars_no_nul; lia).
    rewrite no_nul_c_chars by exact Hfull.
    rewrite take_chars_app_le by lia.
    replace (254 - String.length digits)%nat with (S (S room)) by (unfold room; lia).
    reflexivity. }
  split; [reflexivity|]. split.
  { cbn [c_str]. change (Ascii.eqb "[" NUL) with false. cbv iota. rewrite Htail. reflexivity. }
  split.
  { unfold Simple.extractRequestNumber. cbn [nth].
    change (Ascii.eqb "[" "[") with true. cbn [negb drop skipn]. rewrite ?drop_0.
    rewrite Htail. unfold digits. rewrite stoi_to_string_app; [reflexivity|exact Hn|reflexivity]. }
  split; [|unfold room; lia].
  unfold Simple.extractRequestText. cbn [c_str].
  change (Ascii.eqb "[" NUL) with false. cbv iota. rewrite Htail.
  assert (Hfind : find_char (String "[" (digits +:+ "] " +:+ take_chars room text)) "]"
                  = Some (String.length (String "[" digits))).
  { apply find_char_split.
    exists (String "[" digits), (" " +:+ take_chars room text)%string.
    split; [rewrite !append_cons; reflexivity|]. split; [reflexivity|].
    cbn [find_char]. change (Ascii.eqb "[" "]") with false. cbv iota.
    unfold digits. rewrite no_bracket_to_string. reflexivity. }
  rewrite Hfind.
  change (match drop_chars (S (String.length (String "[" digits)))
                  (String "[" digits +:+ String "]" (String " " (take_chars room text))) with
          | String " "%char rest => rest
          | _ => EmptyString
          end = take_chars room text).
  rewrite drop_chars_past. reflexivity.
Qed.

(** X19. The single-mailbox server reads back what the client has stored:
    from the payload that the client builds for request number [n] and text
    [text] the server extracts the number [n] and the text, cut to the room
    the payload leaves after the number (at least 241 characters). *)
Theorem X19_request_read_back (n : Z) (text : string) :
  (0 <= n <= INT_MAX)%Z ->
  no_nul text = true ->
  let request := Simple.data (Simple.request_Message n text) in
  let room := (252 - String.length (to_string n))%nat in
  Simple.extractRequestNumber request = n
  /\ Simple.extractRequestText request = take_chars room text
  /\ (241 <= room)%nat.
Proof.
  intros Hn Htext. cbv zeta.
  destruct (Simple_request_seen n text Hn Htext) as (_ & _ & Hnum & Htxt & Hroom). auto.
Qed.

Lemma X19_request_read_back_witness :
  Simple.extractRequestNumber (Simple.data (Simple.request_Message 12 "hello world")) = 12%Z
  /\ Simple.extractRequestText (Simple.data (Simple.request_Message 12 "hello world"))
     = take_chars (252 - String.length (to_string 12)) "hello world"
  /\ (241 <= 252 - String.length (to_string 12))%nat.
Proof.
  apply (X19_request_read_back 12 "hello world"); [unfold INT_MAX; lia|reflexivity].
Defined.

Lemma hasInvalidChars_no_nul s : Simple.hasInvalidChars s = false -> no_nul s = true.
Proof.
  induction s as [|c s IH]; [reflexivity|]. cbn [Simple.hasInvalidChars no_nul].
  destruct (Ascii.eqb_spec c NUL) as [->|_]; [discriminate|]. cbn [negb andb].
  destruct ((Simple.char_val c <? 32)%Z && negb (Ascii.eqb c "009")
            && negb (Ascii.eqb c "010") && negb (Ascii.eqb c "013")); [discriminate|exact IH].
Qed.

Lemma Simple_getInputFromUser_loop_accepts fuel :
  forall typed stdin w input rest,
    fst (Simple.getInputFromUser_loop fuel typed stdin w) = Some (input, rest) ->
    (input = EmptyString
     /\ w_running (snd (Simple.getInputFromUser_loop fuel typed stdin w)) = false)
    \/ (input <> EmptyString /\ (String.length input < 255)%nat
        /\ Simple.hasInvalidChars input = false
        /\ input <> "exit"%string /\ input <> "status"%string).
Proof.
  induction fuel as [|fuel IH]; intros typed stdin w input rest; [discriminate|].
  cbn [Simple.getInputFromUser_loop]. rewrite bind_run, print_run.
  destruct (getline typed stdin) as [line stdin'].
  destruct (String.eqb_spec line EmptyString) as [|Hne].
  { rewrite bind_run, print_run. apply IH. }
  destruct (Nat.leb_spec 255 (String.length line)) as [|Hshort].
  { rewrite bind_run, print_run. apply IH. }
  destruct (String.eqb_spec line "exit") as [|Hexit].
  { rewrite bind_run, store_running_run. unfold mret, M_ret. cbn [fst snd w_running].
    intros [= <- _]. left. auto. }
  destruct (String.eqb_spec line "status") as [|Hstatus].
  { rewrite bind_run, print_run. apply IH. }
  destruct (Simple.hasInvalidChars line) eqn:Hchars.
  { rewrite bind_run, print_run. apply IH. }
  unfold mret, M_ret. cbn [fst]. intros [= <- _]. right. auto.
Qed.

Lemma Simple_getInputFromUser_accepts fuel :
  forall stdin w input rest,
    fst (Simple.getInputFromUser fuel stdin w) = Some (input, rest) ->
    (input = EmptyString /\ w_running (snd (Simple.getInputFromUser fuel stdin w)) = false)
    \/ (input <> EmptyString /\ (String.length input < 255)%nat
        /\ Simple.hasInvalidChars input = false
        /\ input <> "exit"%string /\ input <> "status"%string).
Proof. intros stdin. apply Simple_getInputFromUser_loop_accepts. Qed.

Lemma Simple_request_passes n text :
  (0 <= n <= INT_MAX)%Z ->
  no_nul text = true ->
  text <> EmptyString ->
  Simple.passes_validation (Simple.data (Simple.request_Message n text)) = true.
Proof.
  intros Hn Htext Hne.
  destruct (Simple_request_seen n text Hn Htext) as (Hhead & Hstr & Hnum & Htxt & Hroom).
  cbv zeta in *. unfold Simple.passes_validation, Simple.isValidRequest.
  rewrite Hhead, Hnum, Htxt, Hstr.
  change (Ascii.eqb "[" NUL) with false. cbv iota.
  assert (Hlong : (String.length ("[" +:+ to_string n +:+ "] "
                                  +:+ take_chars (252 - String.length (to_string n)) text)
                   <? 4)%nat = false).
  { apply Nat.ltb_ge. rewrite !append_length, take_chars_length.
    destruct text as [|c text]; [contradiction|]. cbn [String.length]. lia. }
  rewrite Hlong. cbn [andb].
  destruct (Z.eqb_spec n (-1)) as [|_]; [lia|]. cbn [orb].
  destruct text as [|c text]; [contradiction|].
  destruct (252 - String.length (to_string n))%nat as [|room]; [lia|]. reflexivity.
Qed.

(** X20. What the single-mailbox client lets through as a request is what
    the server takes for one: [getInputFromUser] hands on either the empty
    string, with the [running] flag taken down ("exit"), or a text that is
    not empty, shorter than 255 characters and free of the characters it
    rejects, and every request built from such a text, whatever its
    (nonnegative) number, passes the server's format checks. *)
Theorem X20_accepted_input_is_valid_request (fuel : nat) (stdin : Stdin) (w : World)
    (input : string) (rest : Stdin) :
  fst (Simple.getInputFromUser fuel stdin w) = Some (input, rest) ->
  (input = EmptyString /\ w_running (snd (Simple.getInputFromUser fuel stdin w)) = false)
  \/ (input <> EmptyString /\ (String.length input < 255)%nat
      /\ Simple.hasInvalidChars input = false
      /\ forall n, (0 <= n <= INT_MAX)%Z ->
           Simple.passes_validation (Simple.data (Simple.request_Message n input)) = true).
Proof.
  intros Hgot.
  destruct (Simple_getInputFromUser_accepts fuel stdin w input rest Hgot)
    as [Hexit|(Hne & Hshort & Hchars & _)]; [left; exact Hexit|right].
  split; [exact Hne|]. split; [exact Hshort|]. split; [exact Hchars|].
  intros n Hn. apply Simple_request_passes; [exact Hn| |exact Hne].
  apply hasInvalidChars_no_nul, Hchars.
Qed.

Lemma X20_accepted_input_is_valid_request_witness :
  Simple.passes_validation (Simple.data (Simple.request_Message 1 "what time is it")) = true.
Proof.
  destruct (X20_accepted_input_is_valid_request 5
              (typed_lines [""; "status"; "what time is it"]%string)
              (quiet_world (healthy [])) "what time is it" (typed_lines []) eq_refl)
    as [[H _]|(_ & _ & _ & H)]; [discriminate H|].
  apply H. unfold INT_MAX. lia.
Defined.

(** ** The single-mailbox client *)

Lemma Simple_silent_read msg : silent (Simple.io_readMessage msg).
Proof. intros w. rewrite Simple_io_readMessage_run. cbn [snd]. rewrite tick_trace. reflexivity. Qed.

Lemma Simple_written_write msg w :
  written (w_trace (snd (Simple.io_writeMessage msg w)))
  = written (w_trace w) ++ [Simple.encode msg].
Proof.
  rewrite Simple_io_writeMessage_run. cbn [snd]. autorewrite with trace.
  rewrite written_app. reflexivity.
Qed.

Ltac silent_step_simple := first [ apply Simple_silent_read | silent_step ].

Lemma Simple_silent_await_response fuel :
  forall start msg, silent (Simple.await_response fuel start msg).
Proof.
  induction fuel as [|fuel IH]; intros start msg; cbn [Simple.await_response].
  - apply silent_ret.
  - repeat (apply IH || silent_step_simple).
Qed.

Lemma Simple_silent_getInputFromUser_loop fuel :
  forall input stdin, silent (Simple.getInputFromUser_loop fuel input stdin).
Proof.
  induction fuel as [|fuel IH]; intros input stdin; cbn [Simple.getInputFromUser_loop].
  - apply silent_ret.
  - repeat (apply IH || silent_step_simple).
Qed.

Lemma Simple_silent_getInputFromUser fuel :
  forall stdin, silent (Simple.getInputFromUser fuel stdin).
Proof. intros stdin. apply Simple_silent_getInputFromUser_loop. Qed.

Lemma Simple_silent_wait_for_free fuel :
  forall waitAttempts msg stdin, silent (Simple.wait_for_free fuel waitAttempts msg stdin).
Proof.
  induction fuel as [|fuel IH]; intros waitAttempts msg stdin; cbn [Simple.wait_for_free].
  - apply silent_ret.
  - repeat (apply IH || silent_step_simple).
Qed.

Lemma Simple_readMessage_fails fd msg :
  h_seek_ok fd = false \/ h_read_ok fd = false ->
  Simple.readMessage fd msg = (false, msg).
Proof.
  unfold Simple.readMessage, lseek, read.
  intros [H|H]; rewrite H; [reflexivity|]. destruct (h_seek_ok fd); reflexivity.
Qed.

(** X21. The timeout of the single-mailbox client does not cover a mailbox
    that cannot be read: alone with such a mailbox, the wait for the answer
    goes on however long it is run, each turn reporting the error and
    sleeping 100 ms, while the clock passes any limit. *)
Theorem X21_unreadable_mailbox_never_times_out (fuel : nat) (start : Z)
    (msg : Simple.Message) (w : World) :
  alone w ->
  h_seek_ok (w_mailbox w) = false \/ h_read_ok (w_mailbox w) = false ->
  let r := Simple.await_response fuel start msg w in
  fst r = None
  /\ w_now (snd r) = (w_now w + 100 * Z.of_nat fuel)%Z
  /\ w_trace (snd r)
     = w_trace w
       ++ concat (replicate fuel [EvPrint "Client: Error reading response"; EvSleep 100]).
Proof.
  cbv zeta. revert w. induction fuel as [|fuel IH]; intros w [Henv Hrun] Hbroken.
  - cbn [Simple.await_response replicate concat]. unfold mret, M_ret. cbn [fst snd].
    rewrite app_nil_r. split; [reflexivity|]. split; [lia|reflexivity].
  - cbn [Simple.await_response]. rewrite bind_run, load_running_run, (tick_alone w Henv), Hrun.
    cbn [negb]. rewrite bind_run, Simple_io_readMessage_run, (tick_alone w Henv).
    rewrite (Simple_readMessage_fails _ msg Hbroken). cbn [negb].
    rewrite bind_run, print_run, bind_run, sleep_for_run.
    set (w1 := emit (EvSleep 100)
                 (advance 100 (tick (emit (EvPrint "Client: Error reading response") w)))).
    assert (Hw1 : w1 = emit (EvSleep 100)
                         (advance 100 (emit (EvPrint "Client: Error reading response") w)))
      by (unfold w1; rewrite (tick_alone (emit _ w)) by exact Henv; reflexivity).
    destruct (IH w1) as (Hnone & Hnow & Htrace).
    + rewrite Hw1. split; assumption.
    + rewrite Hw1. exact Hbroken.
    + split; [exact Hnone|]. rewrite Hnow, Htrace, Hw1. split.
      * cbn [emit advance w_now]. lia.
      * cbn [replicate concat emit advance w_trace]. rewrite <- !app_assoc. reflexivity.
Qed.

Lemma X21_unreadable_mailbox_never_times_out_witness :
  let broken := {| h_seek_ok := true; h_read_ok := false; h_write_cap := Some 4096%nat;
                   h_rdwr_ok := true; h_bytes := [] |} in
  let r := Simple.await_response 200 0 Simple.zero_Message (quiet_world broken) in
  fst r = None /\ w_now (snd r) = 20000%Z.
Proof.
  cbv zeta.
  destruct (X21_unreadable_mailbox_never_times_out 200 0 Simple.zero_Message
              (quiet_world {| h_seek_ok := true; h_read_ok := false;
                              h_write_cap := Some 4096%nat;
                              h_rdwr_ok := true; h_bytes := [] |})
              (conj eq_refl eq_refl) (or_intror eq_refl)) as (Hnone & Hnow & _).
  split; [exact Hnone|exact Hnow].
Defined.

(** ** The life of the single-mailbox server *)

Lemma Simple_silent_processRequest request : silent (Simple.processRequest request).
Proof. unfold Simple.processRequest. cbv zeta. repeat silent_step_simple. Qed.

Lemma Simple_handle_request_writes st msg w :
  let r := Simple.handle_request st msg w in
  Simple.processedRequests (fst r) = wrap_int (Simple.processedRequests st + 1)
  /\ exists response,
       written (w_trace (snd r))
       = written (w_trace w)
         ++ [Simple.encode {| Simple.status := 2; Simple.data := store_text response |}].
Proof.
  cbv zeta. unfold Simple.handle_request. cbv zeta.
  destruct (Simple.isValidRequest (Simple.data msg)); cbn [negb].
  - rewrite bind_run.
    pose proof (Simple_silent_processRequest (Simple.data msg) w) as Hsilent.
    destruct (Simple.processRequest (Simple.data msg) w) as [[response processingError] w1].
    cbn [snd] in Hsilent. rewrite bind_run.
    pose proof (Simple_written_write
                  {| Simple.status := 2; Simple.data := store_text response |} w1) as Hwr.
    destruct (Simple.io_writeMessage _ w1) as [ok w2]. cbn [snd] in Hwr.
    destruct ok; cbn [negb]; unfold mret, M_ret; cbn [fst snd Simple.processedRequests];
      (split; [reflexivity|]); exists response; rewrite Hwr, Hsilent; reflexivity.
  - rewrite bind_run.
    pose proof (Simple_written_write
                  {| Simple.status := 2; Simple.data := store_text Simple.INVALID_FORMAT |} w)
      as Hwr.
    destruct (Simple.io_writeMessage _ w) as [ok w2]. cbn [snd] in Hwr.
    unfold mret, M_ret. cbn [fst snd Simple.processedRequests].
    split; [reflexivity|]. exists Simple.INVALID_FORMAT. exact Hwr.
Qed.

Lemma Simple_silent_wait_for_request fuel :
  forall msg, silent (Simple.wait_for_request fuel msg).
Proof.
  induction fuel as [|fuel IH]; intros msg; cbn [Simple.wait_for_request].
  - apply silent_ret.
  - repeat (apply IH || silent_step_simple).
Qed.

Lemma Simple_serve_turn fuel st w :
  match fst (Simple.serve fuel st w) with
  | None => True
  | Some (false, st') =>
      st' = st
      /\ w_running (snd (Simple.serve fuel st w)) = false
      /\ written (w_trace (snd (Simple.serve fuel st w))) = written (w_trace w)
  | Some (true, st') =>
      Simple.processedRequests st' = wrap_int (Simple.processedRequests st + 1)
      /\ exists response,
           written (w_trace (snd (Simple.serve fuel st w)))
           = written (w_trace w)
             ++ [Simple.encode {| Simple.status := 2; Simple.data := store_text response |}]
  end.
Proof.
  unfold Simple.serve. rewrite bind_run, load_running_run.
  destruct (w_running (tick w)) eqn:Hrun; cbn [negb].
  2: { unfold mret, M_ret. cbn [fst snd]. autorewrite with trace. auto. }
  rewrite bind_run.
  pose proof (Simple_silent_wait_for_request fuel Simple.zero_Message (tick w)) as Hsilent.
  destruct (Simple.wait_for_request fuel Simple.zero_Message (tick w)) as [[msg|] w1];
    cbn [fst snd] in *; [|exact I].
  rewrite bind_run, load_running_run.
  destruct (w_running (tick w1)) eqn:Hrun1; cbn [negb].
  2: { unfold mret, M_ret. cbn [fst snd]. autorewrite with trace in *. auto. }
  rewrite bind_run.
  destruct (Simple_handle_request_writes st msg (tick w1)) as (Hcount & response & Hwr).
  destruct (Simple.handle_request st msg (tick w1)) as [st1 w2]. cbn [fst snd] in *.
  unfold mret, M_ret. cbn [fst snd].
  split; [exact Hcount|]. exists response.
  rewrite Hwr. autorewrite with trace in *. rewrite Hsilent. reflexivity.
Qed.

Lemma wrap_int_range z : (INT_MIN <= wrap_int z <= INT_MAX)%Z.
Proof. unfold wrap_int, INT_MIN, INT_MAX. Z.div_mod_to_equations. lia. Qed.

Lemma wrap_int_add a b : wrap_int (wrap_int a + b) = wrap_int (a + b).
Proof.
  unfold wrap_int. f_equal.
  replace ((a + 2147483648) mod 4294967296 - 2147483648 + b + 2147483648)%Z
    with ((a + 2147483648) mod 4294967296 + b)%Z by lia.
  rewrite Zplus_mod_idemp_l. f_equal. lia.
Qed.

Lemma Simple_main_loop_ends fuel :
  forall st w st',
    fst (Simple.main_loop fuel st w) = Some st' ->
    w_running (snd (Simple.main_loop fuel st w)) = false
    /\ exists responses,
         written (w_trace (snd (Simple.main_loop fuel st w)))
         = written (w_trace w)
           ++ map (fun response =>
                     Simple.encode {| Simple.status := 2; Simple.data := store_text response |})
                  responses
         /\ wrap_int (Simple.processedRequests st')
            = wrap_int (Simple.processedRequests st + Z.of_nat (length responses))
         /\ ((INT_MIN <= Simple.processedRequests st <= INT_MAX)%Z ->
             (INT_MIN <= Simple.processedRequests st' <= INT_MAX)%Z).
Proof.
  induction fuel as [|fuel IH]; intros st w st'; [discriminate|].
  cbn [Simple.main_loop]. rewrite bind_run.
  pose proof (Simple_serve_turn (S fuel) st w) as Hturn.
  destruct (Simple.serve (S fuel) st w) as [[[[|] st1]|] w1]; cbn [fst snd] in Hturn.
  - destruct Hturn as (Hcount & response & Hwr).
    intros Hend. destruct (IH st1 w1 st' Hend) as (Hrun & responses & Hwr' & Hcount' & Hrange).
    split; [exact Hrun|].
    exists (response :: responses). split; [|split].
    + rewrite Hwr', Hwr, <- app_assoc. reflexivity.
    + rewrite Hcount', Hcount, wrap_int_add. f_equal. cbn [length]. lia.
    + intros _. apply Hrange. rewrite Hcount. apply wrap_int_range.
  - destruct Hturn as (-> & Hrun & Hwr). unfold mret, M_ret. cbn [fst snd].
    intros [= ->]. split; [exact Hrun|].
    exists []. rewrite Hwr, app_nil_r, Z.add_0_r. auto.
  - discriminate.
Qed.

Lemma Simple_initialise_cases w :
  let r := Simple.initialise w in
  (fst r = true /\ w_trace (snd r) = w_trace w)
  \/ r = Simple.io_writeMessage Simple.zero_Message (tick w).
Proof.
  cbv zeta. unfold Simple.initialise. rewrite bind_run, io_lseek_end_run.
  destruct (lseek_end (w_mailbox (tick w)) <? Z.of_nat Simple.sizeof_Message)%Z.
  - right. reflexivity.
  - left. unfold mret, M_ret. cbn [fst snd]. autorewrite with trace. auto.
Qed.

(** X22. Once its mailbox is open the single-mailbox server ends in one of
    two ways only: with exit code 1 when the write of the zero record into a
    file shorter than a record fails, nothing else written; or with exit
    code 0 and its [running] flag down, having written, after the (possible)
    zero record, one RESPONSE for each request it has counted and, last, the
    FREE record that carries the text SERVER_SHUTDOWN. *)
Theorem X22_single_mailbox_server_life (fuel : nat) (w : World) (code : Z)
    (st : Simple.Counters) :
  fst (Simple.run_server fuel w) = Some (code, st) ->
  let records := written (w_trace (snd (Simple.run_server fuel w))) in
  (code = 1%Z
   /\ records = written (w_trace w) ++ [Simple.encode Simple.zero_Message])
  \/ (code = 0%Z
      /\ w_running (snd (Simple.run_server fuel w)) = false
      /\ exists initial responses,
           (initial = [] \/ initial = [Simple.encode Simple.zero_Message])
           /\ Simple.processedRequests st = wrap_int (Z.of_nat (length responses))
           /\ records
              = written (w_trace w) ++ initial
                ++ map (fun response =>
                          Simple.encode {| Simple.status := 2;
                                           Simple.data := store_text response |})
                       responses
                ++ [Simple.encode Simple.shutdown_Message]).
Proof.
  cbv zeta. unfold Simple.run_server. rewrite bind_run.
  assert (Hinit : exists initial,
             (initial = [] \/ initial = [Simple.encode Simple.zero_Message])
             /\ written (w_trace (snd (Simple.initialise w))) = written (w_trace w) ++ initial
             /\ (fst (Simple.initialise w) = false
                 -> initial = [Simple.encode Simple.zero_Message])).
  { destruct (Simple_initialise_cases w) as [(Hok & Htr)| ->].
    - exists []. rewrite Htr, app_nil_r, Hok. split; [auto|]. split; [reflexivity|discriminate].
    - exists [Simple.encode Simple.zero_Message]. rewrite Simple_written_write, tick_trace. auto. }
  destruct Hinit as (initial & Hshape & Hwr0 & Hfail).
  destruct (Simple.initialise w) as [ok w0]. cbn [fst snd] in Hwr0, Hfail.
  destruct ok; cbn [negb].
  2: { unfold mret, M_ret. cbn [fst snd]. intros [= <- <-]. left.
       rewrite Hwr0, Hfail by reflexivity. auto. }
  rewrite bind_run.
  pose proof (Simple_main_loop_ends fuel
                {| Simple.processedRequests := 0; Simple.errorCount := 0 |} w0) as Hloop.
  destruct (Simple.main_loop fuel _ w0) as [[st1|] w1]; cbn [fst snd] in Hloop; [|discriminate].
  destruct (Hloop st1 eq_refl) as (Hrun & responses & Hwr1 & Hcount & Hrange).
  rewrite bind_run, Simple_io_writeMessage_run. unfold mret, M_ret. cbn [fst snd].
  intros [= <- <-]. right. split; [reflexivity|].
  split; [unfold emit, set_mailbox; cbn [w_running]; apply tick_running_false, Hrun|].
  exists initial, responses. split; [exact Hshape|]. split.
  - cbn [Simple.processedRequests] in Hcount, Hrange. rewrite Z.add_0_l in Hcount.
    rewrite <- Hcount. symmetry. apply wrap_int_small, Hrange.
    unfold INT_MIN, INT_MAX. lia.
  - autorewrite with trace. rewrite written_app, Hwr1, Hwr0. cbn [written].
    rewrite <- !app_assoc. reflexivity.
Qed.

Lemma X22_single_mailbox_server_life_witness :
  let r := Simple.run_server 5 one_request_world in
  fst r = Some (0%Z, {| Simple.processedRequests := 1; Simple.errorCount := 0 |})
  /\ w_running (snd r) = false.
Proof.
  cbv zeta.
  assert (Hend : fst (Simple.run_server 5 one_request_world)
                 = Some (0%Z, {| Simple.processedRequests := 1; Simple.errorCount := 0 |}))
    by (vm_compute; reflexivity).
  split; [exact Hend|].
  destruct (X22_single_mailbox_server_life 5 one_request_world 0 _ Hend)
    as [[H _]|(_ & H & _)]; [discriminate H|exact H].
Defined.

Lemma Simple_request_exchange_writes (fuel : nat) (userInput : string) (requestCounter : Z)
    (w : World) :
  let r := Simple.request_exchange fuel userInput requestCounter w in
  let number := wrap_int (requestCounter + 1) in
  let before := written (w_trace w) in
  let request := Simple.encode (Simple.request_Message number userInput) in
  match fst r with
  | Some (Simple.SendFailed, counter) | Some (Simple.Stopped, counter) =>
      counter = number /\ written (w_trace (snd r)) = before ++ [request]
  | Some (Simple.TimedOut, counter) | Some (Simple.Completed, counter) =>
      counter = number
      /\ written (w_trace (snd r))
         = before ++ [request; Simple.encode Simple.free_Message]
  | None => written (w_trace (snd r)) = before ++ [request]
  end.
Proof.
  cbv zeta. unfold Simple.request_exchange. cbv zeta.
  rewrite bind_run, print_run, bind_run.
  pose proof (Simple_written_write
                (Simple.request_Message (wrap_int (requestCounter + 1)) userInput)
                (emit (EvPrint ("Client: Sending request #"
                                +:+ to_string (wrap_int (requestCounter + 1)) +:+ ": "
                                +:+ Simple.QUOTE +:+ userInput +:+ Simple.QUOTE)) w)) as Hsent.
  rewrite written_print in Hsent.
  destruct (Simple.io_writeMessage _ _) as [ok w1]. cbn [snd] in Hsent.
  destruct ok; cbn [negb].
  2: { rewrite bind_run, print_run, bind_run, sleep_for_run. unfold mret, M_ret. cbn [fst snd].
       split; [reflexivity|].
       autorewrite with trace. rewrite !written_app. cbn [written]. rewrite !app_nil_r.
       exact Hsent. }
  rewrite bind_run, print_run, bind_run, steady_now_run, bind_run.
  match goal with
  | |- context [Simple.await_response fuel ?start ?m ?w2] =>
      pose proof (Simple_silent_await_response fuel start m w2) as Hawait;
      destruct (Simple.await_response fuel start m w2) as [[[[timeout got] m']|] w3]
  end; cbn [fst snd] in *; rewrite tick_trace, written_print in Hawait.
  2: { unfold mret, M_ret. cbn [fst snd]. rewrite Hawait. exact Hsent. }
  destruct timeout.
  - rewrite bind_run, print_run, bind_run.
    pose proof (Simple_written_write Simple.free_Message
                  (emit (EvPrint "Client: Timeout waiting for server response") w3)) as Hfree.
    destruct (Simple.io_writeMessage _ _) as [ok w4]. unfold mret, M_ret. cbn [fst snd] in *.
    split; [reflexivity|].
    rewrite Hfree, written_print, Hawait, Hsent, <- app_assoc. reflexivity.
  - destruct got; cbn [negb].
    2: { unfold mret, M_ret. cbn [fst snd]. split; [reflexivity|]. rewrite Hawait. exact Hsent. }
    rewrite bind_run.
    assert (Hprinted : exists w4,
               (if Simple.isValidResponse (Simple.data m')
                then print ("Client: Received response: " +:+ Simple.QUOTE
                            +:+ c_str (Simple.data m') +:+ Simple.QUOTE)
                else print "Client: Received empty or invalid response from server") w3
               = (tt, w4)
               /\ written (w_trace w4) = written (w_trace w3)).
    { destruct (Simple.isValidResponse (Simple.data m'));
        (eexists; split; [apply print_run|apply written_print]). }
    destruct Hprinted as (w4 & -> & Hprinted). rewrite bind_run.
    pose proof (Simple_written_write Simple.free_Message w4) as Hfree.
    destruct (Simple.io_writeMessage Simple.free_Message w4) as [ok w5]. cbn [snd] in Hfree.
    rewrite bind_run.
    assert (Hnote : exists w6,
               (if negb ok then print "Client: Failed to free server" else mret tt) w5 = (tt, w6)
               /\ written (w_trace w6) = written (w_trace w5)).
    { destruct ok; cbn [negb];
        [exists w5; split; reflexivity|eexists; split; [apply print_run|apply written_print]]. }
    destruct Hnote as (w6 & -> & Hnote).
    rewrite bind_run, print_run. unfold mret, M_ret. cbn [fst snd].
    split; [reflexivity|].
    rewrite written_print, Hnote, Hfree, Hprinted, Hawait, Hsent, <- app_assoc. reflexivity.
Qed.

(** X23. Every turn of the single-mailbox client uses up a request number,
    whether the request could be sent or not, and hands [writeMessage] its
    REQUEST first; the FREE record follows after a timeout and after a
    response, and nothing follows when sending failed or the client was
    stopped while it waited. *)
Theorem X23_request_turn_writes (fuel : nat) (userInput : string) (requestCounter : Z)
    (w : World) :
  let r := Simple.request_exchange fuel userInput requestCounter w in
  let number := wrap_int (requestCounter + 1) in
  let before := written (w_trace w) in
  let request := Simple.encode (Simple.request_Message number userInput) in
  match fst r with
  | Some (Simple.SendFailed, counter) | Some (Simple.Stopped, counter) =>
      counter = number /\ written (w_trace (snd r)) = before ++ [request]
  | Some (Simple.TimedOut, counter) | Some (Simple.Completed, counter) =>
      counter = number
      /\ written (w_trace (snd r))
         = before ++ [request; Simple.encode Simple.free_Message]
  | None => written (w_trace (snd r)) = before ++ [request]
  end.
Proof. apply Simple_request_exchange_writes. Qed.

Lemma store_running_false_run w : w_running (snd (store_running false w)) = false.
Proof. reflexivity. Qed.

(** X24. Step 1 of the single-mailbox client ends only on a FREE mailbox or
    on a stop: when the wait returns, either the record it has just read
    bears status 0 or the [running] flag is down (a signal, or "exit" typed
    at the prompt that follows more than 50 busy looks); a failed read ends
    nothing. Meanwhile the client writes nothing. *)
Theorem X24_wait_ends_free_or_stopped (fuel : nat) (waitAttempts : Z) (msg : Simple.Message)
    (stdin : Stdin) (w : World) (found : Simple.Message) (rest : Stdin) :
  fst (Simple.wait_for_free fuel waitAttempts msg stdin w) = Some (found, rest) ->
  let w' := snd (Simple.wait_for_free fuel waitAttempts msg stdin w) in
  (Simple.status found = 0%Z \/ w_running w' = false)
  /\ written (w_trace w') = written (w_trace w).
Proof.
  intros Hend. cbv zeta. split; [|apply Simple_silent_wait_for_free].
  revert waitAttempts msg stdin w Hend.
  induction fuel as [|fuel IH]; intros waitAttempts msg stdin w; [discriminate|].
  cbn [Simple.wait_for_free]. rewrite bind_run, load_running_run.
  destruct (w_running (tick w)) eqn:Hrun; cbn [negb].
  2: { unfold mret, M_ret. cbn [fst snd]. intros _. right. exact Hrun. }
  rewrite bind_run, Simple_io_readMessage_run.
  destruct (Simple.readMessage (w_mailbox (tick (tick w))) msg) as [ok msg1].
  destruct ok; cbn [negb].
  2: { rewrite bind_run, print_run, bind_run, sleep_for_run. apply IH. }
  destruct (Z.eqb_spec (Simple.status msg1) 0) as [Hfree|_].
  { unfold mret, M_ret. cbn [fst snd]. intros [= <- _]. left. exact Hfree. }
  cbv zeta.
  destruct (Simple.MAX_WAIT_ATTEMPTS <? wrap_int (waitAttempts + 1))%Z.
  - rewrite bind_run, print_run, bind_run, print_run.
    destruct (getline EmptyString stdin) as [response stdin'].
    destruct (String.eqb response "exit").
    + rewrite bind_run. unfold mret, M_ret. cbn [fst snd]. intros _. right. reflexivity.
    + apply IH.
  - rewrite bind_run, sleep_for_run. apply IH.
Qed.

Lemma X24_wait_ends_free_or_stopped_witness :
  let w := quiet_world (healthy (Simple.encode (Simple.request_Message 1 "hello"))) in
  let r := Simple.wait_for_free 60 0 Simple.zero_Message (typed_lines ["exit"]%string) w in
  w_running (snd r) = false.
Proof.
  cbv zeta.
  destruct (X24_wait_ends_free_or_stopped 60 0 Simple.zero_Message
              (typed_lines ["exit"]%string)
              (quiet_world (healthy (Simple.encode (Simple.request_Message 1 "hello"))))
              (Simple.request_Message 1 "hello") (typed_lines []) ltac:(vm_compute; reflexivity))
    as [[Hfree|Hstopped] _]; [discriminate Hfree|exact Hstopped].
Defined.

Lemma Simple_main_loop_client_ends fuel :
  forall requestCounter stdin w counter rest,
    fst (Simple.main_loop_client fuel requestCounter stdin w) = Some (counter, rest) ->
    w_running (snd (Simple.main_loop_client fuel requestCounter stdin w)) = false
    /\ exists records,
         written (w_trace (snd (Simple.main_loop_client fuel requestCounter stdin w)))
         = written (w_trace w) ++ records
         /\ Forall (fun record =>
                      record = Simple.encode Simple.free_Message
                      \/ exists number text,
                           record = Simple.encode (Simple.request_Message number text))
                   records.
Proof.
  induction fuel as [|fuel IH]; intros requestCounter stdin w counter rest; [discriminate|].
  cbn [Simple.main_loop_client]. rewrite bind_run, load_running_run.
  destruct (w_running (tick w)) eqn:Hrun; cbn [negb].
  2: { unfold mret, M_ret. cbn [fst snd]. intros _. split; [exact Hrun|].
       exists []. rewrite tick_trace, app_nil_r. split; [reflexivity|constructor]. }
  rewrite bind_run.
  pose proof (Simple_silent_wait_for_free (S fuel) 0 Simple.zero_Message stdin (tick w)) as Hwait.
  destruct (Simple.wait_for_free (S fuel) 0 Simple.zero_Message stdin (tick w))
    as [[[msg1 stdin1]|] w1]; cbn [snd] in Hwait; [|discriminate].
  rewrite tick_trace in Hwait.
  rewrite bind_run, load_running_run.
  destruct (w_running (tick w1)) eqn:Hrun1; cbn [negb].
  2: { unfold mret, M_ret. cbn [fst snd]. intros _. split; [exact Hrun1|].
       exists []. rewrite tick_trace, app_nil_r, Hwait. split; [reflexivity|constructor]. }
  rewrite bind_run.
  pose proof (Simple_silent_getInputFromUser (S fuel) stdin1 (tick w1)) as Htyped.
  destruct (Simple.getInputFromUser (S fuel) stdin1 (tick w1)) as [[[userInput stdin2]|] w2];
    cbn [snd] in Htyped; [|discriminate].
  rewrite tick_trace in Htyped.
  rewrite bind_run, load_running_run.
  destruct (w_running (tick w2)) eqn:Hrun2; cbn [negb].
  2: { unfold mret, M_ret. cbn [fst snd]. intros _. split; [exact Hrun2|].
       exists []. rewrite tick_trace, app_nil_r, Htyped, Hwait. split; [reflexivity|constructor]. }
  rewrite bind_run.
  pose proof (Simple_request_exchange_writes (S fuel) userInput requestCounter (tick w2))
    as Hturn. cbv zeta in Hturn.
  destruct (Simple.request_exchange (S fuel) userInput requestCounter (tick w2))
    as [[[outcome counter1]|] w3]; cbn [fst snd] in Hturn; [|discriminate].
  rewrite tick_trace, Htyped, Hwait in Hturn.
  intros Hend. destruct (IH counter1 stdin2 w3 counter rest Hend) as (Hstop & records & Hwr & Hall).
  split; [exact Hstop|].
  set (request := Simple.encode
                    (Simple.request_Message (wrap_int (requestCounter + 1)) userInput)) in *.
  assert (Hmine : exists mine,
             written (w_trace w3) = written (w_trace w) ++ mine
             /\ Forall (fun record =>
                          record = Simple.encode Simple.free_Message
                          \/ exists number text,
                               record = Simple.encode (Simple.request_Message number text))
                       mine).
  { assert (Hreq : request = Simple.encode Simple.free_Message
                   \/ exists number text,
                        request = Simple.encode (Simple.request_Message number text))
      by (right; eexists _, _; reflexivity).
    destruct outcome; destruct Hturn as [_ Hturn].
    - exists [request]. split; [exact Hturn|]. constructor; [exact Hreq|constructor].
    - exists [request; Simple.encode Simple.free_Message]. split; [exact Hturn|].
      constructor; [exact Hreq|constructor; [left; reflexivity|constructor]].
    - exists [request]. split; [exact Hturn|]. constructor; [exact Hreq|constructor].
    - exists [request; Simple.encode Simple.free_Message]. split; [exact Hturn|].
      constructor; [exact Hreq|constructor; [left; reflexivity|constructor]]. }
  destruct Hmine as (mine & Hwr3 & Hmine).
  exists (mine ++ records). split.
  - rewrite Hwr, Hwr3, <- app_assoc. reflexivity.
  - apply Forall_app. split; assumption.
Qed.

(** X25. However its main loop is left (a signal, "exit" typed at either
    prompt), the single-mailbox client then hands the FREE record to
    [writeMessage] as the last thing it writes, whatever the mailbox holds
    at that moment, and ends with exit code 0, its [running] flag down.
    Before that it has written nothing but requests and FREE records. *)
Theorem X25_client_frees_on_exit (fuel : nat) (stdin : Stdin) (w : World) (code : Z) :
  fst (Simple.run_client fuel stdin w) = Some code ->
  let w' := snd (Simple.run_client fuel stdin w) in
  code = 0%Z
  /\ w_running w' = false
  /\ exists records,
       written (w_trace w')
       = written (w_trace w) ++ records ++ [Simple.encode Simple.free_Message]
       /\ Forall (fun record =>
                    record = Simple.encode Simple.free_Message
                    \/ exists number text,
                         record = Simple.encode (Simple.request_Message number text))
                 records.
Proof.
  cbv zeta. unfold Simple.run_client. rewrite bind_run, print_run, bind_run.
  pose proof (Simple_main_loop_client_ends fuel 0 stdin (emit (EvPrint "Client started.") w))
    as Hloop.
  destruct (Simple.main_loop_client fuel 0 stdin _) as [[[counter rest]|] w1];
    cbn [fst snd] in Hloop; [|discriminate].
  destruct (Hloop counter rest eq_refl) as (Hstop & records & Hwr & Hall).
  rewrite written_print in Hwr.
  rewrite bind_run, print_run, bind_run, Simple_io_writeMessage_run, bind_run, print_run.
  unfold mret, M_ret. cbn [fst snd]. intros [= <-].
  split; [reflexivity|]. split.
  - unfold emit, set_mailbox. cbn [w_running]. apply tick_running_false. exact Hstop.
  - exists records. split; [|exact Hall].
    autorewrite with trace. rewrite !written_app. cbn [written].
    rewrite !app_nil_r, Hwr, <- app_assoc. reflexivity.
Qed.

Lemma X25_client_frees_on_exit_witness :
  let w := quiet_world (healthy (Simple.encode Simple.zero_Message)) in
  w_running (snd (Simple.run_client 5 (typed_lines ["exit"]%string) w)) = false.
Proof.
  cbv zeta.
  apply (X25_client_frees_on_exit 5 (typed_lines ["exit"]%string)
           (quiet_world (healthy (Simple.encode Simple.zero_Message))) 0).
  vm_compute. reflexivity.
Defined.

(** ** A first contact, for any server *)

Lemma Ping_read_healthy m other :
  (INT_MIN <= Ping.status m <= INT_MAX)%Z ->
  (INT_MIN <= Ping.client_id m <= INT_MAX)%Z ->
  length (Ping.data m) = 256%nat ->
  Ping.readMessage (healthy (Ping.encode m)) other = (true, m).
Proof.
  intros Hs Hc Hd. apply Ping_readMessage_success. unfold healthy. cbn [h_seek_ok h_read_ok h_bytes].
  split; [reflexivity|]. split; [reflexivity|]. right.
  rewrite Ping_encode_length. split; [lia|].
  rewrite take_ge by (rewrite Ping_encode_length; lia).
  symmetry. apply Ping_decode_encode; assumption.
Qed.

Lemma Ping_write_healthy bs m :
  (length bs <= Ping.sizeof_Message)%nat ->
  Ping.writeMessage (healthy bs) m = (true, healthy (Ping.encode m)).
Proof.
  intros Hbs. unfold Ping.writeMessage, lseek, write, healthy.
  cbn [h_seek_ok h_write_cap h_read_ok h_rdwr_ok h_bytes Z.eqb].
  pose proof (Ping_encode_length m) as Hlen. unfold Ping.sizeof_Message in *.
  rewrite (take_ge (Ping.encode m)) by lia.
  rewrite Hlen. rewrite drop_ge by lia. rewrite app_nil_r. reflexivity.
Qed.

Lemma tick_next w i rest :
  w_env w = i :: rest ->
  tick w = {| w_mailbox := i_mailbox i (w_mailbox w);
              w_now := (w_now w + Z.max 0 (i_elapsed i))%Z;
              w_running := w_running w && negb (i_signal i);
              w_trace := w_trace w;
              w_env := rest |}.
Proof. intros H. unfold tick. rewrite H. reflexivity. Qed.

(** The turn a ping server takes on a mailbox that holds a first contact. *)
Lemma server_turn_first_contact sv command :
  Ping.isValidPingRequest (store_text command) = true ->
  (INT_MIN <= Ping.nextClientId sv <= INT_MAX)%Z ->
  i_mailbox (server_turn sv) (healthy (Ping.encode (Ping.request_Message 0 command)))
  = healthy (Ping.encode (pong_Message (Ping.serverInstanceNumber sv) (Ping.nextClientId sv))).
Proof.
  intros Hvalid Hnext. unfold server_turn. cbn [i_mailbox].
  set (fd := healthy (Ping.encode (Ping.request_Message 0 command))).
  assert (Hquiet : forall w, w_env w = [] -> tick w = w) by apply tick_alone.
  unfold Ping.serve. rewrite bind_run, load_running_run.
  rewrite (Hquiet (quiet_world fd)) by reflexivity.
  change (w_running (quiet_world fd)) with true. cbn [negb].
  rewrite bind_run. cbn [Ping.wait_for_request].
  rewrite bind_run, load_running_run, (Hquiet (quiet_world fd)) by reflexivity.
  change (w_running (quiet_world fd)) with true. cbn [negb].
  rewrite bind_run, Ping_io_readMessage_run, (Hquiet (quiet_world fd)) by reflexivity.
  change (w_mailbox (quiet_world fd)) with fd. unfold fd at 1.
  rewrite Ping_read_healthy;
    [|cbn; unfold INT_MIN, INT_MAX; lia|cbn; unfold INT_MIN, INT_MAX; lia
     |apply store_text_length].
  cbn [negb Ping.status Ping.request_Message].
  change (1 =? 1)%Z with true. cbv iota. unfold mret at 1, M_ret at 1.
  rewrite bind_run, load_running_run, (Hquiet (quiet_world fd)) by reflexivity.
  change (w_running (quiet_world fd)) with true. cbn [negb].
  rewrite bind_run.
  unfold Ping.handle_request. cbn [Ping.data Ping.request_Message]. rewrite Hvalid. cbn [negb].
  rewrite register_new_client by reflexivity.
  cbn [Ping.serverInstanceNumber Ping.client_id].
  fold (pong_Message (Ping.serverInstanceNumber sv) (Ping.nextClientId sv)).
  rewrite bind_run, Ping_io_writeMessage_run, (Hquiet (quiet_world fd)) by reflexivity.
  change (w_mailbox (quiet_world fd)) with fd. unfold fd.
  rewrite Ping_write_healthy by (rewrite Ping_encode_length; lia).
  cbn [fst snd negb]. rewrite bind_run, sleep_for_run. reflexivity.
Qed.

Ltac next_tick :=
  match goal with
  | |- context [tick ?w] =>
      rewrite (tick_next w _ _ eq_refl);
      cbn [w_mailbox w_now w_running w_trace w_env i_mailbox i_elapsed i_signal idle
           andb negb emit set_mailbox advance]
  end.

Lemma ping_exchange_first_contact fuel sv command :
  Ping.isValidPingRequest (store_text command) = true ->
  (0 < Ping.nextClientId sv <= INT_MAX)%Z ->
  let id := Ping.nextClientId sv in
  let answer := pong_Message (Ping.serverInstanceNumber sv) id in
  Ping.ping_exchange (S fuel) command 0 (contact_world sv)
  = (Some (Ping.Completed true, id),
     {| w_mailbox := healthy (Ping.encode (Ping.free_Message id));
        w_now := 10; w_running := true;
        w_trace := [EvWriteMessage (Ping.encode (Ping.request_Message 0 command)) true;
                    EvPrint ("Server assigned Client ID: " +:+ to_string id);
                    EvPrint ("Response: " +:+ c_str (Ping.data answer));
                    EvWriteMessage (Ping.encode (Ping.free_Message id)) true];
        w_env := [] |}).
Proof.
  intros Hvalid Hnext. cbv zeta.
  unfold Ping.ping_exchange, Ping.receive. rewrite bind_run.
  cbn [Ping.wait_for_free]. rewrite bind_run, load_running_run.
  unfold contact_world. next_tick.
  change (0 <? Ping.MAX_WAIT_ATTEMPTS)%Z with true. cbn [andb negb].
  rewrite bind_run, Ping_io_readMessage_run. next_tick.
  rewrite Ping_read_healthy by (cbn; unfold INT_MIN, INT_MAX; try lia; reflexivity).
  cbn [negb]. change (Ping.status Ping.zero_Message =? 0)%Z with true. cbv iota.
  unfold mret at 1, M_ret at 1.
  change (Ping.MAX_WAIT_ATTEMPTS <=? 0)%Z with false. cbv iota.
  rewrite bind_run, Ping_io_writeMessage_run. next_tick.
  rewrite Ping_write_healthy by (rewrite Ping_encode_length; lia).
  cbn [fst snd negb].
  cbn [w_mailbox w_now w_running w_trace w_env emit set_mailbox app].
  rewrite bind_run, steady_now_run. next_tick.
  rewrite (server_turn_first_contact sv command Hvalid)
    by (unfold INT_MIN, INT_MAX in *; lia).
  change (i_elapsed (server_turn sv)) with 10%Z.
  change (i_signal (server_turn sv)) with false. cbn [andb negb].
  rewrite bind_run. cbn [Ping.await_response].
  change (0 + 0 `max` 0 + 0 `max` 0 + 0 `max` 0 + 0 `max` 10)%Z with 10%Z.
  cbn [app].
  set (answer := pong_Message (Ping.serverInstanceNumber sv) (Ping.nextClientId sv)).
  set (w4 := {| w_mailbox := healthy (Ping.encode answer); w_now := 10; w_running := true;
                w_trace := [EvWriteMessage (Ping.encode (Ping.request_Message 0 command)) true];
                w_env := [] |}).
  assert (Hquiet : forall tr,
             tick {| w_mailbox := w_mailbox w4; w_now := 10; w_running := true;
                     w_trace := tr; w_env := [] |}
             = {| w_mailbox := w_mailbox w4; w_now := 10; w_running := true;
                  w_trace := tr; w_env := [] |})
    by (intros tr; apply tick_alone; reflexivity).
  rewrite bind_run, load_running_run, (tick_alone w4 eq_refl).
  change (w_running w4) with true. cbn [negb].
  rewrite bind_run, Ping_io_readMessage_run, (tick_alone w4 eq_refl).
  change (w_mailbox w4) with (healthy (Ping.encode answer)).
  rewrite Ping_read_healthy;
    [|cbn; unfold INT_MIN, INT_MAX; lia
     |unfold answer, pong_Message; cbn [Ping.client_id]; unfold INT_MIN, INT_MAX in *; lia
     |apply store_text_length].
  cbn [negb]. change (Ping.status answer =? 2)%Z with true. cbv iota.
  change (Ping.client_id answer) with (Ping.nextClientId sv).
  destruct (Z.ltb_spec 0 (Ping.nextClientId sv)) as [_|]; [|lia].
  change (0 =? 0)%Z with true. cbn [andb].
  rewrite bind_run, print_run. unfold mret at 1, M_ret at 1. cbv iota.
  assert (Hhead : Ascii.eqb (nth 0 (Ping.data answer) NUL) NUL = false).
  { unfold answer, pong_Message, Ping.pong. cbn [Ping.data].
    change ("pong from server #" +:+ to_string (Ping.serverInstanceNumber sv)
            +:+ " to client #" +:+ to_string (Ping.nextClientId sv))%string
      with (String "p" ("ong from server #" +:+ to_string (Ping.serverInstanceNumber sv)
                        +:+ " to client #" +:+ to_string (Ping.nextClientId sv))).
    rewrite store_text_cons by discriminate. reflexivity. }
  rewrite Hhead. cbn [andb negb].
  rewrite bind_run, print_run, bind_run, Ping_io_writeMessage_run.
  unfold w4, emit. cbn [w_mailbox w_now w_running w_trace w_env app].
  rewrite tick_alone by reflexivity. cbn [w_mailbox].
  rewrite Ping_write_healthy by (rewrite Ping_encode_length; lia).
  reflexivity.
Qed.

Lemma pong_read_back instance id :
  (INT_MIN <= instance <= INT_MAX)%Z ->
  (INT_MIN <= id <= INT_MAX)%Z ->
  c_str (store_text (Ping.pong instance id)) = Ping.pong instance id.
Proof.
  intros Hinstance Hid. rewrite c_str_store_text.
  assert (Hclean : no_nul (Ping.pong instance id) = true).
  { unfold Ping.pong. rewrite !no_nul_append, !no_nul_to_string. reflexivity. }
  rewrite no_nul_c_chars by exact Hclean.
  apply take_chars_all. unfold Ping.pong. rewrite !append_length.
  pose proof (to_string_length instance Hinstance).
  pose proof (to_string_length id Hid).
  cbn [String.length]. lia.
Qed.

(** X26. Client and server fit together. A client without id that finds a
    fresh mailbox free and sends a valid ping, and is answered by a ping
    server before it looks again, ends the exchange with a response: it
    takes the id the server had next, prints the pong that names the
    server's number and this id, and leaves the mailbox FREE, bearing the
    new id. *)
Theorem X26_first_contact_answered (fuel : nat) (sv : Ping.Server) (command : string) :
  (0 < fuel)%nat ->
  Ping.isValidPingRequest (store_text command) = true ->
  (0 < Ping.nextClientId sv <= INT_MAX)%Z ->
  in_int_range (Ping.serverInstanceNumber sv) = true ->
  let id := Ping.nextClientId sv in
  let r := Ping.ping_exchange fuel command 0 (contact_world sv) in
  fst r = Some (Ping.Completed true, id)
  /\ w_trace (snd r)
     = [EvWriteMessage (Ping.encode (Ping.request_Message 0 command)) true;
        EvPrint ("Server assigned Client ID: " +:+ to_string id);
        EvPrint ("Response: " +:+ Ping.pong (Ping.serverInstanceNumber sv) id);
        EvWriteMessage (Ping.encode (Ping.free_Message id)) true]
  /\ Ping.readMessage (w_mailbox (snd r)) Ping.zero_Message = (true, Ping.free_Message id).
Proof.
  intros Hfuel Hvalid Hnext Hinstance. cbv zeta.
  destruct fuel as [|fuel]; [lia|].
  rewrite (ping_exchange_first_contact fuel sv command Hvalid Hnext). cbn [fst snd w_trace w_mailbox].
  unfold in_int_range in Hinstance. apply andb_true_iff in Hinstance as [Hlo Hhi].
  apply Z.leb_le in Hlo, Hhi.
  split; [reflexivity|]. split.
  - unfold pong_Message. cbn [Ping.data].
    rewrite pong_read_back by (unfold INT_MIN, INT_MAX in *; lia). reflexivity.
  - apply Ping_read_healthy;
      [cbn; unfold INT_MIN, INT_MAX; lia
      |cbn [Ping.client_id Ping.free_Message]; unfold INT_MIN, INT_MAX in *; lia
      |reflexivity].
Qed.

Lemma X26_first_contact_answered_witness :
  fst (Ping.ping_exchange 1 " Ping " 0 (contact_world (Ping.initial_Server 2)))
  = Some (Ping.Completed true, 1%Z).
Proof.
  apply (proj1 (X26_first_contact_answered 1 (Ping.initial_Server 2) " Ping "
                  ltac:(lia) eq_refl ltac:(cbn; unfold INT_MAX; lia) eq_refl)).
Defined.

(** X27. The exchange of the ping client always ends: whatever the mailbox
    holds and whatever happens around the client, 52 turns of each of its
    two loops suffice (the wait for a free mailbox ends after at most 5
    sleeps of 100 ms, the wait for the response once its sleeps of 100 ms
    have used up the 5000 ms allowed). *)
Theorem X27_exchange_ends (fuel : nat) (command : string) (currentClientId : Z) (w : World) :
  (52 <= fuel)%nat ->
  exists outcome id,
    fst (Ping.ping_exchange fuel command currentClientId w) = Some (outcome, id).
Proof.
  intros Hfuel. pose proof (Ping_ping_exchange_total fuel command currentClientId w Hfuel) as H.
  destruct (fst (Ping.ping_exchange fuel command currentClientId w)) as [[outcome id]|];
    [eauto|contradiction].
Qed.

Lemma X27_exchange_ends_witness :
  exists outcome id,
    fst (Ping.ping_exchange 52 "ping" 0 (quiet_world (healthy []))) = Some (outcome, id).
Proof.
  apply (X27_exchange_ends 52 "ping" 0 (quiet_world (healthy []))). lia.
Defined.

(** ** The command CONNECT *)

Lemma autoConnect_available dir fs :
  Ping.autoConnectToServer dir fs <> EmptyString ->
  Ping.checkServerAvailability fs (Ping.autoConnectToServer dir fs) = true.
Proof.
  unfold Ping.autoConnectToServer.
  destruct (List.filter (Ping.checkServerAvailability fs) (Ping.findServerFiles dir))
    as [|first others] eqn:Hf; [contradiction|].
  intros _. apply filter_head in Hf as (_ & _ & _ & Hfirst & _). exact Hfirst.
Qed.

Lemma available_opens fs name :
  Ping.checkServerAvailability fs name = true ->
  exists fd, open_rdwr fs name = Some fd /\ fs_files fs !! name = Some fd.
Proof.
  unfold Ping.checkServerAvailability, open_rdwr.
  destruct (fs_files fs !! name) as [fd|]; [|discriminate].
  destruct (h_rdwr_ok fd); [|discriminate]. eauto.
Qed.

(** X28. After the command CONNECT the client is in one of three states.
    No server was found: it holds no descriptor, but keeps the name of the
    file it had and its client id. A server was found, a file the
    availability check accepts, and the [open] that follows succeeds: it
    holds the descriptor of that file under its name, and its client id is 0
    again. A server was found but the [open] fails, the file having gone or
    become inaccessible since the check: it reports "Failed to connect." and
    holds neither descriptor nor file name, its client id 0. The last state
    does not occur when the [open] finds the file system as the check has
    left it. *)
Theorem X28_connect_outcomes (dir : option (list string)) (fs fs_open : FS)
    (c : Ping.Client) (w : World) :
  let r := Ping.connect dir fs fs_open c w in
  let c' := fst (fst r) in
  let fs' := snd (fst r) in
  let newFile := Ping.autoConnectToServer dir fs' in
  let closed := if Ping.fd_open c then no_descriptor else w_mailbox w in
  fs' = fst (Ping.close_fd fs c w)
  /\ ((newFile = EmptyString
       /\ c' = {| Ping.currentFile := Ping.currentFile c; Ping.fd_open := false;
                  Ping.currentClientId := Ping.currentClientId c |}
       /\ w_mailbox (snd r) = closed
       /\ w_trace (snd r) = w_trace w ++ [EvPrint "No servers available."])
      \/ (newFile <> EmptyString
          /\ Ping.checkServerAvailability fs' newFile = true
          /\ (fs_open = fs' -> open_rdwr fs_open newFile <> None)
          /\ match open_rdwr fs_open newFile with
             | Some fd =>
                 c' = {| Ping.currentFile := newFile; Ping.fd_open := true;
                         Ping.currentClientId := 0 |}
                 /\ fs_files fs_open !! newFile = Some fd
                 /\ w_mailbox (snd r) = fd
                 /\ w_trace (snd r) = w_trace w ++ [EvPrint ("Connected to: " +:+ newFile)]
             | None =>
                 c' = {| Ping.currentFile := EmptyString; Ping.fd_open := false;
                         Ping.currentClientId := 0 |}
                 /\ w_mailbox (snd r) = closed
                 /\ w_trace (snd r) = w_trace w ++ [EvPrint "Failed to connect."]
             end)).
Proof.
  cbv zeta. unfold Ping.connect.
  assert (Hclosed : w_mailbox (snd (Ping.close_fd fs c w))
                    = if Ping.fd_open c then no_descriptor else w_mailbox w)
    by (unfold Ping.close_fd; destruct (Ping.fd_open c); reflexivity).
  assert (Htrace : w_trace (snd (Ping.close_fd fs c w)) = w_trace w)
    by (unfold Ping.close_fd; destruct (Ping.fd_open c); reflexivity).
  destruct (Ping.close_fd fs c w) as [fs1 w1]. cbn [fst snd] in *.
  destruct (String.eqb_spec (Ping.autoConnectToServer dir fs1) EmptyString) as [Hnone|Hsome];
    cbn [fst snd].
  - split; [reflexivity|]. left. rewrite emit_trace, emit_mailbox, Htrace. auto.
  - pose proof (autoConnect_available dir fs1 Hsome) as Havailable.
    destruct (open_rdwr fs_open (Ping.autoConnectToServer dir fs1)) as [fd|] eqn:Hopen;
      cbn [fst snd]; rewrite Hopen.
    + split; [reflexivity|]. right.
      split; [exact Hsome|]. split; [exact Havailable|]. split; [discriminate|].
      split; [reflexivity|]. split.
      * unfold open_rdwr in Hopen.
        destruct (fs_files fs_open !! Ping.autoConnectToServer dir fs1) as [fd0|];
          [|discriminate].
        destruct (h_rdwr_ok fd0); [|discriminate]. exact Hopen.
      * rewrite emit_trace, emit_mailbox. cbn [set_mailbox w_mailbox w_trace].
        rewrite Htrace. auto.
    + split; [reflexivity|]. right.
      split; [exact Hsome|]. split; [exact Havailable|]. split.
      * intros ->. destruct (available_opens _ _ Havailable) as (fd & Hfd & _).
        rewrite Hfd in Hopen. discriminate Hopen.
      * rewrite emit_trace, emit_mailbox, Htrace. auto.
Qed.

Lemma Ping_readMessage_no_descriptor msg : Ping.readMessage no_descriptor msg = (false, msg).
Proof. reflexivity. Qed.

Lemma Ping_writeMessage_no_descriptor msg :
  Ping.writeMessage no_descriptor msg = (false, no_descriptor).
Proof. reflexivity. Qed.

(** X29. A CONNECT that finds no server leaves a connected client in a
    state the rest of the program does not expect: the descriptor is gone,
    the file name is not. Alone in that state, the client lets the next
    ping through (it is not told "Not connected to server"), reads and
    writes on the missing descriptor, and ends the exchange with "Failed to
    send ping." *)
Theorem X29_ping_after_failed_connect (dir : option (list string)) (fs fs_open : FS)
    (c : Ping.Client) (w : World) (fuel : nat) (command : string) (stdin rest : Stdin) :
  Ping.fd_open c = true ->
  Ping.currentFile c <> EmptyString ->
  Ping.autoConnectToServer dir (fst (Ping.close_fd fs c w)) = EmptyString ->
  alone w ->
  String.eqb (transform tolower command) "ping" = true ->
  getline EmptyString stdin = (command, rest) ->
  let connected := Ping.connect dir fs fs_open c w in
  let c' := fst (fst connected) in
  let typed := Ping.getInputFromUser (S fuel) (Ping.currentFile c') (Ping.currentClientId c')
                 stdin (snd connected) in
  let sent := Ping.ping_exchange (S fuel) command (Ping.currentClientId c') (snd typed) in
  Ping.fd_open c' = false
  /\ Ping.currentFile c' = Ping.currentFile c
  /\ fst typed = Some (command, rest)
  /\ fst sent = Some (Ping.SendFailed, Ping.currentClientId c)
  /\ w_trace (snd sent)
     = w_trace w
       ++ [EvPrint "No servers available."; EvPrint "Enter command: ";
           EvWriteMessage
             (Ping.encode (Ping.request_Message (Ping.currentClientId c) command)) false;
           EvPrint "Failed to send ping."].
Proof.
  intros Hopen Hfile Hnone [Henv Hrun] Hping Hline. cbv zeta.
  unfold Ping.connect. unfold Ping.close_fd in *. rewrite Hopen in *. cbn [fst snd] in *.
  rewrite Hnone. change (String.eqb EmptyString EmptyString) with true. cbv iota.
  cbn [fst snd Ping.currentFile Ping.fd_open Ping.currentClientId].
  set (w1 := emit (EvPrint "No servers available.") (set_mailbox no_descriptor w)).
  assert (Hlower : transform tolower command = "ping"%string) by (apply String.eqb_eq, Hping).
  assert (Htyped : Ping.getInputFromUser (S fuel) (Ping.currentFile c) (Ping.currentClientId c)
                     stdin w1
                   = (Some (command, rest), emit (EvPrint "Enter command: ") w1)).
  { unfold Ping.getInputFromUser. cbn [Ping.getInputFromUser_loop].
    rewrite bind_run, print_run, Hline.
    destruct (String.eqb_spec command EmptyString) as [->|_]; [discriminate Hlower|].
    rewrite Hlower.
    change (String.eqb "ping" "exit") with false.
    change (String.eqb "ping" "status") with false.
    change (String.eqb "ping" "connect") with false.
    change (String.eqb "ping" "disconnect") with false.
    change (String.eqb "ping" "ping") with true. cbn [negb].
    destruct (String.eqb_spec (Ping.currentFile c) EmptyString) as [|_]; [contradiction|].
    reflexivity. }
  rewrite Htyped. cbn [fst snd].
  set (w2 := emit (EvPrint "Enter command: ") w1).
  assert (Henv2 : w_env w2 = []) by exact Henv.
  assert (Hsent : Ping.ping_exchange (S fuel) command (Ping.currentClientId c) w2
                  = (Some (Ping.SendFailed, Ping.currentClientId c),
                     emit (EvPrint "Failed to send ping.")
                       (emit (EvWriteMessage
                                (Ping.encode (Ping.request_Message (Ping.currentClientId c)
                                                command)) false) w2))).
  { unfold Ping.ping_exchange, Ping.receive. rewrite bind_run. cbn [Ping.wait_for_free].
    rewrite bind_run, load_running_run, (tick_alone w2 Henv2).
    change (w_running w2) with (w_running w). rewrite Hrun.
    change (0 <? Ping.MAX_WAIT_ATTEMPTS)%Z with true. cbn [andb negb].
    rewrite bind_run, Ping_io_readMessage_run, (tick_alone w2 Henv2).
    change (w_mailbox w2) with no_descriptor.
    rewrite Ping_readMessage_no_descriptor. cbn [negb]. unfold mret at 1, M_ret at 1.
    change (Ping.MAX_WAIT_ATTEMPTS <=? 0)%Z with false. cbv iota.
    rewrite bind_run, Ping_io_writeMessage_run, (tick_alone w2 Henv2).
    change (w_mailbox w2) with no_descriptor.
    rewrite Ping_writeMessage_no_descriptor. cbn [fst snd negb].
    rewrite bind_run, print_run. reflexivity. }
  rewrite Hsent. cbn [fst snd].
  split; [reflexivity|]. split; [reflexivity|]. split; [reflexivity|]. split; [reflexivity|].
  unfold w2, w1, emit, set_mailbox. cbn [w_trace]. rewrite <- !app_assoc. reflexivity.
Qed.
Lemma X29_ping_after_failed_connect_witness :
  let fd := healthy (Ping.encode Ping.zero_Message) in
  let fs := sample_fs "ipc_server_1.bin" fd in
  let c := {| Ping.currentFile := "ipc_server_1.bin"; Ping.fd_open := true;
              Ping.currentClientId := 3 |} in
  let connected := Ping.connect (Some []) fs fs c (quiet_world fd) in
  let typed := Ping.getInputFromUser 6 "ipc_server_1.bin" 3 (typed_lines ["Ping"]%string)
                 (snd connected) in
  fst (Ping.ping_exchange 6 "Ping" 3 (snd typed)) = Some (Ping.SendFailed, 3%Z).
Proof.
  cbv zeta.
  apply (proj1 (proj2 (proj2 (proj2
           (X29_ping_after_failed_connect (Some [])
              (sample_fs "ipc_server_1.bin" (healthy (Ping.encode Ping.zero_Message)))
              (sample_fs "ipc_server_1.bin" (healthy (Ping.encode Ping.zero_Message)))
              {| Ping.currentFile := "ipc_server_1.bin"; Ping.fd_open := true;
                 Ping.currentClientId := 3 |}
              (quiet_world (healthy (Ping.encode Ping.zero_Message)))
              5 "Ping" (typed_lines ["Ping"]%string) (typed_lines [])
              eq_refl ltac:(discriminate) eq_refl (conj eq_refl eq_refl)
              eq_refl eq_refl))))).
Defined.

(** ** An ordinary request, from the client's text to the server's answer *)

(** X30. A request that the single-mailbox client builds from a text of at
    most 241 characters which is none of the four words the server treats
    specially ("error", "timeout", "crash", "invalid") is counted by the
    server, worked on for 100 ms (500 ms when the text is longer than 20
    characters) and answered with the RESPONSE "OK"; the error count grows
    only if writing that answer fails. *)
Theorem X30_ordinary_request_answered_OK (st : Simple.Counters) (n : Z) (text : string)
    (w : World) :
  (0 <= n <= INT_MAX)%Z ->
  no_nul text = true ->
  text <> EmptyString ->
  (String.length text <= 241)%nat ->
  text <> "error"%string -> text <> "timeout"%string ->
  text <> "crash"%string -> text <> "invalid"%string ->
  let r := Simple.handle_request st (Simple.request_Message n text) w in
  let answer := {| Simple.status := 2; Simple.data := store_text "OK" |} in
  exists ok,
    w_trace (snd r)
    = w_trace w ++ [EvSleep (if (20 <? String.length text)%nat then 500 else 100);
                    EvWriteMessage (Simple.encode answer) ok]
    /\ Simple.processedRequests (fst r) = wrap_int (Simple.processedRequests st + 1)
    /\ Simple.errorCount (fst r)
       = (if ok then Simple.errorCount st else wrap_int (Simple.errorCount st + 1)).
Proof.
  intros Hn Hclean Hne Hshort Herror Htimeout Hcrash Hinvalid. cbv zeta.
  destruct (Simple_request_seen n text Hn Hclean) as (_ & _ & Hnum & Htxt & Hroom).
  cbv zeta in Hnum, Htxt, Hroom.
  rewrite take_chars_all in Htxt by lia.
  pose proof (Simple_request_passes n text Hn Hclean Hne) as Hpass.
  unfold Simple.passes_validation in Hpass. apply andb_true_iff in Hpass as [Hvalid _].
  destruct (Simple.handle_request st (Simple.request_Message n text) w) as [st' w'] eqn:Hrun.
  cbn [fst snd].
  unfold Simple.handle_request in Hrun. cbv zeta in Hrun. rewrite Hvalid in Hrun.
  cbn [negb] in Hrun. rewrite bind_run in Hrun.
  unfold Simple.processRequest in Hrun. cbv zeta in Hrun. rewrite Hnum, Htxt in Hrun.
  destruct (Z.eqb_spec n (-1)) as [|_]; [lia|]. cbn [orb] in Hrun.
  destruct (String.eqb_spec text EmptyString) as [|_]; [contradiction|].
  destruct (String.eqb_spec text "error") as [|_]; [contradiction|].
  destruct (String.eqb_spec text "timeout") as [|_]; [contradiction|].
  destruct (String.eqb_spec text "crash") as [|_]; [contradiction|].
  destruct (String.eqb_spec text "invalid") as [|_]; [contradiction|].
  rewrite bind_run, sleep_for_run in Hrun. unfold mret at 1, M_ret at 1 in Hrun.
  rewrite bind_run, Simple_io_writeMessage_run in Hrun.
  match type of Hrun with
  | context [fst (Simple.writeMessage ?fd ?m)] =>
      exists (fst (Simple.writeMessage fd m)); destruct (fst (Simple.writeMessage fd m))
  end; cbn [negb] in Hrun; unfold mret, M_ret in Hrun; injection Hrun as <- <-;
    cbn [Simple.processedRequests Simple.errorCount];
    autorewrite with trace; rewrite <- app_assoc; auto.
Qed.

Lemma X30_ordinary_request_answered_OK_witness :
  let st := {| Simple.processedRequests := 4; Simple.errorCount := 1 |} in
  let w := quiet_world (healthy (Simple.encode (Simple.request_Message 5 "what time is it"))) in
  exists ok,
    w_trace (snd (Simple.handle_request st (Simple.request_Message 5 "what time is it") w))
    = w_trace w
      ++ [EvSleep (if (20 <? String.length "what time is it")%nat then 500 else 100);
          EvWriteMessage
            (Simple.encode {| Simple.status := 2; Simple.data := store_text "OK" |}) ok]
    /\ Simple.processedRequests
         (fst (Simple.handle_request st (Simple.request_Message 5 "what time is it") w))
       = wrap_int (Simple.processedRequests st + 1)
    /\ Simple.errorCount
         (fst (Simple.handle_request st (Simple.request_Message 5 "what time is it") w))
       = (if ok then Simple.errorCount st else wrap_int (Simple.errorCount st + 1)).
Proof.
  cbv zeta.
  apply (X30_ordinary_request_answered_OK
           {| Simple.processedRequests := 4; Simple.errorCount := 1 |} 5 "what time is it"
           (quiet_world (healthy (Simple.encode (Simple.request_Message 5 "what time is it")))));
    try discriminate; try reflexivity; cbn; unfold INT_MAX; lia.
Defined.
